(** * MediaSmartServerDeamon: the device monitor

    A shallow embedding of [src/device_monitor.cpp] (class [DeviceMonitor])
    and of the part of [src/mediasmartserverd.cpp] that drives it, followed by
    the properties of the bay-index resolver, of the start-up enumeration and
    of the monitor loop.

    Conventions of the embedding:
    - a C [int] is a [Z] kept in the 32-bit signed range, every arithmetic
      operation written with its two's-complement wrap-around ([Int]);
    - a [const char*] that may be [NULL] is an [option string];
    - a [udev_device*] is a node of the sysfs tree carrying its parent chain;
    - the member functions run in a monad [M] that threads the object's
      fields, collects the observable effects (writes to [std::cout], calls
      of [LedControl::Set], stores to [led_index_ofs_]) and records how the
      call ends (normal return, exception, failed assertion, or still blocked
      in [pselect]). *)

From Stdlib Require Import ZArith List String Ascii Bool Lia.
Import ListNotations.

Local Open Scope string_scope.
Local Open Scope Z_scope.

Set Warnings "-register-all".

(* ------------------------------------------------------------------------- *)
(** ** The C [int] *)

(** Signed overflow is undefined in C++; the model takes the result of the
    two's-complement hardware. The theorems that give a value as a plain
    integer expression assume that the expression is in range. *)
Module Int.

Definition min_signed : Z := -2147483648.
Definition max_signed : Z := 2147483647.
Definition modulus : Z := 4294967296.

(** The value of the 32-bit two's-complement pattern of [z]. *)
Definition wrap (z : Z) : Z := (z - min_signed) mod modulus + min_signed.

Definition in_range (z : Z) : Prop := min_signed <= z <= max_signed.

Definition add (a b : Z) : Z := wrap (a + b).
Definition sub (a b : Z) : Z := wrap (a - b).
Definition neg (a : Z) : Z := wrap (- a).

(** [abs] of <stdlib.h>. *)
Definition abs (a : Z) : Z := wrap (Z.abs a).

End Int.

(** [long] on the 64-bit targets of the daemon; [strtol] saturates to it. *)
Definition LONG_MIN : Z := -9223372036854775808.
Definition LONG_MAX : Z := 9223372036854775807.

(* ------------------------------------------------------------------------- *)
(** ** The C library functions the monitor calls *)

Definition LF : ascii := "010"%char.
Definition nl : string := String LF EmptyString.

(** [isspace] in the C locale. *)
Definition isspace (c : ascii) : bool :=
  let n := Z.of_nat (nat_of_ascii c) in
  (n =? 32) || ((9 <=? n) && (n <=? 13)).

Definition digit_value (c : ascii) : option Z :=
  let n := Z.of_nat (nat_of_ascii c) in
  if (48 <=? n) && (n <=? 57) then Some (n - 48) else None.

(** [tolower] in the C locale. *)
Definition tolower (c : ascii) : ascii :=
  let n := nat_of_ascii c in
  if (Nat.leb 65 n && Nat.leb n 90)%bool then ascii_of_nat (n + 32) else c.

Fixpoint string_map (f : ascii -> ascii) (s : string) : string :=
  match s with
  | EmptyString => EmptyString
  | String c s' => String (f c) (string_map f s')
  end.

(** [strcmp]: the standard fixes the sign of the result only. *)
Definition strcmp (a b : string) : Z :=
  match String.compare a b with
  | Eq => 0
  | Lt => -1
  | Gt => 1
  end.

(** [strcasecmp]: [strcmp] of the lower-cased strings. *)
Definition strcasecmp (a b : string) : Z :=
  strcmp (string_map tolower a) (string_map tolower b).

Fixpoint skip_spaces (s : string) : string :=
  match s with
  | String c s' => if isspace c then skip_spaces s' else s
  | EmptyString => s
  end.

Fixpoint digits_value (acc : Z) (s : string) : Z :=
  match s with
  | String c s' =>
      match digit_value c with
      | Some d => digits_value (10 * acc + d) s'
      | None => acc
      end
  | EmptyString => acc
  end.

(** [strtol (nptr, NULL, 10)]: leading white space, an optional sign, the
    longest run of decimal digits; saturates at [LONG_MIN] and [LONG_MAX]. *)
Definition strtol10 (nptr : string) : Z :=
  let s := skip_spaces nptr in
  let v :=
    match s with
    | String "-"%char s' => - digits_value 0 s'
    | String "+"%char s' => digits_value 0 s'
    | _ => digits_value 0 s
    end in
  Z.max LONG_MIN (Z.min LONG_MAX v).

(** [atoi (nptr)] is [(int) strtol (nptr, NULL, 10)]. *)
Definition atoi (nptr : string) : Z := Int.wrap (strtol10 nptr).

(** [errno] value of an interrupted system call. *)
Definition EINTR : Z := 4.

(* ------------------------------------------------------------------------- *)
(** ** libudev: devices and their ancestry *)

(** A [udev_device]: the attributes sysfs reports for it and its parent
    device, if it has one. *)
Inductive udev_device : Type := Build_udev_device {
  syspath : string;
  subsystem : option string;
  devtype : option string;
  sysnum : option string;
  action : option string;
  sysattrs : list (string * string);
  parent : option udev_device
}.

(** [std::tr1::shared_ptr<udev_device>]: empty or owning a device. *)
Definition UdevDevicePtr : Type := option udev_device.

Definition udev_device_get_syspath (d : udev_device) : option string :=
  Some (syspath d).
Definition udev_device_get_subsystem (d : udev_device) : option string :=
  subsystem d.
Definition udev_device_get_devtype (d : udev_device) : option string :=
  devtype d.
Definition udev_device_get_sysnum (d : udev_device) : option string :=
  sysnum d.
Definition udev_device_get_parent (d : udev_device) : option udev_device :=
  parent d.

(** [udev_device_get_action] answers [NULL] for a [NULL] device. *)
Definition udev_device_get_action (d : UdevDevicePtr) : option string :=
  match d with
  | Some dev => action dev
  | None => None
  end.

Fixpoint assoc_string (k : string) (l : list (string * string)) : option string :=
  match l with
  | [] => None
  | (k', v) :: l' => if String.eqb k k' then Some v else assoc_string k l'
  end.

Definition udev_device_get_sysattr_value (d : udev_device) (name : string)
  : option string :=
  assoc_string name (sysattrs d).

Definition option_string_is (o : option string) (s : string) : bool :=
  match o with
  | Some s' => String.eqb s' s
  | None => false
  end.

(** The nearest proper ancestor whose subsystem and devtype are the given
    ones; [NULL] when the chain of parents ends first. *)
Fixpoint udev_device_get_parent_with_subsystem_devtype
  (d : udev_device) (subsys devt : string) : option udev_device :=
  match parent d with
  | None => None
  | Some p =>
      if option_string_is (subsystem p) subsys && option_string_is (devtype p) devt
      then Some p
      else udev_device_get_parent_with_subsystem_devtype p subsys devt
  end.

(* ------------------------------------------------------------------------- *)
(** ** The monitor object, its effects and the monad of its member functions *)

(** Handles of libudev; a [NULL] pointer is [None]. *)
Variant udev : Type := Udev.
Variant udev_monitor : Type := UdevMonitor.

(** The LED interfaces [get_led_interface] tries, in its order. *)
Variant LedControl : Type := LedAcerH340 | LedHpEx48X.

(** [LedControlPtr], a shared pointer: empty or an interface. *)
Definition LedControlPtr : Type := option LedControl.

(** Modelled from the spec: the indicator colours, declared in the LED
    headers, which are absent; the monitor only names [LED_BLUE]. *)
Variant LedType : Type := LED_BLUE | LED_RED.

(** Modelled from the spec: [ErrnoException] of the absent
    [errno_exception.h], an error carrying the name of the failed operation
    (the argument of its constructor). *)
Record ErrnoException : Type := { what : string }.

(** The data members of [DeviceMonitor]. *)
Record DeviceMonitor : Type := {
  dev_context_ : option udev;
  dev_monitor_ : option udev_monitor;
  leds_ : LedControlPtr;
  led_index_ofs_ : Z
}.

(** One operand of a [std::cout << ...] chain. *)
Inductive cout_item : Type :=
| Str (s : string)
| Chr (c : ascii)
| Num (n : Z)
| CStr (p : option string).

(** What a member function does that can be seen from outside, in order. *)
Inductive effect : Type :=
| Cout (items : list cout_item)
| Leds_Set (led_type : LedType) (led_idx : Z) (state : bool)
| Store_led_index_ofs_ (v : Z).

(** How a call ends. [Blocked] is a call that has not returned: the loop is
    waiting in [pselect] and nothing more is known to happen. *)
Inductive result (A : Type) : Type :=
| Returned (a : A) (this : DeviceMonitor)
| Thrown (e : ErrnoException)
| AssertionFailed (expr : string)
| Blocked (this : DeviceMonitor).

Arguments Returned {A} a this.
Arguments Thrown {A} e.
Arguments AssertionFailed {A} expr.
Arguments Blocked {A} this.

Definition M (A : Type) : Type := DeviceMonitor -> list effect * result A.

Definition ret {A : Type} (a : A) : M A := fun this => ([], Returned a this).

Definition bind {A B : Type} (c : M A) (f : A -> M B) : M B :=
  fun this =>
    let (out1, r) := c this in
    match r with
    | Returned a this' => let (out2, r') := f a this' in ((out1 ++ out2)%list, r')
    | Thrown e => (out1, Thrown e)
    | AssertionFailed expr => (out1, AssertionFailed expr)
    | Blocked this' => (out1, Blocked this')
    end.

Declare Scope monitor_scope.
Delimit Scope monitor_scope with monitor.
Notation "x <- c1 ;; c2" := (bind c1 (fun x => c2))
  (at level 61, c1 at next level, right associativity) : monitor_scope.
Notation "c1 ;; c2" := (bind c1 (fun _ => c2))
  (at level 61, right associativity) : monitor_scope.
Local Open Scope monitor_scope.

Definition get_this : M DeviceMonitor := fun this => ([], Returned this this).
Definition emit (e : effect) : M unit := fun this => ([e], Returned tt this).
Definition cout (items : list cout_item) : M unit := emit (Cout items).
Definition throw {A : Type} (e : ErrnoException) : M A := fun _ => ([], Thrown e).
Definition block {A : Type} : M A := fun this => ([], Blocked this).

(** [assert (cond)], [expr] being the text of the condition. *)
Definition assert (cond : bool) (expr : string) : M unit :=
  fun this => ([], if cond then Returned tt this else AssertionFailed expr).

Definition when (cond : bool) (c : M unit) : M unit :=
  if cond then c else ret tt.

Definition set_leds_ (leds : LedControlPtr) : M unit :=
  fun this =>
    ([], Returned tt {| dev_context_ := dev_context_ this;
                        dev_monitor_ := dev_monitor_ this;
                        leds_ := leds;
                        led_index_ofs_ := led_index_ofs_ this |}).

Definition set_dev_context_ (p : option udev) : M unit :=
  fun this =>
    ([], Returned tt {| dev_context_ := p;
                        dev_monitor_ := dev_monitor_ this;
                        leds_ := leds_ this;
                        led_index_ofs_ := led_index_ofs_ this |}).

Definition set_dev_monitor_ (p : option udev_monitor) : M unit :=
  fun this =>
    ([], Returned tt {| dev_context_ := dev_context_ this;
                        dev_monitor_ := p;
                        leds_ := leds_ this;
                        led_index_ofs_ := led_index_ofs_ this |}).

(** The assignment [led_index_ofs_ = v], recorded among the effects. *)
Definition set_led_index_ofs_ (v : Z) : M unit :=
  fun this =>
    ([Store_led_index_ofs_ v],
     Returned tt {| dev_context_ := dev_context_ this;
                    dev_monitor_ := dev_monitor_ this;
                    leds_ := leds_ this;
                    led_index_ofs_ := v |}).

(** A C condition on an [int]: non-zero. *)
Definition truthy (z : Z) : bool := negb (z =? 0).

Definition is_some {A : Type} (o : option A) : bool :=
  match o with
  | Some _ => true
  | None => false
  end.

(** [std::map<int, UdevDevicePtr>]: the entries in ascending order of their
    keys, each key once. *)
Definition ListDevices : Type := list (Z * UdevDevicePtr).

(** [std::map::insert]: the pair goes to its place in the order; a map that
    already has the key is left as it is. *)
Fixpoint map_insert (k : Z) (v : UdevDevicePtr) (m : ListDevices) : ListDevices :=
  match m with
  | [] => [(k, v)]
  | (k', v') :: m' =>
      if k <? k' then (k, v) :: m
      else if k =? k' then m
      else (k', v') :: map_insert k v m'
  end.

(** What the operating system answers to the calls of [Init]. *)
Record udev_answers : Type := {
  udev_new : option udev;
  udev_monitor_new_from_netlink : option udev_monitor;
  udev_monitor_filter_add_match_subsystem_devtype : Z;
  (** the devices [udev_device_new_from_syspath] makes from the entries of the
      scan, in the order of the list; [None] where it fails *)
  udev_enumerate_devices : list UdevDevicePtr;
  udev_monitor_enable_receiving : Z
}.

(** One return of [pselect] in [Main], with [errno] when it fails, else
    whether the monitor's descriptor is set and what
    [udev_monitor_receive_device] then yields. *)
Inductive wakeup : Type :=
| Failed (errno : Z)
| Woken (fd_isset : bool) (received : UdevDevicePtr).

(* ------------------------------------------------------------------------- *)
(** ** Example topologies *)

Module Examples.

Definition bus (syspath subsys : string) : udev_device :=
  {| syspath := syspath; subsystem := Some subsys; devtype := None;
     sysnum := None; action := None; sysattrs := []; parent := None |}.

(** An AHCI controller on PCI and a USB storage interface. *)
Definition pci_controller : udev_device :=
  bus "/sys/devices/pci0000:00/0000:00:1f.2" "pci".
Definition usb_interface : udev_device :=
  bus "/sys/devices/pci0000:00/0000:00:1d.7/usb1/1-1/1-1:1.0" "usb".

(** A port node that reports no subsystem. *)
Definition ata_port : udev_device :=
  {| syspath := "/sys/devices/pci0000:00/0000:00:1f.2/ata1";
     subsystem := None; devtype := None; sysnum := Some "1"; action := None;
     sysattrs := []; parent := Some pci_controller |}.

(** The SCSI host [host<n>] below [up]. *)
Definition scsi_host (n : string) (up : option udev_device) : udev_device :=
  {| syspath := "/sys/devices/host" ++ n; subsystem := Some "scsi";
     devtype := Some "scsi_host"; sysnum := Some n; action := None;
     sysattrs := []; parent := up |}.

(** A SCSI host whose name carries no number. *)
Definition scsi_host_unnumbered : udev_device :=
  {| syspath := "/sys/devices/host"; subsystem := Some "scsi";
     devtype := Some "scsi_host"; sysnum := None; action := None;
     sysattrs := []; parent := Some pci_controller |}.

(** A disk: a [scsi_device] below a [scsi_target] below [up]. *)
Definition disk (up : option udev_device) (act : option string) : udev_device :=
  {| syspath := "/sys/devices/target0:0:0/0:0:0:0"; subsystem := Some "scsi";
     devtype := Some "scsi_device"; sysnum := Some "0"; action := act;
     sysattrs := [("vendor", "ATA"); ("model", "WDC WD10EADS")];
     parent :=
       Some {| syspath := "/sys/devices/target0:0:0"; subsystem := Some "scsi";
               devtype := Some "scsi_target"; sysnum := Some "0";
               action := None; sysattrs := []; parent := up |} |}.

Definition pci_disk (n : string) (act : option string) : udev_device :=
  disk (Some (scsi_host n (Some pci_controller))) act.
Definition usb_disk (n : string) (act : option string) : udev_device :=
  disk (Some (scsi_host n (Some usb_interface))) act.

(** Two USB disks on [host0] and [host1], three bay disks on [host2] to
    [host4]. *)
Definition two_usb_three_bays : list UdevDevicePtr :=
  [Some (usb_disk "0" None); Some (usb_disk "1" None);
   Some (pci_disk "2" None); Some (pci_disk "3" None); Some (pci_disk "4" None)].

(** The monitor as [main] has it after a successful [Init]. *)
Definition monitor (ofs : Z) : DeviceMonitor :=
  {| dev_context_ := Some Udev; dev_monitor_ := Some UdevMonitor;
     leds_ := Some LedHpEx48X; led_index_ofs_ := ofs |}.

Definition answers (entries : list UdevDevicePtr) : udev_answers :=
  {| udev_new := Some Udev;
     udev_monitor_new_from_netlink := Some UdevMonitor;
     udev_monitor_filter_add_match_subsystem_devtype := 0;
     udev_enumerate_devices := entries;
     udev_monitor_enable_receiving := 0 |}.

End Examples.

(* ------------------------------------------------------------------------- *)
(** ** [mediasmartserverd.cpp]: what the program does and how it ends *)

(** [size_t] on the 64-bit targets of the daemon. *)
Definition size_t (z : Z) : Z := z mod 18446744073709551616.

(** The exceptions thrown in [mediasmartserverd.cpp] and below it. Modelled
    from the spec: [ErrnoException] is caught by [main] as a
    [std::exception], as the absent [errno_exception.h] must declare it. *)
Inductive exception : Type :=
| errno_exception (e : ErrnoException)
| runtime_error (what_arg : string).

(** The second argument of the calls of [SetSystemLed], as written. *)
Variant system_led_state : Type :=
| by_bool (b : bool)
| LED_BLINK.

Variant signal : Type := SIGINT | SIGTERM.

(** What the program does that can be seen from outside, in order: its
    writes, the calls on the LED interface and on the system, and the
    effects of the device monitor. *)
Inductive event : Type :=
| Write_cout (items : list cout_item)
| Write_cerr_what (e : exception)
| LedControl_Init (control : LedControl)
| LedControl_Set (led_type : Z) (led_idx : Z) (state : bool)
| LedControl_SetBrightness (val : Z)
| LedControl_SetSystemLed (led_type : Z) (state : system_led_state)
| LedControl_MountUsb (state : bool)
| Call_sigaction (signum : signal)
| Call_setgid (gid : Z)
| Call_setuid (uid : Z)
| Call_daemon
| Call_srand
| Of_monitor (e : effect).

(** How a function of the program ends: it returns a value, an exception
    leaves it, an assertion aborts the process, or it is still going on
    when the answers of the system end. *)
Inductive ending (A : Type) : Type :=
| Done (a : A)
| Raised (e : exception)
| Aborted (expr : string)
| Going.

Arguments Done {A} a.
Arguments Raised {A} e.
Arguments Aborted {A} expr.
Arguments Going {A}.

(** One return of the [pselect] that waits between two frames of a light
    show: the time has elapsed, or the call failed with [errno]. *)
Variant pause : Type :=
| Elapsed
| Broken (errno : Z).

Section LightShow.

(** The values of the enumerators [LED_BLUE] and [LED_RED], declared in the
    absent LED headers. *)
Variable led_bits : LedType -> Z.

(** [case 0] of the show: for each bay a colour is drawn, set, and its
    complement cleared; [calls] counts the calls of [rand] so far. *)
Fixpoint holiday_lights (rand : nat -> Z) (calls : nat) (i : Z) (n : nat)
  (light_leds : Z) : list event * Z :=
  match n with
  | O => ([], light_leds)
  | S n' =>
      let r := Z.rem (rand calls) 4 in
      let light_leds :=
        if r =? 1 then led_bits LED_BLUE
        else if r =? 2 then led_bits LED_RED
        else if r =? 3 then Z.lor (led_bits LED_BLUE) (led_bits LED_RED)
        else 0 in
      let (out, light_leds') :=
        holiday_lights rand (S calls) (size_t (i + 1)) n' light_leds in
      (LedControl_Set light_leds i true
         :: LedControl_Set (Z.lnot light_leds) i false :: out,
       light_leds')
  end.

(** [for ( size_t i = 0; i < 4; ++i ) leds->Set( light_leds, i, (i == sel) )]. *)
Definition set_only (light_leds sel : Z) : list event :=
  map (fun i => LedControl_Set light_leds i (i =? sel)) [0; 1; 2; 3].

(** One turn of the [switch ( show_mode )]: the calls it makes and the new
    [state], [light_leds] and count of [rand] calls; [None] for the
    [default:] case. *)
Definition light_show_frame (rand : nat -> Z) (show_mode : Z)
  (light_leds state : Z) (calls : nat)
  : option (list event * (Z * Z * nat)) :=
  if show_mode =? 0 then
    let (out, light_leds') := holiday_lights rand calls 0 4 light_leds in
    Some (out, (state, light_leds', (calls + 4)%nat))
  else if show_mode =? 1 then
    let state' := size_t (state + 1) in
    Some (set_only light_leds (size_t (3 - state)),
          (if 4 <=? state' then 0 else state', light_leds, calls))
  else if show_mode =? 2 then
    let state' := size_t (state + 1) in
    Some (set_only light_leds state,
          (if 4 <=? state' then 0 else state', light_leds, calls))
  else if show_mode =? 3 then
    let sel := if state <? 3 then state else size_t (6 - state) in
    let state' := size_t (state + 1) in
    Some (set_only light_leds sel,
          (if 6 <=? state' then 0 else state', light_leds, calls))
  else if show_mode =? 4 then
    let sel := size_t (1 + (if state <? 9 then state else size_t (16 - state))) in
    let state' := size_t (state + 1) in
    Some ((map (fun i => LedControl_Set light_leds i true) [0; 1; 2; 3]
           ++ [LedControl_SetBrightness sel])%list,
          (if 16 <=? state' then 0 else state', light_leds, calls))
  else None.

(** The [while ( true )] of [run_light_show], one turn for each return of
    [pselect]; the value is that of [run_light_show]. *)
Fixpoint light_show_loop (rand : nat -> Z) (show_mode : Z)
  (light_leds state : Z) (calls : nat) (pauses : list pause)
  : list event * ending Z :=
  match light_show_frame rand show_mode light_leds state calls with
  | None => ([Write_cout [Str ("Unsupported light show" ++ nl)]], Done 1)
  | Some (out, (state', light_leds', calls')) =>
      match pauses with
      | [] => (out, Going)
      | Broken errno :: _ =>
          if negb (EINTR =? errno)
          then (out, Raised (errno_exception {| what := "select" |}))
          else ((out ++ [Write_cout [Str ("Exiting on signal" ++ nl)]])%list, Done 0)
      | Elapsed :: pauses' =>
          let (out', r) :=
            light_show_loop rand show_mode light_leds' state' calls' pauses' in
          ((out ++ out')%list, r)
      end
  end.

(** Run a light show; [main] calls it with an LED interface that is not
    null. *)
Definition run_light_show (rand : nat -> Z) (light_show : Z) (pauses : list pause)
  : list event * ending Z :=
  if 1 =? light_show then
    let (out, r) := light_show_loop rand 0 0 0 0 pauses in
    (Call_srand :: out, r)
  else
    let show_mode := size_t (Int.add (Z.rem (Int.sub light_show 2) 4) 1) in
    let light_leds :=
      let q := Z.quot (Int.sub light_show 2) 4 in
      if q =? 1 then led_bits LED_RED
      else if q =? 2 then Z.lor (led_bits LED_BLUE) (led_bits LED_RED)
      else led_bits LED_BLUE in
    light_show_loop rand show_mode light_leds 0 0 pauses.

End LightShow.

(** The colour a show runs in, by its number: what the [switch] on
    [(light_show - 2) / 4] selects. *)
Definition show_colour (led_bits : LedType -> Z) (light_show : Z) : Z :=
  if light_show <? 6 then led_bits LED_BLUE
  else if light_show <? 10 then led_bits LED_RED
  else if light_show <? 14 then Z.lor (led_bits LED_BLUE) (led_bits LED_RED)
  else led_bits LED_BLUE.

(** The number of frames after which a show repeats. *)
Definition show_period (show_mode : Z) : Z :=
  if show_mode =? 3 then 6 else if show_mode =? 4 then 16 else 4.

(** The frame number [j] of the show [show_mode], counted from 0. *)
Definition show_frame_at (show_mode light_leds j : Z) : list event :=
  let s := j mod show_period show_mode in
  if show_mode =? 1 then set_only light_leds (3 - s)
  else if show_mode =? 2 then set_only light_leds s
  else if show_mode =? 3 then set_only light_leds (if s <? 3 then s else 6 - s)
  else (map (fun i => LedControl_Set light_leds i true) [0; 1; 2; 3]
        ++ [LedControl_SetBrightness (1 + (if s <? 9 then s else 16 - s))])%list.

(** The colour the holiday lights draw from a value of [rand]. *)
Definition holiday_colour (led_bits : LedType -> Z) (r : Z) : Z :=
  if Z.rem r 4 =? 1 then led_bits LED_BLUE
  else if Z.rem r 4 =? 2 then led_bits LED_RED
  else if Z.rem r 4 =? 3 then Z.lor (led_bits LED_BLUE) (led_bits LED_RED)
  else 0.

(** A frame of the holiday lights whose first draw is the call number
    [base] of [rand]: bay by bay, the colour drawn is set and its complement
    cleared. *)
Definition holiday_frame (led_bits : LedType -> Z) (rand : nat -> Z) (base : nat)
  : list event :=
  flat_map (fun i =>
              [LedControl_Set (holiday_colour led_bits (rand (base + i)%nat))
                 (Z.of_nat i) true;
               LedControl_Set (Z.lnot (holiday_colour led_bits (rand (base + i)%nat)))
                 (Z.of_nat i) false])
    (seq 0 4).

(** What a light show in a single colour may do: set that colour on one of
    the bays 0 to 3, set a brightness from 1 to 9, or write a message. *)
Definition show_event_ok (light_leds : Z) (e : event) : Prop :=
  match e with
  | LedControl_Set led_type led_idx _ => led_type = light_leds /\ 0 <= led_idx <= 3
  | LedControl_SetBrightness val => 1 <= val <= 9
  | Write_cout _ => True
  | _ => False
  end.

(** How a light show can end. *)
Definition show_ending (r : ending Z) : Prop :=
  r = Going \/ r = Done 0 \/ r = Done 1
  \/ r = Raised (errno_exception {| what := "select" |}).

(** [char] as the [int] that [getopt_long] returns. *)
Definition char_code (c : ascii) : Z := Z.of_nat (nat_of_ascii c).

(** The locals of [main] that the options set, and the two globals. *)
Record main_vars : Type := {
  brightness : Z;
  light_show : Z;
  mount_usb : Z;
  run_as_daemon : bool;
  xmas : bool;
  g_debug : Z;
  g_verbose : Z
}.

(** The variables as [main] and the globals initialise them. *)
Definition main_vars_init : main_vars :=
  {| brightness := -1; light_show := 0; mount_usb := -1;
     run_as_daemon := false; xmas := false; g_debug := 0; g_verbose := 0 |}.

Section Options.

(** [argv[0]], and the macros [__DATE__] and [__TIME__] of the build. *)
Variables argv0 DATE TIME : string.

(** Show command line help. *)
Definition show_help : list event * Z :=
  ([Write_cout
      [Str ("Usage: mediasmartserverd [OPTION]..." ++ nl);
       Str ("     --brightness=X    Set LED brightness (1 to 10)" ++ nl);
       Str (" -D, --daemon          Detach and run in the background" ++ nl);
       Str ("     --debug           Print debug messages" ++ nl);
       Str ("     --help            Print help text" ++ nl);
       Str (" -v, --verbose         verbose (use twice to be more verbose)" ++ nl);
       Str (" -V, --version         Show version number" ++ nl)]],
   0).

(** Show version. *)
Definition show_version : list event * Z :=
  ([Write_cout
      [Str ("mediasmartserverd 0.0.1 compiled on " ++ DATE ++ " " ++ TIME ++ nl)]],
   0).

(** The [switch ( c )] of [main] for one return [c] of [getopt_long], with
    [optarg] as the call left it: the variables after it, or the value
    [main] returns from there. *)
Definition main_option (c : Z) (optarg : option string) (v : main_vars)
  : list event * (main_vars + Z) :=
  if c =? char_code "b" then
    ([], inl {| brightness := match optarg with
                              | Some s => atoi s
                              | None => brightness v
                              end;
                light_show := light_show v; mount_usb := mount_usb v;
                run_as_daemon := run_as_daemon v; xmas := xmas v;
                g_debug := g_debug v; g_verbose := g_verbose v |})
  else if c =? char_code "d" then
    ([], inl {| brightness := brightness v; light_show := light_show v;
                mount_usb := mount_usb v; run_as_daemon := run_as_daemon v;
                xmas := xmas v; g_debug := Int.add (g_debug v) 1;
                g_verbose := g_verbose v |})
  else if c =? char_code "D" then
    ([], inl {| brightness := brightness v; light_show := light_show v;
                mount_usb := mount_usb v; run_as_daemon := true;
                xmas := xmas v; g_debug := g_debug v; g_verbose := g_verbose v |})
  else if c =? char_code "h" then
    let (out, status) := show_help in (out, inr status)
  else if c =? char_code "S" then
    ([], inl {| brightness := brightness v;
                light_show := match optarg with
                              | Some s => atoi s
                              | None => light_show v
                              end;
                mount_usb := mount_usb v; run_as_daemon := run_as_daemon v;
                xmas := xmas v; g_debug := g_debug v; g_verbose := g_verbose v |})
  else if c =? char_code "U" then
    ([], inl {| brightness := brightness v; light_show := light_show v;
                mount_usb := match optarg with
                             | Some s => atoi s
                             | None => mount_usb v
                             end;
                run_as_daemon := run_as_daemon v; xmas := xmas v;
                g_debug := g_debug v; g_verbose := g_verbose v |})
  else if c =? char_code "v" then
    ([], inl {| brightness := brightness v; light_show := light_show v;
                mount_usb := mount_usb v; run_as_daemon := run_as_daemon v;
                xmas := xmas v; g_debug := g_debug v;
                g_verbose := Int.add (g_verbose v) 1 |})
  else if c =? char_code "V" then
    let (out, status) := show_version in (out, inr status)
  else if c =? char_code "X" then
    ([], inl {| brightness := brightness v; light_show := light_show v;
                mount_usb := mount_usb v; run_as_daemon := run_as_daemon v;
                xmas := true; g_debug := g_debug v; g_verbose := g_verbose v |})
  else if c =? char_code "?" then
    ([Write_cout [Str "Try `"; Str argv0; Str (" --help' for more information." ++ nl)]],
     inr 1)
  else
    ([Write_cout [Str "+++ '"; Chr (ascii_of_nat (Z.to_nat (c mod 256)));
                  Str ("'" ++ nl)]],
     inl v).

(** The loop of [main] over the command line: [returns] are the returns of
    [getopt_long] with [optarg], the call after the last of them returning
    -1. *)
Fixpoint main_options (returns : list (Z * option string)) (v : main_vars)
  : list event * (main_vars + Z) :=
  match returns with
  | [] => ([], inl v)
  | (c, optarg) :: returns' =>
      if -1 =? c then ([], inl v)
      else
        let (out, r) := main_option c optarg v in
        match r with
        | inl v' =>
            let (out', r') := main_options returns' v' in ((out ++ out')%list, r')
        | inr status => (out, inr status)
        end
  end.

End Options.

(** A return of [getopt_long] after which the loop of [main] goes on. *)
Definition option_goes_on (r : Z * option string) : Prop :=
  fst r <> -1 /\ fst r <> char_code "h" /\ fst r <> char_code "V"
  /\ fst r <> char_code "?".

(** How often [getopt_long] returned the option [c]. *)
Definition count_option (c : ascii) (returns : list (Z * option string)) : Z :=
  Z.of_nat (List.length (filter (fun r => fst r =? char_code c) returns)).

(** Register the signal handlers; the arguments are the values the two
    calls of [sigaction] return. *)
Definition init_signals (sigaction_SIGINT sigaction_SIGTERM : Z)
  : list event * ending unit :=
  if -1 =? sigaction_SIGINT
  then ([Call_sigaction SIGINT],
        Raised (errno_exception {| what := "sigaction(SIGINT)" |}))
  else if -1 =? sigaction_SIGTERM
  then ([Call_sigaction SIGINT; Call_sigaction SIGTERM],
        Raised (errno_exception {| what := "sigaction(SIGTERM)" |}))
  else ([Call_sigaction SIGINT; Call_sigaction SIGTERM], Done tt).

(** Drop root privileges; the argument is the [pw_uid] and [pw_gid] of
    what [getpwnam( "nobody" )] finds, if anything. *)
Definition drop_priviledges (pw : option (Z * Z)) : list event :=
  match pw with
  | None => []
  | Some (pw_uid, pw_gid) => [Call_setgid pw_gid; Call_setuid pw_uid]
  end.

(** Attempt to get an LED control interface; the arguments are what the
    [Init] of each interface returns. *)
Definition get_led_interface (LedAcerH340_Init LedHpEx48X_Init : bool)
  : list event * LedControlPtr :=
  if LedAcerH340_Init then ([LedControl_Init LedAcerH340], Some LedAcerH340)
  else if LedHpEx48X_Init
  then ([LedControl_Init LedAcerH340; LedControl_Init LedHpEx48X], Some LedHpEx48X)
  else ([LedControl_Init LedAcerH340; LedControl_Init LedHpEx48X], None).

(** What the system answers to [main] after the options. *)
Record system_answers : Type := {
  sigaction_SIGINT : Z;
  sigaction_SIGTERM : Z;
  LedAcerH340_Init : bool;
  LedHpEx48X_Init : bool;
  getpwnam_nobody : option (Z * Z);
  daemon : Z;
  Desc : LedControl -> string;
  getuid : Z;
  rand : nat -> Z;
  pauses : list pause;
  udev_calls : udev_answers;
  wakeups : list wakeup
}.

(** The functions of the program: their events and how they end. *)
Definition program (A : Type) : Type := list event * ending A.

Definition program_bind {A B : Type} (c : program A) (f : A -> program B)
  : program B :=
  let (out1, r) := c in
  match r with
  | Done a => let (out2, r') := f a in ((out1 ++ out2)%list, r')
  | Raised e => (out1, Raised e)
  | Aborted expr => (out1, Aborted expr)
  | Going => (out1, Going)
  end.

Declare Scope daemon_scope.
Delimit Scope daemon_scope with daemon.
Notation "x <- c1 ;; c2" := (program_bind c1 (fun x => c2))
  (at level 61, c1 at next level, right associativity) : daemon_scope.
Notation "c1 ;; c2" := (program_bind c1 (fun _ => c2))
  (at level 61, right associativity) : daemon_scope.

Definition does (out : list event) : program unit := (out, Done tt).
Definition raise {A : Type} (e : exception) : program A := ([], Raised e).

(** A call of a member function of the monitor [this], seen from [main]. *)
Definition of_monitor {A : Type} (c : M A) (this : DeviceMonitor)
  : program (A * DeviceMonitor) :=
  let (out, r) := c this in
  (map Of_monitor out,
   match r with
   | Returned a this' => Done (a, this')
   | Thrown e => Raised (errno_exception e)
   | AssertionFailed expr => Aborted expr
   | Blocked _ => Going
   end).

(** The handler of the function try block of [main]. *)
Definition main_catch (body : program Z) (getuid : Z) : program Z :=
  match body with
  | (out, Raised e) =>
      ((out ++ Write_cerr_what e
            :: (if negb (0 =? getuid)
                then [Write_cout [Str ("Try running as root" ++ nl)]]
                else []))%list,
       Done 1)
  | _ => body
  end.

(* ------------------------------------------------------------------------- *)
(** ** Example systems *)

Module ProgramExamples.

(** [LED_BLUE] as bit 0 and [LED_RED] as bit 1. *)
Definition bits (led_type : LedType) : Z :=
  match led_type with
  | LED_BLUE => 1
  | LED_RED => 2
  end.

(** A [rand] that counts. *)
Definition counting (n : nat) : Z := Z.of_nat n.

Definition udev_answers_of (ctx : option udev) (mon : option udev_monitor)
  (filter enable : Z) (entries : list UdevDevicePtr) : udev_answers :=
  {| udev_new := ctx;
     udev_monitor_new_from_netlink := mon;
     udev_monitor_filter_add_match_subsystem_devtype := filter;
     udev_enumerate_devices := entries;
     udev_monitor_enable_receiving := enable |}.

(** A system where the signal handlers install with the values [sigint] and
    [sigterm], the LED interfaces initialise as [acer] and [hp] say, the
    user nobody exists and the process runs as root. *)
Definition system (sigint sigterm : Z) (acer hp : bool) (os : udev_answers)
  (ws : list wakeup) : system_answers :=
  {| sigaction_SIGINT := sigint;
     sigaction_SIGTERM := sigterm;
     LedAcerH340_Init := acer;
     LedHpEx48X_Init := hp;
     getpwnam_nobody := Some (65534, 65533);
     daemon := 0;
     Desc := fun control =>
               match control with
               | LedAcerH340 => "Acer Aspire easyStore H340"
               | LedHpEx48X => "HP MediaSmart Server 48X"
               end;
     getuid := 0;
     rand := counting;
     pauses := [Elapsed; Broken 4];
     udev_calls := os;
     wakeups := ws |}.

Definition with_xmas : main_vars :=
  {| brightness := 5; light_show := 0; mount_usb := -1;
     run_as_daemon := false; xmas := true; g_debug := 0; g_verbose := 0 |}.

End ProgramExamples.

(* ------------------------------------------------------------------------- *)
(** ** The member functions of [DeviceMonitor] *)

(** The constructor. *)
Definition DeviceMonitor_new : DeviceMonitor :=
  {| dev_context_ := None;
     dev_monitor_ := None;
     leds_ := None;
     led_index_ofs_ := 0 |}.

(** Modelled from the spec: the default argument of [deviceChanged_]'s
    parameter [led_idx], declared in the absent [device_monitor.h]; a live
    event resolves its bay index through the resolver, which is what a
    default that is not positive gives. *)
Definition led_idx_default : Z := 0.

Section Monitor.

(** The globals of [mediasmartserverd.cpp]. *)
Variables debug verbose : Z.

(** Retrieve the LED index for a device: the index, or a value [<= 0] if
    the device is not a drive we are looking for. *)
Definition getLedIndexForDevice_ (device : udev_device) : M Z :=
  match udev_device_get_parent_with_subsystem_devtype device "scsi" "scsi_host" with
  | None => ret 0
  | Some scsi_host =>
      when (truthy debug)
        (cout [Str " scsi_host: '"; CStr (udev_device_get_syspath scsi_host);
               Str "' ("; CStr (udev_device_get_subsystem scsi_host);
               Str (")" ++ nl)]) ;;
      match udev_device_get_sysnum scsi_host with
      | None => ret 0
      | Some sysnum =>
          when (truthy debug || (1 <? verbose))
            (cout [Str " sysnum: "; Str sysnum; Chr LF]) ;;
          this <- get_this ;;
          let led_idx := Int.add (Int.sub (atoi sysnum) (led_index_ofs_ this)) 1 in
          match udev_device_get_parent scsi_host with
          | None => ret 0
          | Some scsi_host_parent =>
              when (truthy debug)
                (cout [Str " scsi_host_parent: '";
                       CStr (udev_device_get_syspath scsi_host_parent); Chr LF]) ;;
              match udev_device_get_subsystem scsi_host_parent with
              | None => ret led_idx
              | Some scsi_host_parent_subsystem =>
                  when (truthy debug)
                    (cout [Str " subsystem: "; Str scsi_host_parent_subsystem;
                           Chr LF]) ;;
                  ret (if strcmp "pci" scsi_host_parent_subsystem =? 0
                       then led_idx
                       else Int.neg led_idx)
              end
          end
      end
  end.

(** A device has changed. *)
Definition deviceChanged_ (device : udev_device) (state : bool) (led_idx : Z)
  : M unit :=
  when (truthy debug || (1 <? verbose))
    (cout [Str "Device "; Str (if state then "added" else "removed"); Str " '";
           CStr (udev_device_get_syspath device); Str ("'" ++ nl)]) ;;
  led_idx <- (if led_idx <=? 0 then getLedIndexForDevice_ device else ret led_idx) ;;
  if led_idx <=? 0 then ret tt
  else
    let model := udev_device_get_sysattr_value device "model" in
    cout [Str (if state then "ADDED" else "REMOVED"); Str " ["; Num led_idx;
          Str "] '";
          Str (match model with Some s => s | None => EmptyString end);
          Str ("'" ++ nl)] ;;
    this <- get_this ;;
    when (is_some (leds_ this)) (emit (Leds_Set LED_BLUE (Int.sub led_idx 1) state)).

Definition deviceAdded_ (device : udev_device) : M unit :=
  deviceChanged_ device true led_idx_default.

Definition deviceRemove_ (device : udev_device) : M unit :=
  deviceChanged_ device false led_idx_default.

(** First loop of [enumDevices_]: the devices of the scan go to the map. *)
Fixpoint enumDevices_collect (entries : list UdevDevicePtr)
  (scsi_devices : ListDevices) : M ListDevices :=
  match entries with
  | [] => ret scsi_devices
  | device :: entries' =>
      match device with
      | None => enumDevices_collect entries' scsi_devices
      | Some dev =>
          when (truthy debug || (1 <? verbose))
            (cout [Str "Device '"; CStr (udev_device_get_syspath dev);
                   Str ("'" ++ nl)]) ;;
          led_idx <- getLedIndexForDevice_ dev ;;
          if led_idx =? 0 then enumDevices_collect entries' scsi_devices
          else
            let device := if led_idx <? 0 then None else device in
            enumDevices_collect entries'
              (map_insert (Int.abs led_idx) device scsi_devices)
      end
  end.

(** Second loop of [enumDevices_], from the iterator [it] on. *)
Fixpoint enumDevices_iterate (it : ListDevices) (found_valid : bool) : M unit :=
  match it with
  | [] => ret tt
  | (first, second) :: it' =>
      match second with
      | None =>
          when (negb found_valid) (set_led_index_ofs_ first) ;;
          enumDevices_iterate it' found_valid
      | Some dev =>
          this <- get_this ;;
          when (negb found_valid && truthy debug)
            (cout [Str "led_index_ofs = "; Num (led_index_ofs_ this); Chr LF]) ;;
          deviceChanged_ dev true first ;;
          enumDevices_iterate it' true
      end
  end.

(** Enumerate the existing devices. *)
Definition enumDevices_ (entries : list UdevDevicePtr) : M unit :=
  this <- get_this ;;
  assert (is_some (dev_context_ this)) "dev_context_" ;;
  scsi_devices <- enumDevices_collect entries [] ;;
  enumDevices_iterate scsi_devices false.

(** Initialise. *)
Definition Init (leds : LedControlPtr) (os : udev_answers) : M unit :=
  set_leds_ leds ;;
  set_dev_context_ (udev_new os) ;;
  this <- get_this ;;
  if negb (is_some (dev_context_ this)) then throw {| what := "udev_new" |}
  else
    set_dev_monitor_ (udev_monitor_new_from_netlink os) ;;
    this <- get_this ;;
    if negb (is_some (dev_monitor_ this))
    then throw {| what := "udev_monitor_new_from_netlink" |}
    else if truthy (udev_monitor_filter_add_match_subsystem_devtype os)
    then throw {| what := "udev_monitor_filter_add_match_subsystem_devtype" |}
    else
      when (truthy verbose) (cout [Str ("Enumerating attached devices..." ++ nl)]) ;;
      enumDevices_ (udev_enumerate_devices os) ;;
      when (truthy verbose) (cout [Str ("Monitoring devices..." ++ nl)]) ;;
      if truthy (udev_monitor_enable_receiving os)
      then throw {| what := "udev_monitor_enable_receiving" |}
      else ret tt.

(** The body of [if ( FD_ISSET( fd_mon, &fds_read ) )] in [Main]. *)
Definition Main_notification (device : UdevDevicePtr) : M unit :=
  match udev_device_get_action device, device with
  | Some str, Some dev =>
      if strcasecmp str "add" =? 0 then deviceAdded_ dev
      else if strcasecmp str "remove" =? 0 then deviceRemove_ dev
      else
        when (truthy debug)
          (cout [Str "action: "; Str str; Chr LF] ;;
           cout [Chr " "; CStr (udev_device_get_syspath dev); Str "' (";
                 CStr (udev_device_get_subsystem dev); Str (")" ++ nl)])
  | _, _ => ret tt
  end.

(** The [while ( true )] of [Main], one turn for each return of [pselect]. *)
Fixpoint Main_loop (wakeups : list wakeup) : M unit :=
  match wakeups with
  | [] => block
  | Failed errno :: _ =>
      if negb (EINTR =? errno) then throw {| what := "select" |}
      else
        cout [Str ("Exiting on signal" ++ nl)] ;;
        ret tt
  | Woken fd_isset received :: wakeups' =>
      when fd_isset (Main_notification received) ;;
      Main_loop wakeups'
  end.

(** The main loop. *)
Definition Main (wakeups : list wakeup) : M unit :=
  this <- get_this ;;
  assert (is_some (dev_monitor_ this)) "dev_monitor_" ;;
  Main_loop wakeups.


(* ----------------------------------------------------------------------- *)
(** ** Reading the effects and the snapshot *)

(** The values assigned to [led_index_ofs_], in order. *)
Fixpoint stores (out : list effect) : list Z :=
  match out with
  | [] => []
  | Store_led_index_ofs_ v :: out' => v :: stores out'
  | _ :: out' => stores out'
  end.

(** The calls of [LedControl::Set], in order. *)
Fixpoint led_calls (out : list effect) : list effect :=
  match out with
  | [] => []
  | Leds_Set t i s :: out' => Leds_Set t i s :: led_calls out'
  | _ :: out' => led_calls out'
  end.

(** The map the first loop of [enumDevices_] builds from the scan. *)
Definition snapshot_of (entries : list UdevDevicePtr) (this : DeviceMonitor)
  : ListDevices :=
  match snd (enumDevices_collect entries [] this) with
  | Returned scsi_devices _ => scsi_devices
  | _ => []
  end.

(** The keys of the holes (entries without a device) that come before the
    first entry with a device. *)
Fixpoint leading_holes (snap : ListDevices) : list Z :=
  match snap with
  | (k, None) :: snap' => k :: leading_holes snap'
  | _ => []
  end.

(** The keys of the entries that have a device, in the order of the map. *)
Fixpoint real_keys (snap : ListDevices) : list Z :=
  match snap with
  | [] => []
  | (k, Some _) :: snap' => k :: real_keys snap'
  | (_, None) :: snap' => real_keys snap'
  end.

(** Keys in strictly ascending order. *)
Fixpoint ascending (keys : list Z) : Prop :=
  match keys with
  | [] => True
  | k :: keys' => (forall k', In k' keys' -> k < k') /\ ascending keys'
  end.

(** [std::map::find]. *)
Fixpoint map_find (k : Z) (m : ListDevices) : option UdevDevicePtr :=
  match m with
  | [] => None
  | (k', v) :: m' => if k =? k' then Some v else map_find k m'
  end.

(** What [deviceChanged_] forwards to the LEDs for the index [idx] it ends
    up with. *)
Definition forwarded (this : DeviceMonitor) (idx : Z) (state : bool) : list effect :=
  if idx <=? 0 then []
  else if is_some (leds_ this) then [Leds_Set LED_BLUE (Int.sub idx 1) state]
  else [].

(** The entries with a device have a positive [int] as their key. *)
Definition real_positive (snap : ListDevices) : Prop :=
  forall k dev, In (k, Some dev) snap -> 0 < k <= Int.max_signed.

Definition is_woken (w : wakeup) : Prop :=
  match w with
  | Woken _ _ => True
  | Failed _ => False
  end.

(** A call of [LedControl::Set] on the blue LED of a slot that is not
    negative; any other effect passes. *)
Definition blue_slot (e : effect) : Prop :=
  match e with
  | Leds_Set led_type led_idx _ => led_type = LED_BLUE /\ 0 <= led_idx
  | _ => True
  end.

(** The effects of one turn of the loop of [Main] on the monitor [this]. *)
Definition wakeup_effects (this : DeviceMonitor) (w : wakeup) : list effect :=
  match w with
  | Woken fd_isset received => fst (when fd_isset (Main_notification received) this)
  | Failed _ => []
  end.

(** A call of [LedControl::Set] with its state replaced. *)
Definition with_state (state : bool) (e : effect) : effect :=
  match e with
  | Leds_Set led_type led_idx _ => Leds_Set led_type led_idx state
  | _ => e
  end.

(** The values of the enumerators [LED_BLUE] and [LED_RED], declared in the
    absent LED headers. *)
Variable led_bits : LedType -> Z.

(** The body of [main] after the loop over the options, [debug] and
    [verbose] being the globals as that loop left them. *)
Definition main_body (v : main_vars) (os : system_answers) : program Z :=
  (init_signals (sigaction_SIGINT os) (sigaction_SIGTERM os) ;;
   leds <- (let (probes, leds) :=
              get_led_interface (LedAcerH340_Init os) (LedHpEx48X_Init os) in
            (probes, Done leds)) ;;
   match leds with
   | None => raise (runtime_error "Failed to find an LED control interface")
   | Some control =>
       does (drop_priviledges (getpwnam_nobody os)) ;;
       (if 0 <=? mount_usb v then
          does (if truthy debug || (0 <? verbose)
                then [Write_cout [Str (if truthy (mount_usb v) then "M" else "Unm");
                                  Str ("ounting USB device" ++ nl)]]
                else []) ;;
          does [LedControl_MountUsb (truthy (mount_usb v))]
        else does []) ;;
       (if run_as_daemon v then
          does [Call_daemon] ;;
          if truthy (daemon os)
          then raise (errno_exception {| what := "daemon" |})
          else does []
        else does []) ;;
       does [Write_cout [Str "Found: "; Str (Desc os control); Chr LF]] ;;
       does [LedControl_SetSystemLed (led_bits LED_RED) (by_bool false);
             LedControl_SetSystemLed (led_bits LED_BLUE) (by_bool true)] ;;
       does (if 0 <=? brightness v
             then [LedControl_SetBrightness (brightness v)]
             else []) ;;
       does (map (fun i =>
                    LedControl_Set (Z.lor (led_bits LED_BLUE) (led_bits LED_RED))
                      i (xmas v))
               [0; 1; 2; 3]) ;;
       if xmas v then ([], Done 0)
       else if 0 <? light_show v
       then run_light_show led_bits (rand os) (light_show v) (pauses os)
       else
         initialised <- of_monitor (Init (Some control) (udev_calls os))
                          DeviceMonitor_new ;;
         of_monitor (Main (wakeups os)) (snd initialised) ;;
         does [LedControl_SetSystemLed (led_bits LED_BLUE) LED_BLINK] ;;
         ([], Done 0)
   end)%daemon.

(** [main] from the end of the loop over the options on, with its function
    try block. *)
Definition main_run (v : main_vars) (os : system_answers) : program Z :=
  main_catch (main_body v os) (getuid os).

(** An event that is a call on the LED interface other than its [Init]. *)
Definition drives_leds (e : event) : bool :=
  match e with
  | LedControl_Set _ _ _ | LedControl_SetBrightness _
  | LedControl_SetSystemLed _ _ | LedControl_MountUsb _ => true
  | Of_monitor (Leds_Set _ _ _) => true
  | _ => false
  end.

(** An event of the device monitor. *)
Definition is_of_monitor (e : event) : bool :=
  match e with
  | Of_monitor _ => true
  | _ => false
  end.

(** An event that is neither a call of [LedControl::Set] nor an event of
    the device monitor. *)
Definition before_bays (e : event) : Prop :=
  match e with
  | LedControl_Set _ _ _ | Of_monitor _ => False
  | _ => True
  end.

(** The four calls of [main] that set both colours of every bay. *)
Definition set_all_bays (state : bool) : list event :=
  map (fun i => LedControl_Set (Z.lor (led_bits LED_BLUE) (led_bits LED_RED)) i state)
    [0; 1; 2; 3].

(** What the handler of [main] writes for the exception [e]. *)
Definition reported (e : exception) (getuid : Z) : list event :=
  Write_cerr_what e
    :: (if negb (0 =? getuid)
        then [Write_cout [Str ("Try running as root" ++ nl)]]
        else []).

(* ----------------------------------------------------------------------- *)
(** ** Arithmetic of [int] and strings *)

Lemma wrap_in_range z : Int.in_range (Int.wrap z).
Proof.
  unfold Int.in_range, Int.wrap, Int.min_signed, Int.max_signed, Int.modulus.
  pose proof (Z.mod_pos_bound (z - -2147483648) 4294967296 eq_refl). lia.
Qed.

Lemma wrap_small z : Int.in_range z -> Int.wrap z = z.
Proof.
  unfold Int.in_range, Int.wrap, Int.min_signed, Int.max_signed, Int.modulus.
  intros H. rewrite Z.mod_small; lia.
Qed.

Lemma wrap_add_wrap a b : Int.wrap (Int.wrap a + b) = Int.wrap (a + b).
Proof.
  unfold Int.wrap, Int.min_signed, Int.modulus.
  f_equal.
  rewrite (Z.mod_eq (a - -2147483648) 4294967296) by lia.
  set (q := (a - -2147483648) / 4294967296).
  replace (a - -2147483648 - 4294967296 * q + -2147483648 + b - -2147483648)
    with (a + b - -2147483648 + (- q) * 4294967296) by lia.
  apply Z_mod_plus_full.
Qed.

Lemma wrap_opp_wrap a : Int.wrap (- Int.wrap a) = Int.wrap (- a).
Proof.
  unfold Int.wrap, Int.min_signed, Int.modulus.
  f_equal.
  rewrite (Z.mod_eq (a - -2147483648) 4294967296) by lia.
  set (q := (a - -2147483648) / 4294967296).
  replace (- (a - -2147483648 - 4294967296 * q + -2147483648) - -2147483648)
    with (- a - -2147483648 + q * 4294967296) by lia.
  apply Z_mod_plus_full.
Qed.

(** The local [led_idx] of the resolver is [sysnum - offset + 1] on [int]. *)
Lemma led_idx_wrap a b : Int.add (Int.sub a b) 1 = Int.wrap (a - b + 1).
Proof. unfold Int.add, Int.sub. apply wrap_add_wrap. Qed.

Lemma led_idx_exact a b :
  Int.in_range (a - b + 1) -> Int.add (Int.sub a b) 1 = a - b + 1.
Proof. intros H. rewrite led_idx_wrap. now apply wrap_small. Qed.

Lemma neg_led_idx_exact a b :
  Int.min_signed < a - b + 1 <= Int.max_signed ->
  Int.neg (Int.add (Int.sub a b) 1) = - (a - b + 1).
Proof.
  intros H. unfold Int.neg. rewrite led_idx_wrap, wrap_opp_wrap.
  apply wrap_small.
  unfold Int.in_range, Int.min_signed, Int.max_signed in *. lia.
Qed.

Lemma string_compare_refl s : String.compare s s = Eq.
Proof.
  induction s as [| c s IH]; simpl; [reflexivity |].
  unfold Ascii.compare. now rewrite N.compare_refl.
Qed.

Lemma strcmp_zero a b : strcmp a b = 0 <-> a = b.
Proof.
  unfold strcmp. split.
  - intros H. apply String.compare_eq_iff.
    destruct (String.compare a b); [reflexivity | discriminate | discriminate].
  - intros ->. now rewrite string_compare_refl.
Qed.

Lemma strcmp_zero_b a b : (strcmp a b =? 0) = String.eqb a b.
Proof.
  destruct (String.eqb_spec a b) as [E | E].
  - apply Z.eqb_eq. now apply strcmp_zero.
  - apply Z.eqb_neq. now rewrite strcmp_zero.
Qed.

(* ----------------------------------------------------------------------- *)
(** ** The resolver [getLedIndexForDevice_] *)

Ltac run :=
  unfold bind, when, cout, emit, ret, get_this, throw, block, assert,
    set_led_index_ofs_, set_leds_, set_dev_context_, set_dev_monitor_.

(** The resolver always returns, leaves the monitor as it is, writes no
    field and calls no LED; its value is an [int]. *)
Lemma getLedIndexForDevice__returns device this :
  exists out n,
    getLedIndexForDevice_ device this = (out, Returned n this) /\
    stores out = [] /\ led_calls out = [] /\ Int.in_range n.
Proof.
  assert (Z0 : Int.in_range 0)
    by (unfold Int.in_range, Int.min_signed, Int.max_signed; lia).
  assert (Zw : forall z, Int.in_range (Int.neg z))
    by (intros z; apply wrap_in_range).
  assert (Za : forall a b, Int.in_range (Int.add a b))
    by (intros a b; apply wrap_in_range).
  unfold getLedIndexForDevice_. run.
  destruct (udev_device_get_parent_with_subsystem_devtype device "scsi" "scsi_host")
    as [scsi_host |]; [| now exists [], 0].
  destruct (truthy debug), (1 <? verbose),
    (udev_device_get_sysnum scsi_host) as [sysnum |],
    (udev_device_get_parent scsi_host) as [scsi_host_parent |]; simpl;
    try (destruct (udev_device_get_subsystem scsi_host_parent) as [sub |]; simpl;
         [destruct (strcmp "pci" sub =? 0) |]);
    (do 2 eexists; split; [reflexivity |];
     split; [reflexivity |]; split; [reflexivity |];
     first [exact Z0 | apply Zw | apply Za]).
Qed.

(** C7: a device without a [scsi_host] ancestor, or whose nearest
    [scsi_host] ancestor has no system number, resolves to 0; the call
    returns normally and leaves the monitor unchanged. *)
Theorem getLedIndexForDevice__unresolvable device this :
  udev_device_get_parent_with_subsystem_devtype device "scsi" "scsi_host" = None \/
  (exists scsi_host,
      udev_device_get_parent_with_subsystem_devtype device "scsi" "scsi_host"
      = Some scsi_host /\
      udev_device_get_sysnum scsi_host = None) ->
  snd (getLedIndexForDevice_ device this) = Returned 0 this.
Proof.
  unfold getLedIndexForDevice_.
  intros [H | [scsi_host [H Hnum]]]; rewrite H; [reflexivity |].
  rewrite Hnum. run. destruct (truthy debug); reflexivity.
Qed.

(** C1, as the code has it: with a [scsi_host] ancestor that has a system
    number, the resolver returns 0 when that host has no parent, and the
    candidate [sysnum - offset + 1] as it is (positive when the offset does
    not exceed the system number) when the parent reports no subsystem; in
    both cases the call returns normally and leaves the monitor unchanged. *)
Theorem getLedIndexForDevice__missing_parent_or_subsystem
  device this scsi_host sysnum :
  udev_device_get_parent_with_subsystem_devtype device "scsi" "scsi_host"
  = Some scsi_host ->
  udev_device_get_sysnum scsi_host = Some sysnum ->
  Int.in_range (atoi sysnum - led_index_ofs_ this + 1) ->
  (udev_device_get_parent scsi_host = None ->
   snd (getLedIndexForDevice_ device this) = Returned 0 this) /\
  (forall scsi_host_parent,
      udev_device_get_parent scsi_host = Some scsi_host_parent ->
      udev_device_get_subsystem scsi_host_parent = None ->
      snd (getLedIndexForDevice_ device this)
      = Returned (atoi sysnum - led_index_ofs_ this + 1) this /\
      (led_index_ofs_ this <= atoi sysnum ->
       0 < atoi sysnum - led_index_ofs_ this + 1)).
Proof.
  intros Hhost Hnum Hrange. unfold getLedIndexForDevice_.
  rewrite Hhost, Hnum. split.
  - intros Hp. rewrite Hp. run.
    destruct (truthy debug); destruct (1 <? verbose); reflexivity.
  - intros p Hp Hsub. rewrite Hp, Hsub. run. split; [| lia].
    destruct (truthy debug); destruct (1 <? verbose); simpl;
      now rewrite led_idx_exact.
Qed.


(* ----------------------------------------------------------------------- *)
(** ** Dispatch: [deviceChanged_] and the notifications of [Main] *)

Lemma stores_app out1 out2 : stores (out1 ++ out2) = (stores out1 ++ stores out2)%list.
Proof.
  induction out1 as [| e out1 IH]; simpl; [reflexivity |].
  destruct e; simpl; now rewrite IH.
Qed.

Lemma led_calls_app out1 out2 :
  led_calls (out1 ++ out2) = (led_calls out1 ++ led_calls out2)%list.
Proof.
  induction out1 as [| e out1 IH]; simpl; [reflexivity |].
  destruct e; simpl; now rewrite IH.
Qed.

Lemma deviceChanged__spec device state led_idx this :
  exists out0 n out,
    getLedIndexForDevice_ device this = (out0, Returned n this) /\
    Int.in_range n /\
    deviceChanged_ device state led_idx this = (out, Returned tt this) /\
    stores out = [] /\
    led_calls out = forwarded this (if led_idx <=? 0 then n else led_idx) state.
Proof.
  destruct (getLedIndexForDevice__returns device this)
    as (out0 & n & Hget & Hst & Hled & Hn).
  exists out0, n. unfold deviceChanged_, forwarded. run.
  destruct (truthy debug || (1 <? verbose)), (led_idx <=? 0) eqn:Hidx; simpl;
    rewrite ?Hget, ?Hidx; simpl;
    try destruct (n <=? 0); destruct (is_some (leds_ this)); simpl;
    (eexists; split; [reflexivity |]; split; [exact Hn |];
     split; [reflexivity |]; simpl;
     rewrite ?stores_app, ?led_calls_app, ?Hst, ?Hled; simpl;
     split; reflexivity).
Qed.

Lemma sub_one_exact n : 0 < n -> Int.in_range n -> Int.sub n 1 = n - 1.
Proof.
  intros Hpos Hn. apply wrap_small.
  unfold Int.in_range, Int.min_signed, Int.max_signed in *. lia.
Qed.

Lemma Main_notification_returns device this :
  exists out,
    Main_notification device this = (out, Returned tt this) /\ stores out = [].
Proof.
  unfold Main_notification, deviceAdded_, deviceRemove_.
  destruct (udev_device_get_action device) as [str |]; [| now exists []].
  destruct device as [dev |]; [| now exists []].
  destruct (strcasecmp str "add" =? 0);
    [| destruct (strcasecmp str "remove" =? 0)].
  - destruct (deviceChanged__spec dev true led_idx_default this)
      as (_ & _ & out & _ & _ & H & Hst & _). now exists out.
  - destruct (deviceChanged__spec dev false led_idx_default this)
      as (_ & _ & out & _ & _ & H & Hst & _). now exists out.
  - run. destruct (truthy debug); eexists; split; reflexivity.
Qed.

(** The handler of a notification whose action is "add" or "remove" (in any
    case of letters), for a device that resolves to [N]: it makes exactly
    the call [Set (LED_BLUE, N - 1, state)] when [N > 0] and no call when
    [N <= 0]. *)
Lemma Main_notification_led_calls dev str state N this :
  leds_ this <> None ->
  udev_device_get_action (Some dev) = Some str ->
  (strcasecmp str "add" = 0 /\ state = true) \/
  (strcasecmp str "remove" = 0 /\ state = false) ->
  snd (getLedIndexForDevice_ dev this) = Returned N this ->
  snd (Main_notification (Some dev) this) = Returned tt this /\
  led_calls (fst (Main_notification (Some dev) this))
  = if 0 <? N then [Leds_Set LED_BLUE (N - 1) state] else [].
Proof.
  intros Hleds Hact Hstr Hres.
  assert (Hcall : forall st,
             snd (deviceChanged_ dev st led_idx_default this) = Returned tt this /\
             led_calls (fst (deviceChanged_ dev st led_idx_default this))
             = if 0 <? N then [Leds_Set LED_BLUE (N - 1) st] else []).
  { intros st.
    destruct (deviceChanged__spec dev st led_idx_default this)
      as (out0 & n & out & Hget & Hn & H & _ & Hled).
    rewrite Hget in Hres. simpl in Hres. injection Hres as ->.
    rewrite H. simpl. split; [reflexivity |]. rewrite Hled.
    unfold forwarded, led_idx_default. simpl.
    destruct (leds_ this); [| now destruct Hleds]. simpl.
    destruct (Z.leb_spec N 0) as [Hle | Hlt], (Z.ltb_spec 0 N); try lia;
      [reflexivity |].
    now rewrite sub_one_exact. }
  unfold Main_notification, deviceAdded_, deviceRemove_. rewrite Hact.
  destruct Hstr as [[Hadd ->] | [Hrem ->]].
  - rewrite Hadd. apply Hcall.
  - assert (Hadd : strcasecmp str "add" <> 0).
    { unfold strcasecmp in *. rewrite strcmp_zero in *.
      rewrite Hrem. discriminate. }
    apply Z.eqb_neq in Hadd. rewrite Hadd, Hrem. apply Hcall.
Qed.

(** C10: a notification whose device reports no action has no effect at
    all, whatever [debug] and [verbose] are: nothing is written, no LED is
    called, the resolver is not run (none of its messages appears), and the
    loop goes on as if the wake-up had brought nothing. *)
Theorem Main_notification_without_action device this fd_isset wakeups :
  udev_device_get_action device = None ->
  Main_notification device this = ([], Returned tt this) /\
  Main_loop (Woken fd_isset device :: wakeups) this = Main_loop wakeups this.
Proof.
  intros Hact.
  assert (H : Main_notification device this = ([], Returned tt this)).
  { unfold Main_notification. rewrite Hact. reflexivity. }
  split; [exact H |].
  simpl. run. destruct fd_isset; rewrite ?H;
    destruct (Main_loop wakeups this) as [out r]; reflexivity.
Qed.

(* ----------------------------------------------------------------------- *)
(** ** The loop of [Main] *)

(** One turn of the loop that brings a notification: its effects come
    first, the monitor is the same for the turns that follow. *)
Lemma Main_loop_woken fd_isset received wakeups this :
  exists out,
    when fd_isset (Main_notification received) this = (out, Returned tt this) /\
    stores out = [] /\
    Main_loop (Woken fd_isset received :: wakeups) this
    = ((out ++ fst (Main_loop wakeups this))%list, snd (Main_loop wakeups this)).
Proof.
  destruct (Main_notification_returns received this) as (out & H & Hst).
  simpl. run. destruct fd_isset; rewrite ?H.
  - exists out. repeat split; [exact Hst |].
    destruct (Main_loop wakeups this); reflexivity.
  - exists []. repeat split.
    destruct (Main_loop wakeups this); reflexivity.
Qed.

(** As long as only notifications arrive the loop does not return: it is
    waiting, with the monitor unchanged and nothing stored in the offset. *)
Lemma Main_loop_blocked wakeups this :
  Forall is_woken wakeups ->
  snd (Main_loop wakeups this) = Blocked this /\
  stores (fst (Main_loop wakeups this)) = [].
Proof.
  induction 1 as [| w wakeups Hw _ IH]; [split; reflexivity |].
  destruct w as [errno | fd_isset received]; [destruct Hw |].
  destruct (Main_loop_woken fd_isset received wakeups this) as (out & _ & Hst & ->).
  simpl. rewrite stores_app, Hst. exact IH.
Qed.

Lemma Main_loop_prefix pre rest this :
  Forall is_woken pre ->
  snd (Main_loop (pre ++ rest) this) = snd (Main_loop rest this) /\
  fst (Main_loop (pre ++ rest) this)
  = (fst (Main_loop pre this) ++ fst (Main_loop rest this))%list.
Proof.
  induction 1 as [| w pre Hw _ IH]; [split; reflexivity |].
  destruct w as [errno | fd_isset received]; [destruct Hw |].
  destruct (Main_loop_woken fd_isset received (pre ++ rest) this)
    as (out & Hout & _ & E).
  destruct (Main_loop_woken fd_isset received pre this) as (out' & Hout' & _ & E').
  rewrite Hout in Hout'. injection Hout' as <-.
  change ((Woken fd_isset received :: pre) ++ rest)%list
    with (Woken fd_isset received :: (pre ++ rest))%list.
  rewrite E, E'. simpl. destruct IH as [IH1 IH2].
  rewrite IH1, IH2, app_assoc. split; reflexivity.
Qed.

Lemma Main_loop_failed errno wakeups this :
  Main_loop (Failed errno :: wakeups) this
  = if EINTR =? errno
    then ([Cout [Str ("Exiting on signal" ++ nl)]], Returned tt this)
    else ([], Thrown {| what := "select" |}).
Proof. cbn [Main_loop]. now destruct (EINTR =? errno). Qed.

Lemma Main_loop_returned wakeups this out this' :
  Main_loop wakeups this = (out, Returned tt this') ->
  exists pre post, wakeups = (pre ++ Failed EINTR :: post)%list /\ Forall is_woken pre.
Proof.
  revert out. induction wakeups as [| w wakeups IH]; intros out H.
  - discriminate H.
  - destruct w as [errno | fd_isset received].
    + exists [], wakeups. split; [| constructor].
      rewrite Main_loop_failed in H. destruct (EINTR =? errno) eqn:E.
      * apply Z.eqb_eq in E. now rewrite <- E.
      * discriminate H.
    + destruct (Main_loop_woken fd_isset received wakeups this) as (o & _ & _ & E).
      rewrite E in H. injection H as _ H.
      destruct (Main_loop wakeups this) as [o' r] eqn:E'. simpl in H. subst r.
      destruct (IH _ eq_refl) as (pre & post & -> & Hpre).
      exists (Woken fd_isset received :: pre), post.
      split; [reflexivity | constructor; [exact I | exact Hpre]].
Qed.

Lemma Main_is_Main_loop wakeups this :
  dev_monitor_ this <> None -> Main wakeups this = Main_loop wakeups this.
Proof.
  intros H. unfold Main. run.
  destruct (dev_monitor_ this); [| now destruct H]. simpl.
  destruct (Main_loop wakeups this); reflexivity.
Qed.

(** C6: when a wake-up of [Main] brings a notification whose action is
    "add" or "remove" (in any case of letters), for a device that resolves
    to [N], [Main] makes at that point exactly the call
    [Set (LED_BLUE, N - 1, state)] when [N > 0], with [state] true for "add"
    and false for "remove", and no call when [N <= 0]: the LED calls of
    [Main] are those of the wake-ups before, then this call if any, then
    those of the wake-ups after, which [Main] handles on the same monitor.
    The monitor has its LED interface, as [main] gives it one. *)
Theorem Main_notification_forwards dev str state N this :
  dev_monitor_ this <> None ->
  leds_ this <> None ->
  udev_device_get_action (Some dev) = Some str ->
  (strcasecmp str "add" = 0 /\ state = true) \/
  (strcasecmp str "remove" = 0 /\ state = false) ->
  snd (getLedIndexForDevice_ dev this) = Returned N this ->
  led_calls (fst (Main [Woken true (Some dev)] this))
  = (if 0 <? N then [Leds_Set LED_BLUE (N - 1) state] else []) /\
  forall pre post,
    Forall is_woken pre ->
    led_calls (fst (Main (pre ++ Woken true (Some dev) :: post) this))
    = (led_calls (fst (Main pre this))
       ++ (if 0 <? N then [Leds_Set LED_BLUE (N - 1) state] else [])
       ++ led_calls (fst (Main post this)))%list /\
    snd (Main (pre ++ Woken true (Some dev) :: post) this)
    = snd (Main post this).
Proof.
  intros Hmon Hleds Hact Hstr Hres.
  destruct (Main_notification_led_calls dev str state N this Hleds Hact Hstr Hres)
    as [_ Hcall].
  assert (Hone : forall post,
             led_calls (fst (Main_loop (Woken true (Some dev) :: post) this))
             = ((if 0 <? N then [Leds_Set LED_BLUE (N - 1) state] else [])
                ++ led_calls (fst (Main_loop post this)))%list /\
             snd (Main_loop (Woken true (Some dev) :: post) this)
             = snd (Main_loop post this)).
  { intros post.
    destruct (Main_loop_woken true (Some dev) post this) as (out & Hout & _ & ->).
    cbn [when] in Hout. rewrite Hout in Hcall. cbn [fst snd] in *.
    rewrite led_calls_app, Hcall. split; reflexivity. }
  rewrite !Main_is_Main_loop by exact Hmon. split.
  - destruct (Hone []) as [-> _]. cbn [Main_loop]. apply app_nil_r.
  - intros pre post Hpre. rewrite !Main_is_Main_loop by exact Hmon.
    destruct (Main_loop_prefix pre (Woken true (Some dev) :: post) this Hpre)
      as [-> ->].
    rewrite led_calls_app. destruct (Hone post) as [-> ->]. split; reflexivity.
Qed.

(** C8: when a wait of the loop fails with [EINTR], [Main] writes
    "Exiting on signal" and returns without an error; when it fails with
    any other [errno], [Main] throws the [ErrnoException] named "select";
    and [Main] returns in no other way than through a wait that failed with
    [EINTR]. *)
Theorem Main_ends_on_failed_wait this :
  dev_monitor_ this <> None ->
  (forall pre errno post,
      Forall is_woken pre ->
      (errno = EINTR ->
       snd (Main (pre ++ Failed errno :: post) this) = Returned tt this /\
       fst (Main (pre ++ Failed errno :: post) this)
       = (fst (Main pre this) ++ [Cout [Str ("Exiting on signal" ++ nl)]])%list) /\
      (errno <> EINTR ->
       snd (Main (pre ++ Failed errno :: post) this)
       = Thrown {| what := "select" |})) /\
  (forall wakeups out this',
      Main wakeups this = (out, Returned tt this') ->
      exists pre post,
        wakeups = (pre ++ Failed EINTR :: post)%list /\ Forall is_woken pre).
Proof.
  intros Hmon. split.
  - intros pre errno post Hpre. rewrite !Main_is_Main_loop by exact Hmon.
    destruct (Main_loop_prefix pre (Failed errno :: post) this Hpre) as [-> ->].
    split.
    + intros ->. rewrite Main_loop_failed. split; reflexivity.
    + intros Hne. rewrite Main_loop_failed.
      destruct (Z.eqb_spec EINTR errno) as [E | _]; [now symmetry in E |].
      reflexivity.
  - intros wakeups out this'. rewrite Main_is_Main_loop by exact Hmon.
    apply Main_loop_returned.
Qed.

(* ----------------------------------------------------------------------- *)
(** ** The ordered map of [enumDevices_] *)

Lemma map_insert_keys k v m k' :
  In k' (map fst (map_insert k v m)) -> k' = k \/ In k' (map fst m).
Proof.
  induction m as [| [k0 v0] m IH]; simpl.
  - intros [<- | []]. now left.
  - destruct (k <? k0); [| destruct (k =? k0)]; simpl.
    + intros [<- | H]; [now left | now right].
    + intros H. now right.
    + intros [<- | H]; [right; now left |].
      destruct (IH H) as [-> | H']; [now left | right; now right].
Qed.

Lemma map_insert_In k v m kv :
  In kv (map_insert k v m) -> kv = (k, v) \/ In kv m.
Proof.
  induction m as [| [k0 v0] m IH]; simpl.
  - intros [<- | []]. now left.
  - destruct (k <? k0); [| destruct (k =? k0)]; simpl.
    + intros [<- | H]; [now left | now right].
    + intros H. now right.
    + intros [<- | H]; [right; now left |].
      destruct (IH H) as [-> | H']; [now left | right; now right].
Qed.

(** [insert] keeps the keys in strictly ascending order. *)
Lemma map_insert_ascending k v m :
  ascending (map fst m) -> ascending (map fst (map_insert k v m)).
Proof.
  induction m as [| [k0 v0] m IH]; simpl.
  - intros _. split; [intros k' [] | exact I].
  - intros [Hlt Hasc].
    destruct (Z.ltb_spec k k0) as [Hk | Hk]; [| destruct (Z.eqb_spec k k0) as [Hk' | Hk']];
      simpl.
    + split; [| split; assumption].
      intros k' [<- | Hin]; [exact Hk | specialize (Hlt _ Hin); lia].
    + split; assumption.
    + split; [| now apply IH].
      intros k' Hin. destruct (map_insert_keys _ _ _ _ Hin) as [-> | Hin'];
        [lia | now apply Hlt].
Qed.

Lemma map_insert_again k v1 v2 m :
  map_insert k v2 (map_insert k v1 m) = map_insert k v1 m.
Proof.
  induction m as [| [k0 v0] m IH]; simpl.
  - now rewrite Z.ltb_irrefl, Z.eqb_refl.
  - destruct (k <? k0) eqn:Hlt; [| destruct (k =? k0) eqn:Heq]; simpl.
    + now rewrite Z.ltb_irrefl, Z.eqb_refl.
    + now rewrite Hlt, Heq.
    + now rewrite Hlt, Heq, IH.
Qed.

Lemma map_find_insert_new k v m :
  map_find k m = None -> map_find k (map_insert k v m) = Some v.
Proof.
  induction m as [| [k0 v0] m IH]; simpl.
  - now rewrite Z.eqb_refl.
  - destruct (k =? k0) eqn:Heq; [discriminate |]. intros H.
    destruct (k <? k0); simpl; [now rewrite Z.eqb_refl |].
    rewrite Heq. now apply IH.
Qed.

(* ----------------------------------------------------------------------- *)
(** ** The two loops of [enumDevices_] *)

Lemma last_cons_default (a : Z) l d d' : last (a :: l) d = last (a :: l) d'.
Proof.
  revert a. induction l as [| b l IH]; intros a; [reflexivity |].
  change (last (b :: l) d = last (b :: l) d'). apply IH.
Qed.

Lemma abs_positive n : 0 < n -> Int.in_range n -> Int.abs n = n.
Proof.
  intros Hpos Hn. unfold Int.abs. rewrite Z.abs_eq by lia. now apply wrap_small.
Qed.

(** The first loop returns a map in ascending order whose devices sit at
    positive keys; it stores nothing and calls no LED. *)
Lemma enumDevices_collect_spec entries :
  forall acc this,
  exists out snap,
    enumDevices_collect entries acc this = (out, Returned snap this) /\
    stores out = [] /\ led_calls out = [] /\
    (ascending (map fst acc) -> ascending (map fst snap)) /\
    (real_positive acc -> real_positive snap).
Proof.
  induction entries as [| device entries IH]; intros acc this.
  - exists [], acc. do 3 (split; [reflexivity |]). split; auto.
  - destruct device as [dev |]; [| apply IH].
    destruct (getLedIndexForDevice__returns dev this)
      as (out0 & n & Hget & Hst & Hled & Hn).
    cbn [enumDevices_collect]. run.
    destruct (n =? 0) eqn:Hz.
    + destruct (IH acc this) as (out & snap & E & Hst' & Hled' & Hasc & Hpos).
      destruct (truthy debug || (1 <? verbose)); cbv beta iota zeta;
        rewrite Hget; cbv beta iota zeta; rewrite Hz, E; cbv beta iota zeta;
        (do 2 eexists; split; [reflexivity |]);
        cbn [stores led_calls];
        rewrite ?stores_app, ?led_calls_app, Hst, Hled, Hst', Hled';
        do 2 (split; [reflexivity |]); split; assumption.
    + destruct (truthy debug || (1 <? verbose)); cbv beta iota zeta;
        rewrite Hget; cbv beta iota zeta; rewrite Hz;
        match goal with
        | |- context [enumDevices_collect entries ?m this] =>
            destruct (IH m this) as (out & snap & E & Hst' & Hled' & Hasc & Hpos)
        end;
        rewrite E; cbv beta iota zeta;
        (do 2 eexists; split; [reflexivity |]);
        cbn [stores led_calls];
        rewrite ?stores_app, ?led_calls_app, Hst, Hled, Hst', Hled';
        (split; [reflexivity |]); (split; [reflexivity |]);
        (split; [intros H; now apply Hasc, map_insert_ascending |]);
        intros H; apply Hpos; intros k d Hin;
        (destruct (map_insert_In _ _ _ _ Hin) as [Heq | Hin']; [| now apply (H k d)]);
        (destruct (Z.ltb_spec n 0) as [Hneg | Hnn]; [discriminate Heq |]);
        apply Z.eqb_neq in Hz; injection Heq as -> _;
        rewrite abs_positive by (assumption || lia);
        unfold Int.in_range in Hn; lia.
Qed.

(** The first loop on a device that resolves to a value other than 0: the
    device, or a hole when the value is negative, is inserted under the
    magnitude and the loop goes on. *)
Lemma enumDevices_collect_cons dev n entries acc this :
  snd (getLedIndexForDevice_ dev this) = Returned n this ->
  n <> 0 ->
  snd (enumDevices_collect (Some dev :: entries) acc this)
  = snd (enumDevices_collect entries
           (map_insert (Int.abs n) (if n <? 0 then None else Some dev) acc) this).
Proof.
  intros Hres Hn. apply Z.eqb_neq in Hn.
  destruct (getLedIndexForDevice__returns dev this) as (out0 & n' & Hget & _).
  rewrite Hget in Hres. injection Hres as ->.
  cbn [enumDevices_collect]. run.
  destruct (truthy debug || (1 <? verbose)); cbv beta iota zeta;
    rewrite Hget; cbv beta iota zeta; rewrite Hn;
    match goal with
    | |- context [enumDevices_collect entries ?m this] =>
        set (c := enumDevices_collect entries m this)
    end;
    match goal with
    | |- _ = snd ?rhs => change rhs with c
    end;
    destruct c as [out r]; reflexivity.
Qed.

(** C3, as the code has it: when the scan brings two devices that are
    retained under the same key, the entry of the first stays in the map and
    that of the second is dropped: the map is the one [insert] made for the
    first, [find] gives the first entry where the key was new, and the
    snapshot is the one of the scan without the second device. *)
Theorem enumDevices_collect_first_wins first second n1 n2 entries acc this :
  snd (getLedIndexForDevice_ first this) = Returned n1 this ->
  snd (getLedIndexForDevice_ second this) = Returned n2 this ->
  n1 <> 0 ->
  n2 <> 0 ->
  Int.abs n1 = Int.abs n2 ->
  let entry (n : Z) (dev : udev_device) : UdevDevicePtr :=
    if n <? 0 then None else Some dev in
  map_insert (Int.abs n2) (entry n2 second)
    (map_insert (Int.abs n1) (entry n1 first) acc)
  = map_insert (Int.abs n1) (entry n1 first) acc /\
  (map_find (Int.abs n1) acc = None ->
   map_find (Int.abs n2)
     (map_insert (Int.abs n2) (entry n2 second)
        (map_insert (Int.abs n1) (entry n1 first) acc))
   = Some (entry n1 first)) /\
  snd (enumDevices_collect (Some first :: Some second :: entries) acc this)
  = snd (enumDevices_collect (Some first :: entries) acc this).
Proof.
  intros H1 H2 Hn1 Hn2 Habs entry.
  assert (Hagain :
            map_insert (Int.abs n2) (entry n2 second)
              (map_insert (Int.abs n1) (entry n1 first) acc)
            = map_insert (Int.abs n1) (entry n1 first) acc)
    by (rewrite <- Habs; apply map_insert_again).
  split; [exact Hagain |]. split.
  - intros Hnew. rewrite Hagain, <- Habs. now apply map_find_insert_new.
  - rewrite (enumDevices_collect_cons first n1 (Some second :: entries) acc this H1 Hn1).
    rewrite (enumDevices_collect_cons second n2 entries _ this H2 Hn2).
    rewrite (enumDevices_collect_cons first n1 entries acc this H1 Hn1).
    fold (entry n1 first). fold (entry n2 second). now rewrite Hagain.
Qed.

(** The second loop once a device has been seen: the holes are passed
    over, every device is reported with its key. *)
Lemma enumDevices_iterate_found snap this :
  real_positive snap ->
  exists out,
    enumDevices_iterate snap true this = (out, Returned tt this) /\
    stores out = [] /\
    led_calls out = flat_map (fun k => forwarded this k true) (real_keys snap).
Proof.
  induction snap as [| [k [dev |]] snap IH]; intros Hpos.
  - now exists [].
  - destruct IH as (out & E & Hst & Hled).
    { intros k' d Hin. apply (Hpos k' d). now right. }
    destruct (deviceChanged__spec dev true k this)
      as (_ & n & out1 & _ & _ & E1 & Hst1 & Hled1).
    assert (Hk : (k <=? 0) = false).
    { apply Z.leb_gt. apply (Hpos k dev). now left. }
    rewrite Hk in Hled1.
    cbn [enumDevices_iterate]. run. simpl. rewrite E1, E.
    eexists. split; [reflexivity |].
    rewrite stores_app, led_calls_app, Hst, Hst1, Hled, Hled1.
    split; reflexivity.
  - destruct IH as (out & E & Hst & Hled).
    { intros k' d Hin. apply (Hpos k' d). now right. }
    cbn [enumDevices_iterate]. run. simpl. rewrite E.
    exists out. repeat split; assumption.
Qed.

(** The second loop from its start: each hole before the first device is
    stored as the offset, nothing else of the monitor changes, and the
    devices are reported as above. *)
Lemma enumDevices_iterate_spec snap :
  real_positive snap ->
  forall this,
  exists out this',
    enumDevices_iterate snap false this = (out, Returned tt this') /\
    stores out = leading_holes snap /\
    led_index_ofs_ this' = last (leading_holes snap) (led_index_ofs_ this) /\
    leds_ this' = leds_ this /\
    dev_context_ this' = dev_context_ this /\
    dev_monitor_ this' = dev_monitor_ this /\
    led_calls out = flat_map (fun k => forwarded this k true) (real_keys snap).
Proof.
  induction snap as [| [k [dev |]] snap IH]; intros Hpos this.
  - exists [], this. repeat split.
  - destruct (enumDevices_iterate_found snap this) as (out & E & Hst & Hled).
    { intros k' d Hin. apply (Hpos k' d). now right. }
    destruct (deviceChanged__spec dev true k this)
      as (_ & n & out1 & _ & _ & E1 & Hst1 & Hled1).
    assert (Hk : (k <=? 0) = false).
    { apply Z.leb_gt. apply (Hpos k dev). now left. }
    rewrite Hk in Hled1.
    cbn [enumDevices_iterate]. run.
    destruct (truthy debug); simpl; rewrite E1, E;
      (do 2 eexists; split; [reflexivity |]);
      simpl; rewrite stores_app, led_calls_app, Hst, Hst1, Hled, Hled1;
      repeat split.
  - set (this1 := {| dev_context_ := dev_context_ this;
                     dev_monitor_ := dev_monitor_ this;
                     leds_ := leds_ this;
                     led_index_ofs_ := k |}).
    destruct (IH (fun k' d Hin => Hpos k' d (or_intror Hin)) this1)
      as (out & this' & E & Hst & Hofs & Hleds & Hctx & Hmon & Hled).
    cbn [enumDevices_iterate]. run. simpl. fold this1. rewrite E.
    do 2 eexists. split; [reflexivity |].
    cbn [stores led_calls leading_holes real_keys app].
    rewrite Hst, Hofs, Hleds, Hctx, Hmon, Hled.
    split; [reflexivity |]. split; [| repeat split].
    unfold this1. cbn [led_index_ofs_ last].
    destruct (leading_holes snap); [reflexivity | apply last_cons_default].
Qed.

Lemma leading_holes_keys snap k :
  In k (leading_holes snap) -> In k (map fst snap).
Proof.
  induction snap as [| [k0 [dev |]] snap IH]; simpl; [easy | easy |].
  intros [<- | H]; [now left | right; now apply IH].
Qed.

Lemma real_keys_keys snap k : In k (real_keys snap) -> In k (map fst snap).
Proof.
  induction snap as [| [k0 [dev |]] snap IH]; simpl; [easy | |].
  - intros [<- | H]; [now left | right; now apply IH].
  - intros H. right. now apply IH.
Qed.

Lemma leading_holes_ascending snap :
  ascending (map fst snap) -> ascending (leading_holes snap).
Proof.
  induction snap as [| [k0 [dev |]] snap IH]; simpl; [easy | easy |].
  intros [Hlt Hasc]. split; [| now apply IH].
  intros k' Hin. now apply Hlt, leading_holes_keys.
Qed.

Lemma real_keys_ascending snap :
  ascending (map fst snap) -> ascending (real_keys snap).
Proof.
  induction snap as [| [k0 [dev |]] snap IH]; simpl; [easy | |].
  - intros [Hlt Hasc]. split; [| now apply IH].
    intros k' Hin. now apply Hlt, real_keys_keys.
  - intros [_ Hasc]. now apply IH.
Qed.

(** In an ascending list the last key is the highest. *)
Lemma ascending_le_last keys d k : ascending keys -> In k keys -> k <= last keys d.
Proof.
  revert k. induction keys as [| a keys IH]; intros k Hasc Hin; [destruct Hin |].
  destruct Hasc as [Hlt Hasc]. destruct keys as [| b keys].
  - destruct Hin as [<- | []]. simpl. lia.
  - change (k <= last (b :: keys) d).
    destruct Hin as [<- | Hin]; [| now apply IH].
    specialize (Hlt b (or_introl eq_refl)).
    specialize (IH b Hasc (or_introl eq_refl)). lia.
Qed.

Lemma forwarded_real_keys snap this :
  real_positive snap ->
  leds_ this <> None ->
  flat_map (fun k => forwarded this k true) (real_keys snap)
  = map (fun k => Leds_Set LED_BLUE (k - 1) true) (real_keys snap).
Proof.
  intros Hpos Hleds. induction snap as [| [k [dev |]] snap IH]; [reflexivity | |].
  - cbn [real_keys flat_map map].
    rewrite IH by (intros k' d Hin; apply (Hpos k' d); now right).
    destruct (Hpos k dev (or_introl eq_refl)) as [Hk Hmax].
    unfold forwarded at 1.
    destruct (Z.leb_spec k 0); [lia |].
    destruct (leds_ this); [| now destruct Hleds].
    cbn [is_some app]. rewrite sub_one_exact; [reflexivity | lia |].
    unfold Int.in_range, Int.min_signed. lia.
  - cbn [real_keys]. apply IH. intros k' d Hin. apply (Hpos k' d). now right.
Qed.

(** [enumDevices_] as a whole, on an initialised monitor. *)
Lemma enumDevices__spec entries this :
  dev_context_ this <> None ->
  exists out this',
    enumDevices_ entries this = (out, Returned tt this') /\
    ascending (map fst (snapshot_of entries this)) /\
    real_positive (snapshot_of entries this) /\
    stores out = leading_holes (snapshot_of entries this) /\
    led_index_ofs_ this'
    = last (leading_holes (snapshot_of entries this)) (led_index_ofs_ this) /\
    leds_ this' = leds_ this /\
    dev_context_ this' = dev_context_ this /\
    dev_monitor_ this' = dev_monitor_ this /\
    led_calls out
    = flat_map (fun k => forwarded this k true) (real_keys (snapshot_of entries this)).
Proof.
  intros Hctx.
  destruct (enumDevices_collect_spec entries [] this)
    as (out1 & snap & E1 & Hst1 & Hled1 & Hasc & Hpos).
  assert (Hsnap : snapshot_of entries this = snap)
    by (unfold snapshot_of; now rewrite E1).
  rewrite Hsnap.
  specialize (Hasc I).
  assert (Hpos' : real_positive snap) by (apply Hpos; intros k d []).
  destruct (enumDevices_iterate_spec snap Hpos' this)
    as (out2 & this' & E2 & Hst2 & Hofs & Hleds & Hc & Hm & Hled2).
  exists (out1 ++ out2)%list, this'.
  split.
  - unfold enumDevices_. run.
    destruct (dev_context_ this); [| now destruct Hctx].
    cbn [is_some]. cbv beta iota zeta. rewrite E1, E2. reflexivity.
  - rewrite stores_app, led_calls_app, Hst1, Hled1.
    do 7 (split; [assumption |]). assumption.
Qed.

(** C4: on the freshly constructed monitor (offset 0), [enumDevices_]
    leaves as offset the key of the highest hole that comes before the
    first device of the snapshot, or 0 when there is none; the offset is
    stored for those holes only, so a hole after the first device neither
    changes it nor is reported; and every device of the snapshot is
    reported to the LEDs as added, under its key, in ascending order of the
    keys. *)
Theorem enumDevices__offset_and_events entries this :
  dev_context_ this <> None ->
  leds_ this <> None ->
  led_index_ofs_ this = 0 ->
  exists out this',
    enumDevices_ entries this = (out, Returned tt this') /\
    ascending (map fst (snapshot_of entries this)) /\
    led_index_ofs_ this' = last (leading_holes (snapshot_of entries this)) 0 /\
    (forall k, In k (leading_holes (snapshot_of entries this)) ->
               k <= led_index_ofs_ this') /\
    stores out = leading_holes (snapshot_of entries this) /\
    led_calls out
    = map (fun k => Leds_Set LED_BLUE (k - 1) true)
        (real_keys (snapshot_of entries this)) /\
    ascending (real_keys (snapshot_of entries this)).
Proof.
  intros Hctx Hleds Hzero.
  destruct (enumDevices__spec entries this Hctx)
    as (out & this' & E & Hasc & Hpos & Hst & Hofs & _ & _ & _ & Hled).
  rewrite Hzero in Hofs.
  exists out, this'. split; [exact E |]. split; [exact Hasc |].
  split; [exact Hofs |]. split; [| split; [exact Hst | split]].
  - intros k Hin. rewrite Hofs.
    now apply ascending_le_last; [apply leading_holes_ascending |].
  - rewrite Hled. now apply forwarded_real_keys.
  - now apply real_keys_ascending.
Qed.

(* ----------------------------------------------------------------------- *)
(** ** The offset over the life of the monitor *)

Lemma Main_loop_stores wakeups this : stores (fst (Main_loop wakeups this)) = [].
Proof.
  induction wakeups as [| [errno | fd_isset received] wakeups IH]; [reflexivity | |].
  - rewrite Main_loop_failed. now destruct (EINTR =? errno).
  - destruct (Main_loop_woken fd_isset received wakeups this) as (out & _ & Hst & ->).
    simpl. now rewrite stores_app, Hst, IH.
Qed.

(** A successful [Init] on the constructed monitor: the monitor it leaves
    and what it stored, in terms of the snapshot of the scan. *)
Lemma Init_spec leds os out this :
  Init leds os DeviceMonitor_new = (out, Returned tt this) ->
  dev_monitor_ this <> None /\
  stores out
  = leading_holes
      (snapshot_of (udev_enumerate_devices os)
         {| dev_context_ := udev_new os;
            dev_monitor_ := udev_monitor_new_from_netlink os;
            leds_ := leds;
            led_index_ofs_ := 0 |}) /\
  led_index_ofs_ this = last (stores out) 0.
Proof.
  unfold Init, DeviceMonitor_new. run. cbn [dev_context_ dev_monitor_ leds_ led_index_ofs_].
  cbv beta iota zeta.
  destruct (udev_new os) as [ctx |] eqn:Hctx; cbn [is_some negb]; [| discriminate].
  destruct (udev_monitor_new_from_netlink os) as [mon |] eqn:Hmon;
    cbn [is_some negb]; [| discriminate].
  destruct (truthy (udev_monitor_filter_add_match_subsystem_devtype os));
    [discriminate |].
  cbn [dev_context_ dev_monitor_ leds_ led_index_ofs_].
  destruct (truthy verbose); cbv beta iota zeta;
    match goal with
    | |- context [enumDevices_ ?e ?t] =>
        destruct (enumDevices__spec e t) as
        (o & this' & E & _ & _ & Hst & Hofs & _ & _ & Hm & _);
        [discriminate | rewrite E]
    end;
    cbn [dev_monitor_ led_index_ofs_] in Hm, Hofs;
    destruct (truthy (udev_monitor_enable_receiving os));
    cbv beta iota zeta; intros H; try discriminate H;
    injection H as <- <-; cbn [stores app]; rewrite ?stores_app; cbn [stores];
    rewrite ?app_nil_r, Hst, Hm, Hofs; repeat split; discriminate.
Qed.

(** C9, as the code has it: the offset is 0 in the constructed monitor;
    [Init] stores it during the enumeration only, once for each hole that
    comes before the first device of the snapshot (so not at all, once or
    several times), the last store being its final value; [Main] never
    stores it, the monitor is the same at every wait of the loop, and every
    notification is handled on that same monitor, so with that final
    offset. *)
Theorem led_index_ofs__stored_by_enumeration_only leds os out this :
  Init leds os DeviceMonitor_new = (out, Returned tt this) ->
  led_index_ofs_ DeviceMonitor_new = 0 /\
  stores out
  = leading_holes
      (snapshot_of (udev_enumerate_devices os)
         {| dev_context_ := udev_new os;
            dev_monitor_ := udev_monitor_new_from_netlink os;
            leds_ := leds;
            led_index_ofs_ := 0 |}) /\
  led_index_ofs_ this = last (stores out) 0 /\
  (forall wakeups, stores (fst (Main wakeups this)) = []) /\
  (forall pre fd_isset received,
      Forall is_woken pre ->
      snd (Main pre this) = Blocked this /\
      fst (Main (pre ++ [Woken fd_isset received]) this)
      = (fst (Main pre this)
         ++ fst (when fd_isset (Main_notification received) this))%list).
Proof.
  intros HInit. destruct (Init_spec _ _ _ _ HInit) as (Hmon & Hst & Hofs).
  split; [reflexivity |]. split; [exact Hst |]. split; [exact Hofs |]. split.
  - intros wakeups. rewrite Main_is_Main_loop by exact Hmon.
    apply Main_loop_stores.
  - intros pre fd_isset received Hpre. rewrite !Main_is_Main_loop by exact Hmon.
    split; [now apply Main_loop_blocked |].
    destruct (Main_loop_prefix pre [Woken fd_isset received] this Hpre) as [_ ->].
    f_equal.
    destruct (Main_loop_woken fd_isset received [] this) as (o & Ho & _ & ->).
    rewrite Ho. simpl. apply app_nil_r.
Qed.

(* ----------------------------------------------------------------------- *)
(** ** More on [Init], [Main] and the resolver *)

(** When [udev_new], [udev_monitor_new_from_netlink] or the filter fails,
    [Init] throws the exception named after the first call that failed,
    having written nothing and called no LED. *)
Theorem Init_throws_first_failure leds os this :
  (udev_new os = None ->
   Init leds os this = ([], Thrown {| what := "udev_new" |})) /\
  (udev_new os <> None ->
   udev_monitor_new_from_netlink os = None ->
   Init leds os this = ([], Thrown {| what := "udev_monitor_new_from_netlink" |})) /\
  (udev_new os <> None ->
   udev_monitor_new_from_netlink os <> None ->
   udev_monitor_filter_add_match_subsystem_devtype os <> 0 ->
   Init leds os this
   = ([], Thrown {| what := "udev_monitor_filter_add_match_subsystem_devtype" |})).
Proof.
  unfold Init. run. cbn [dev_context_ dev_monitor_ leds_ led_index_ofs_].
  repeat split.
  - intros ->. reflexivity.
  - intros Hctx ->. destruct (udev_new os); [reflexivity | now destruct Hctx].
  - intros Hctx Hmon Hfilter.
    destruct (udev_new os); [| now destruct Hctx].
    destruct (udev_monitor_new_from_netlink os); [| now destruct Hmon].
    cbn [is_some negb]. unfold truthy.
    apply Z.eqb_neq in Hfilter. rewrite Hfilter. reflexivity.
Qed.

(** The monitor as [Init] has it when it enumerates. *)
Lemma Init_runs_enumDevices_ leds os this :
  udev_new os <> None ->
  udev_monitor_new_from_netlink os <> None ->
  udev_monitor_filter_add_match_subsystem_devtype os = 0 ->
  exists out this',
    enumDevices_ (udev_enumerate_devices os)
      {| dev_context_ := udev_new os;
         dev_monitor_ := udev_monitor_new_from_netlink os;
         leds_ := leds;
         led_index_ofs_ := led_index_ofs_ this |}
    = (out, Returned tt this') /\
    dev_context_ this' = udev_new os /\
    dev_monitor_ this' = udev_monitor_new_from_netlink os /\
    leds_ this' = leds /\
    stores (fst (Init leds os this)) = stores out /\
    led_calls (fst (Init leds os this)) = led_calls out /\
    snd (Init leds os this)
    = if truthy (udev_monitor_enable_receiving os)
      then Thrown {| what := "udev_monitor_enable_receiving" |}
      else Returned tt this'.
Proof.
  intros Hctx Hmon Hfilter.
  destruct (enumDevices__spec (udev_enumerate_devices os)
              {| dev_context_ := udev_new os;
                 dev_monitor_ := udev_monitor_new_from_netlink os;
                 leds_ := leds;
                 led_index_ofs_ := led_index_ofs_ this |} Hctx)
    as (out & this' & E & _ & _ & _ & _ & Hl & Hc & Hm & _).
  cbn [dev_context_ dev_monitor_ leds_] in Hl, Hc, Hm.
  exists out, this'. split; [exact E |]. do 3 (split; [assumption |]).
  revert E. unfold Init. run. cbn [dev_context_ dev_monitor_ leds_ led_index_ofs_].
  rewrite Hfilter.
  destruct (udev_new os) as [ctx |]; [| now destruct Hctx].
  destruct (udev_monitor_new_from_netlink os) as [mon |]; [| now destruct Hmon].
  cbn [is_some negb truthy Z.eqb]. intros E.
  cbn [dev_context_ dev_monitor_ leds_ led_index_ofs_].
  destruct (truthy verbose); cbv beta iota zeta; rewrite E;
    destruct (truthy (udev_monitor_enable_receiving os)); cbv beta iota zeta;
    cbn [fst snd stores led_calls app];
    rewrite ?stores_app, ?led_calls_app; cbn [stores led_calls];
    rewrite ?app_nil_r; repeat split.
Qed.

(** When the first three calls of [Init] succeed and
    [udev_monitor_enable_receiving] fails, [Init] throws the exception named
    after it only after the enumeration has run: the LEDs of the devices it
    found are already set, exactly as by an [Init] that succeeds. *)
Theorem Init_enable_receiving_fails_after_enumeration leds os this :
  udev_new os <> None ->
  udev_monitor_new_from_netlink os <> None ->
  udev_monitor_filter_add_match_subsystem_devtype os = 0 ->
  udev_monitor_enable_receiving os <> 0 ->
  snd (Init leds os this) = Thrown {| what := "udev_monitor_enable_receiving" |} /\
  fst (Init leds os this)
  = fst (Init leds
           {| udev_new := udev_new os;
              udev_monitor_new_from_netlink := udev_monitor_new_from_netlink os;
              udev_monitor_filter_add_match_subsystem_devtype := 0;
              udev_enumerate_devices := udev_enumerate_devices os;
              udev_monitor_enable_receiving := 0 |} this) /\
  exists this',
    snd (Init leds
           {| udev_new := udev_new os;
              udev_monitor_new_from_netlink := udev_monitor_new_from_netlink os;
              udev_monitor_filter_add_match_subsystem_devtype := 0;
              udev_enumerate_devices := udev_enumerate_devices os;
              udev_monitor_enable_receiving := 0 |} this)
    = Returned tt this'.
Proof.
  intros Hctx Hmon Hfilter Henable.
  set (os' := {| udev_new := udev_new os;
                 udev_monitor_new_from_netlink := udev_monitor_new_from_netlink os;
                 udev_monitor_filter_add_match_subsystem_devtype := 0;
                 udev_enumerate_devices := udev_enumerate_devices os;
                 udev_monitor_enable_receiving := 0 |}).
  destruct (Init_runs_enumDevices_ leds os this Hctx Hmon Hfilter)
    as (out & this' & E & _ & _ & _ & _ & _ & Hres).
  destruct (Init_runs_enumDevices_ leds os' this Hctx Hmon eq_refl)
    as (out' & this'' & E' & _ & _ & _ & _ & _ & Hres').
  cbn [udev_new udev_monitor_new_from_netlink udev_enumerate_devices os'] in E'.
  rewrite E in E'. injection E' as <- <-.
  assert (Ht : truthy (udev_monitor_enable_receiving os) = true)
    by (unfold truthy; apply Z.eqb_neq in Henable; now rewrite Henable).
  rewrite Ht in Hres. split; [exact Hres |]. split; [| now exists this'].
  revert E. unfold Init. run. cbn [dev_context_ dev_monitor_ leds_ led_index_ofs_].
  cbn [udev_new udev_monitor_new_from_netlink udev_enumerate_devices
         udev_monitor_filter_add_match_subsystem_devtype
         udev_monitor_enable_receiving os'].
  rewrite Hfilter, Ht.
  destruct (udev_new os) as [ctx |]; [| now destruct Hctx].
  destruct (udev_monitor_new_from_netlink os) as [mon |]; [| now destruct Hmon].
  cbn [is_some negb truthy Z.eqb]. intros E.
  cbn [dev_context_ dev_monitor_ leds_ led_index_ofs_].
  destruct (truthy verbose); cbv beta iota zeta; rewrite E; reflexivity.
Qed.


Lemma Main_loop_result wakeups this :
  snd (Main_loop wakeups this) = Blocked this \/
  snd (Main_loop wakeups this) = Returned tt this \/
  snd (Main_loop wakeups this) = Thrown {| what := "select" |}.
Proof.
  induction wakeups as [| [errno | fd_isset received] wakeups IH].
  - now left.
  - rewrite Main_loop_failed. destruct (EINTR =? errno); right; [now left | now right].
  - destruct (Main_loop_woken fd_isset received wakeups this) as (out & _ & _ & ->).
    exact IH.
Qed.

(** After an [Init] that returns, the monitor holds the udev context, the
    udev monitor and the LED interface it was given, and [Main] on it passes
    its assertion: it is waiting, or has returned, or has thrown the
    exception named "select", with the monitor as [Init] left it. *)
Theorem Init_then_Main leds os this0 out this :
  Init leds os this0 = (out, Returned tt this) ->
  dev_context_ this = udev_new os /\
  dev_context_ this <> None /\
  dev_monitor_ this = udev_monitor_new_from_netlink os /\
  dev_monitor_ this <> None /\
  leds_ this = leds /\
  forall wakeups,
    snd (Main wakeups this) = Blocked this \/
    snd (Main wakeups this) = Returned tt this \/
    snd (Main wakeups this) = Thrown {| what := "select" |}.
Proof.
  intros HInit.
  destruct (Init_throws_first_failure leds os this0) as (F1 & F2 & F3).
  assert (Hctx : udev_new os <> None).
  { intros H. rewrite (F1 H) in HInit. discriminate HInit. }
  assert (Hmon : udev_monitor_new_from_netlink os <> None).
  { intros H. rewrite (F2 Hctx H) in HInit. discriminate HInit. }
  assert (Hfilter : udev_monitor_filter_add_match_subsystem_devtype os = 0).
  { destruct (Z.eq_dec (udev_monitor_filter_add_match_subsystem_devtype os) 0)
      as [E | E]; [exact E |].
    rewrite (F3 Hctx Hmon E) in HInit. discriminate HInit. }
  destruct (Init_runs_enumDevices_ leds os this0 Hctx Hmon Hfilter)
    as (o & this' & _ & Hc & Hm & Hl & _ & _ & Hres).
  rewrite HInit in Hres. cbn [snd] in Hres.
  destruct (truthy (udev_monitor_enable_receiving os)); [discriminate Hres |].
  injection Hres as ->.
  assert (Hm' : dev_monitor_ this' <> None) by now rewrite Hm.
  split; [exact Hc |]. split; [now rewrite Hc |]. split; [exact Hm |].
  split; [exact Hm' |]. split; [exact Hl |].
  intros wakeups. rewrite Main_is_Main_loop by exact Hm'. apply Main_loop_result.
Qed.

(** Called on a monitor that [Init] has not initialised, [Main] and
    [enumDevices_] fail their assertion before doing anything. *)
Theorem Main_and_enumDevices__need_Init this :
  (dev_monitor_ this = None ->
   forall wakeups, Main wakeups this = ([], AssertionFailed "dev_monitor_")) /\
  (dev_context_ this = None ->
   forall entries, enumDevices_ entries this = ([], AssertionFailed "dev_context_")).
Proof.
  split; intros H ?; [unfold Main | unfold enumDevices_]; run; now rewrite H.
Qed.

(** A notification whose action is neither "add" nor "remove" never reaches
    the LEDs and leaves the monitor as it is; without [debug] it has no
    effect at all. *)
Theorem Main_notification_other_action dev str this :
  udev_device_get_action (Some dev) = Some str ->
  strcasecmp str "add" <> 0 ->
  strcasecmp str "remove" <> 0 ->
  snd (Main_notification (Some dev) this) = Returned tt this /\
  led_calls (fst (Main_notification (Some dev) this)) = [] /\
  stores (fst (Main_notification (Some dev) this)) = [] /\
  (debug = 0 -> fst (Main_notification (Some dev) this) = []).
Proof.
  intros Hact Hadd Hrem. unfold Main_notification. rewrite Hact.
  apply Z.eqb_neq in Hadd, Hrem. rewrite Hadd, Hrem. run.
  destruct (truthy debug) eqn:Hd; repeat split; intros ->; discriminate Hd.
Qed.

Lemma blue_slot_led_calls out : Forall blue_slot (led_calls out) -> Forall blue_slot out.
Proof.
  induction out as [| e out IH]; [constructor |].
  destruct e; cbn [led_calls]; intros H.
  - constructor; [exact I | now apply IH].
  - inversion H; subst. constructor; [assumption | now apply IH].
  - constructor; [exact I | now apply IH].
Qed.

Lemma forwarded_blue_slot this n state :
  n <= Int.max_signed -> Forall blue_slot (forwarded this n state).
Proof.
  intros Hn. unfold forwarded.
  destruct (Z.leb_spec n 0); [constructor |].
  destruct (is_some (leds_ this)); constructor; [| constructor].
  split; [reflexivity |].
  rewrite sub_one_exact; [lia | lia |].
  unfold Int.in_range, Int.min_signed. lia.
Qed.

Lemma Main_notification_blue_slot device this :
  Forall blue_slot (fst (Main_notification device this)).
Proof.
  unfold Main_notification, deviceAdded_, deviceRemove_.
  destruct (udev_device_get_action device) as [str |]; [| constructor].
  destruct device as [dev |]; [| constructor].
  assert (H : forall st,
             Forall blue_slot (fst (deviceChanged_ dev st led_idx_default this))).
  { intros st.
    destruct (deviceChanged__spec dev st led_idx_default this)
      as (_ & n & out & _ & Hn & -> & _ & Hled).
    cbn [fst]. apply blue_slot_led_calls. rewrite Hled. apply forwarded_blue_slot.
    unfold led_idx_default. cbn. unfold Int.in_range in Hn. lia. }
  destruct (strcasecmp str "add" =? 0); [apply H |].
  destruct (strcasecmp str "remove" =? 0); [apply H |].
  run. destruct (truthy debug); repeat constructor.
Qed.

(** Every call of [LedControl::Set] that [Init] and [Main] make is for the
    blue LED of a slot that is not negative. *)
Theorem monitor_sets_blue_slots_only leds os wakeups this :
  Forall blue_slot (fst (Init leds os this)) /\
  Forall blue_slot (fst (Main wakeups this)).
Proof.
  split.
  - apply blue_slot_led_calls.
    destruct (udev_new os) as [ctx |] eqn:Hctx;
      [| destruct (Init_throws_first_failure leds os this) as (F & _);
         rewrite (F Hctx); constructor].
    destruct (udev_monitor_new_from_netlink os) as [mon |] eqn:Hmon;
      [| destruct (Init_throws_first_failure leds os this) as (_ & F & _);
         rewrite F; [constructor | now rewrite Hctx | exact Hmon]].
    destruct (Z.eq_dec (udev_monitor_filter_add_match_subsystem_devtype os) 0)
      as [Hf | Hf];
      [| destruct (Init_throws_first_failure leds os this) as (_ & _ & F);
         rewrite F; [constructor | now rewrite Hctx | now rewrite Hmon | exact Hf]].
    assert (Hc : udev_new os <> None) by now rewrite Hctx.
    assert (Hm : udev_monitor_new_from_netlink os <> None) by now rewrite Hmon.
    destruct (Init_runs_enumDevices_ leds os this Hc Hm Hf)
      as (out & this' & E & _ & _ & _ & _ & -> & _).
    match type of E with
    | enumDevices_ ?e ?t = _ =>
        destruct (enumDevices__spec e t) as
        (out' & this'' & E' & _ & Hpos & _ & _ & _ & _ & _ & Hled);
        [cbn; now rewrite Hctx |]
    end.
    rewrite E in E'. injection E' as <- <-. rewrite Hled.
    match goal with
    | |- Forall _ (flat_map _ (real_keys ?s)) => generalize dependent s
    end.
    intros snap Hpos _. induction snap as [| [k [dev |]] snap IH]; cbn [real_keys flat_map].
    + constructor.
    + apply Forall_app. split.
      * apply forwarded_blue_slot. apply (Hpos k dev). now left.
      * apply IH. intros k' d Hin. apply (Hpos k' d). now right.
    + apply IH. intros k' d Hin. apply (Hpos k' d). now right.
  - unfold Main. run. destruct (dev_monitor_ this); cbn [is_some]; [| constructor].
    cbv beta iota zeta.
    destruct (Main_loop wakeups this) as [out r] eqn:E. cbn [fst app].
    change out with (fst (out, r)). rewrite <- E. clear E out r.
    induction wakeups as [| [errno | fd_isset received] wakeups IH].
    + constructor.
    + rewrite Main_loop_failed. destruct (EINTR =? errno); repeat constructor.
    + destruct (Main_loop_woken fd_isset received wakeups this) as (out & Hout & _ & ->).
      cbn [fst]. apply Forall_app. split; [| exact IH].
      destruct fd_isset; cbn [when] in Hout.
      * pose proof (Main_notification_blue_slot received this) as H.
        now rewrite Hout in H.
      * injection Hout as <-. constructor.
Qed.


(** [Main] handles the wake-ups one at a time, in the order they come,
    each on the same monitor, up to the first wait that fails: what comes
    after that wait is never looked at. *)
Theorem Main_handles_in_order pre errno post this :
  dev_monitor_ this <> None ->
  Forall is_woken pre ->
  Main (pre ++ Failed errno :: post) this = Main (pre ++ [Failed errno]) this /\
  fst (Main pre this) = flat_map (wakeup_effects this) pre /\
  fst (Main (pre ++ Failed errno :: post) this)
  = (flat_map (wakeup_effects this) pre
     ++ (if EINTR =? errno then [Cout [Str ("Exiting on signal" ++ nl)]] else []))%list.
Proof.
  intros Hmon Hpre. rewrite !Main_is_Main_loop by exact Hmon.
  assert (Hflat : fst (Main_loop pre this) = flat_map (wakeup_effects this) pre).
  { clear errno post. induction Hpre as [| w pre Hw _ IH]; [reflexivity |].
    destruct w as [errno | fd_isset received]; [destruct Hw |].
    destruct (Main_loop_woken fd_isset received pre this) as (out & Hout & _ & ->).
    cbn [fst flat_map wakeup_effects]. now rewrite Hout, IH. }
  destruct (Main_loop_prefix pre (Failed errno :: post) this Hpre) as [S1 F1].
  destruct (Main_loop_prefix pre [Failed errno] this Hpre) as [S2 F2].
  rewrite !Main_loop_failed in *.
  split; [| split; [exact Hflat |]].
  - rewrite (surjective_pairing (Main_loop (pre ++ Failed errno :: post) this)).
    rewrite (surjective_pairing (Main_loop (pre ++ [Failed errno]) this)).
    now rewrite S1, S2, F1, F2.
  - rewrite F1, Hflat. now destruct (EINTR =? errno).
Qed.

(** The resolver looks at the ancestors of a device only: two devices with
    the same parent resolve alike, with the same messages. *)
Lemma getLedIndexForDevice__parent_only dev1 dev2 this :
  udev_device_get_parent dev1 = udev_device_get_parent dev2 ->
  getLedIndexForDevice_ dev1 this = getLedIndexForDevice_ dev2 this.
Proof.
  unfold getLedIndexForDevice_, udev_device_get_parent.
  destruct dev1, dev2. cbn [parent udev_device_get_parent_with_subsystem_devtype].
  now intros ->.
Qed.

Lemma forwarded_with_state this n state state' :
  forwarded this n state' = map (with_state state') (forwarded this n state).
Proof.
  unfold forwarded. destruct (n <=? 0); [reflexivity |].
  now destruct (is_some (leds_ this)).
Qed.

(** The LED that the "add" of a device lights is the one that the "remove"
    of a device with the same parent puts out, as long as the monitor is the
    same: the calls are the same but for the state, and there is at most
    one. *)
Theorem add_and_remove_meet_on_one_led added removed str_add str_remove this :
  udev_device_get_parent added = udev_device_get_parent removed ->
  udev_device_get_action (Some added) = Some str_add ->
  strcasecmp str_add "add" = 0 ->
  udev_device_get_action (Some removed) = Some str_remove ->
  strcasecmp str_remove "remove" = 0 ->
  led_calls (fst (Main_notification (Some removed) this))
  = map (with_state false) (led_calls (fst (Main_notification (Some added) this))) /\
  led_calls (fst (Main_notification (Some added) this))
  = map (with_state true) (led_calls (fst (Main_notification (Some removed) this))) /\
  (List.length (led_calls (fst (Main_notification (Some added) this))) <= 1)%nat.
Proof.
  intros Hparent Hact1 Hadd Hact2 Hrem.
  assert (Hnadd : strcasecmp str_remove "add" <> 0).
  { unfold strcasecmp in *. rewrite strcmp_zero in *. rewrite Hrem. discriminate. }
  unfold Main_notification, deviceAdded_, deviceRemove_.
  rewrite Hact1, Hact2, Hadd, Hrem. apply Z.eqb_neq in Hnadd. rewrite Hnadd.
  cbn [Z.eqb].
  destruct (deviceChanged__spec added true led_idx_default this)
    as (o1 & n1 & out1 & Hget1 & _ & -> & _ & Hled1).
  destruct (deviceChanged__spec removed false led_idx_default this)
    as (o2 & n2 & out2 & Hget2 & _ & -> & _ & Hled2).
  cbn [fst]. rewrite Hled1, Hled2.
  rewrite (getLedIndexForDevice__parent_only added removed this Hparent) in Hget1.
  rewrite Hget2 in Hget1. injection Hget1 as _ ->.
  split; [apply forwarded_with_state |]. split; [apply forwarded_with_state |].
  match goal with
  | |- context [forwarded this ?idx true] => generalize idx
  end.
  intros n.
  unfold forwarded. destruct (n <=? 0); [cbn; lia |].
  destruct (is_some (leds_ this)); cbn; lia.
Qed.

(** A device whose SCSI host is not on PCI and whose host number (not
    negative) is at least two below the offset resolves to the positive index [offset - sysnum - 1]:
    its "add" lights a bay LED although the device is not in a bay. *)
Theorem non_pci_device_below_offset_lights_a_led
  dev str this scsi_host sysnum scsi_host_parent scsi_host_parent_subsystem :
  udev_device_get_parent_with_subsystem_devtype dev "scsi" "scsi_host"
  = Some scsi_host ->
  udev_device_get_sysnum scsi_host = Some sysnum ->
  udev_device_get_parent scsi_host = Some scsi_host_parent ->
  udev_device_get_subsystem scsi_host_parent = Some scsi_host_parent_subsystem ->
  scsi_host_parent_subsystem <> "pci" ->
  Int.in_range (led_index_ofs_ this) ->
  0 <= atoi sysnum ->
  atoi sysnum + 1 < led_index_ofs_ this ->
  leds_ this <> None ->
  udev_device_get_action (Some dev) = Some str ->
  strcasecmp str "add" = 0 ->
  snd (getLedIndexForDevice_ dev this)
  = Returned (led_index_ofs_ this - atoi sysnum - 1) this /\
  led_calls (fst (Main_notification (Some dev) this))
  = [Leds_Set LED_BLUE (led_index_ofs_ this - atoi sysnum - 2) true].
Proof.
  intros Hhost Hnum Hp Hsub Hne Hofs Ha Hlow Hleds Hact Hadd.
  assert (Hrange : Int.min_signed < atoi sysnum - led_index_ofs_ this + 1
                   <= Int.max_signed)
    by (unfold Int.in_range, Int.min_signed, Int.max_signed in *; lia).
  assert (Hval : snd (getLedIndexForDevice_ dev this)
                 = Returned (led_index_ofs_ this - atoi sysnum - 1) this).
  { unfold getLedIndexForDevice_.
    rewrite Hhost, Hnum, Hp, Hsub, strcmp_zero_b. run.
    destruct (String.eqb_spec "pci" scsi_host_parent_subsystem) as [E | _];
      [now symmetry in E |].
    replace (led_index_ofs_ this - atoi sysnum - 1)
      with (- (atoi sysnum - led_index_ofs_ this + 1)) by lia.
    destruct (truthy debug), (1 <? verbose); simpl;
      now rewrite neg_led_idx_exact. }
  assert (Hres : getLedIndexForDevice_ dev this
                 = (fst (getLedIndexForDevice_ dev this),
                    Returned (led_index_ofs_ this - atoi sysnum - 1) this))
    by (rewrite <- Hval; apply surjective_pairing).
  split; [exact Hval |].
  unfold Main_notification, deviceAdded_. rewrite Hact, Hadd. cbn [Z.eqb].
  destruct (deviceChanged__spec dev true led_idx_default this)
    as (o & n & out & Hget & Hn & -> & _ & Hled).
  cbn [fst]. rewrite Hled.
  rewrite Hres in Hget. injection Hget as _ <-.
  unfold forwarded, led_idx_default. cbn [Z.leb Z.compare].
  destruct (Z.leb_spec (led_index_ofs_ this - atoi sysnum - 1) 0); [lia |].
  destruct (leds_ this); [| now destruct Hleds]. cbn [is_some].
  rewrite sub_one_exact by (assumption || lia). do 2 f_equal. lia.
Qed.


(* ----------------------------------------------------------------------- *)
(** ** More on the snapshot of [enumDevices_] *)

(** The first loop on a device that resolves to 0: the device is left out. *)
Lemma enumDevices_collect_skip dev entries acc this :
  snd (getLedIndexForDevice_ dev this) = Returned 0 this ->
  snd (enumDevices_collect (Some dev :: entries) acc this)
  = snd (enumDevices_collect entries acc this).
Proof.
  intros Hres.
  destruct (getLedIndexForDevice__returns dev this) as (out0 & n' & Hget & _).
  rewrite Hget in Hres. injection Hres as ->.
  cbn [enumDevices_collect]. run.
  destruct (truthy debug || (1 <? verbose)); cbv beta iota zeta;
    rewrite Hget; cbv beta iota zeta; cbn [Z.eqb];
    destruct (enumDevices_collect entries acc this) as [out r]; reflexivity.
Qed.

Lemma enumDevices_collect_value entries acc this :
  exists snap, snd (enumDevices_collect entries acc this) = Returned snap this.
Proof.
  destruct (enumDevices_collect_spec entries acc this) as (out & snap & E & _).
  exists snap. now rewrite E.
Qed.

(** Inserts under different keys can be swapped. *)
Lemma map_insert_swap k1 v1 k2 v2 m :
  k1 <> k2 ->
  map_insert k1 v1 (map_insert k2 v2 m) = map_insert k2 v2 (map_insert k1 v1 m).
Proof.
  intros Hne. induction m as [| [k0 v0] m IH]; cbn [map_insert].
  - destruct (Z.ltb_spec k1 k2), (Z.ltb_spec k2 k1), (Z.eqb_spec k1 k2),
      (Z.eqb_spec k2 k1); try lia; reflexivity.
  - destruct (Z.ltb_spec k2 k0), (Z.eqb_spec k2 k0), (Z.ltb_spec k1 k0),
      (Z.eqb_spec k1 k0); try lia; cbn [map_insert];
      repeat match goal with
        | |- context [?a <? ?b] => destruct (Z.ltb_spec a b); try lia
        | |- context [?a =? ?b] => destruct (Z.eqb_spec a b); try lia
        end;
      try reflexivity.
    now rewrite IH.
Qed.

(** The snapshot does not depend on the order in which the scan brings two
    neighbouring devices that are retained under different keys. *)
Theorem enumDevices_collect_order_of_distinct_keys
  dev1 dev2 n1 n2 entries acc this :
  snd (getLedIndexForDevice_ dev1 this) = Returned n1 this ->
  snd (getLedIndexForDevice_ dev2 this) = Returned n2 this ->
  n1 <> 0 ->
  n2 <> 0 ->
  Int.abs n1 <> Int.abs n2 ->
  snd (enumDevices_collect (Some dev1 :: Some dev2 :: entries) acc this)
  = snd (enumDevices_collect (Some dev2 :: Some dev1 :: entries) acc this).
Proof.
  intros H1 H2 Hn1 Hn2 Hne.
  rewrite (enumDevices_collect_cons dev1 n1 _ acc this H1 Hn1).
  rewrite (enumDevices_collect_cons dev2 n2 _ _ this H2 Hn2).
  rewrite (enumDevices_collect_cons dev2 n2 _ acc this H2 Hn2).
  rewrite (enumDevices_collect_cons dev1 n1 _ _ this H1 Hn1).
  rewrite (map_insert_swap (Int.abs n2) _ (Int.abs n1) _ acc); [reflexivity |].
  intros E. now apply Hne.
Qed.

Lemma enumDevices_collect_entries entries :
  forall acc this snap k entry,
    snd (enumDevices_collect entries acc this) = Returned snap this ->
    In (k, entry) snap ->
    In (k, entry) acc \/
    exists dev n,
      In (Some dev) entries /\
      snd (getLedIndexForDevice_ dev this) = Returned n this /\
      n <> 0 /\
      k = Int.abs n /\
      entry = (if n <? 0 then None else Some dev).
Proof.
  induction entries as [| [dev |] entries IH]; intros acc this snap k entry Hsnap Hin.
  - cbn in Hsnap. injection Hsnap as <-. now left.
  - destruct (getLedIndexForDevice__returns dev this) as (o & n & Hget & _).
    assert (Hres : snd (getLedIndexForDevice_ dev this) = Returned n this)
      by now rewrite Hget.
    destruct (Z.eq_dec n 0) as [-> | Hn].
    + assert (Hsnap' : snd (enumDevices_collect entries acc this) = Returned snap this)
        by (rewrite <- Hsnap; symmetry; now apply enumDevices_collect_skip).
      destruct (IH _ _ _ _ _ Hsnap' Hin) as [H | (d & m & Hd & H)]; [now left |].
      right. exists d, m. split; [now right | exact H].
    + assert (Hsnap' :
               snd (enumDevices_collect entries
                      (map_insert (Int.abs n) (if n <? 0 then None else Some dev) acc)
                      this)
               = Returned snap this)
        by (rewrite <- Hsnap; symmetry; now apply enumDevices_collect_cons).
      destruct (IH _ _ _ _ _ Hsnap' Hin) as [H | (d & m & Hd & H)].
      * destruct (map_insert_In _ _ _ _ H) as [E | H']; [| now left].
        right. exists dev, n. injection E as -> ->.
        split; [now left |]. repeat split; assumption.
      * right. exists d, m. split; [now right | exact H].
  - cbn [enumDevices_collect] in Hsnap.
    destruct (IH _ _ _ _ _ Hsnap Hin) as [H | (d & m & Hd & H)]; [now left |].
    right. exists d, m. split; [now right | exact H].
Qed.

(** Every entry of the snapshot comes from a device of the scan that
    resolves to a value other than 0: the key is the magnitude of that
    value, the entry is the device itself when the value is positive and a
    hole when it is negative. *)
Theorem snapshot_entries_come_from_the_scan entries this k entry :
  In (k, entry) (snapshot_of entries this) ->
  exists dev n,
    In (Some dev) entries /\
    snd (getLedIndexForDevice_ dev this) = Returned n this /\
    n <> 0 /\
    k = Int.abs n /\
    entry = (if n <? 0 then None else Some dev).
Proof.
  intros Hin. unfold snapshot_of in Hin.
  destruct (enumDevices_collect_value entries [] this) as (snap & E).
  rewrite E in Hin.
  destruct (enumDevices_collect_entries entries [] this snap k entry E Hin)
    as [[] | H].
  exact H.
Qed.

Lemma snapshot_of_unresolvable entries this :
  Forall (fun device =>
            match device with
            | Some dev => snd (getLedIndexForDevice_ dev this) = Returned 0 this
            | None => True
            end) entries ->
  snd (enumDevices_collect entries [] this) = Returned [] this.
Proof.
  induction 1 as [| [dev |] entries Hdev _ IH]; [reflexivity | |].
  - now rewrite (enumDevices_collect_skip dev entries [] this Hdev).
  - exact IH.
Qed.

(** A scan that brings only devices that could not be opened or that resolve
    to 0 gives the empty snapshot: [enumDevices_] returns with the monitor
    as it was, stores no offset and calls no LED. *)
Theorem enumDevices__nothing_to_report entries this :
  dev_context_ this <> None ->
  Forall (fun device =>
            match device with
            | Some dev => snd (getLedIndexForDevice_ dev this) = Returned 0 this
            | None => True
            end) entries ->
  snapshot_of entries this = [] /\
  snd (enumDevices_ entries this) = Returned tt this /\
  stores (fst (enumDevices_ entries this)) = [] /\
  led_calls (fst (enumDevices_ entries this)) = [].
Proof.
  intros Hctx Hall.
  assert (Hsnap : snapshot_of entries this = []).
  { unfold snapshot_of. now rewrite (snapshot_of_unresolvable entries this Hall). }
  split; [exact Hsnap |].
  destruct (enumDevices_collect_spec entries [] this)
    as (out & snap & E & Hst & Hled & _).
  pose proof (snapshot_of_unresolvable entries this Hall) as E'.
  rewrite E in E'. injection E' as ->.
  unfold enumDevices_. run.
  destruct (dev_context_ this); [| now destruct Hctx].
  cbn [is_some]. cbv beta iota zeta. rewrite E. cbn [enumDevices_iterate].
  unfold ret. cbn [fst snd app]. rewrite ?app_nil_r. repeat split; assumption.
Qed.


(* ----------------------------------------------------------------------- *)
(** ** [main] after the options *)

Lemma program_bind_done {A B : Type} (c : program A) (f : A -> program B) b :
  snd (program_bind c f) = Done b ->
  exists a, snd c = Done a /\ snd (f a) = Done b.
Proof.
  unfold program_bind. destruct c as [out [a | e | expr |]]; cbn [snd];
    try discriminate.
  intros H. exists a. split; [reflexivity |].
  destruct (f a) as [out' r']. exact H.
Qed.

Lemma program_bind_in {A B : Type} (c : program A) (f : A -> program B) e :
  In e (fst (program_bind c f)) ->
  In e (fst c) \/ exists a, snd c = Done a /\ In e (fst (f a)).
Proof.
  unfold program_bind. destruct c as [out [a | x | expr |]]; cbn [fst snd];
    try (now left).
  destruct (f a) as [out' r'] eqn:E. cbn [fst]. intros H.
  apply in_app_or in H. destruct H as [H | H]; [now left |].
  right. exists a. split; [reflexivity |]. now rewrite E.
Qed.

Lemma program_bind_aborted {A B : Type} (c : program A) (f : A -> program B) expr :
  snd (program_bind c f) = Aborted expr ->
  snd c = Aborted expr \/ exists a, snd c = Done a /\ snd (f a) = Aborted expr.
Proof.
  unfold program_bind. destruct c as [out [a | e | x |]]; cbn [snd];
    try discriminate; [| intros H; left; now injection H as ->].
  intros H. right. exists a. split; [reflexivity |].
  destruct (f a) as [out' r']. exact H.
Qed.

Lemma light_show_loop_ending rnd show_mode :
  forall ps light_leds state calls,
    show_ending
      (snd (light_show_loop led_bits rnd show_mode light_leds state calls ps)).
Proof.
  unfold show_ending.
  intros ps. induction ps as [| p ps IH]; intros light_leds state calls;
    cbn [light_show_loop];
    destruct (light_show_frame led_bits rnd show_mode light_leds state calls)
      as [[out [[s l] c]] |]; cbn [snd]; try solve [auto 6].
  destruct p as [| errno].
  - specialize (IH l s c).
    destruct (light_show_loop led_bits rnd show_mode l s c ps) as [o r].
    exact IH.
  - destruct (EINTR =? errno); cbn [negb snd]; auto 6.
Qed.

Lemma run_light_show_ending rnd show ps :
  show_ending (snd (run_light_show led_bits rnd show ps)).
Proof.
  unfold run_light_show. destruct (1 =? show).
  - pose proof (light_show_loop_ending rnd 0 ps 0 0 0%nat) as H.
    destruct (light_show_loop led_bits rnd 0 0 0 0 ps) as [o r]. exact H.
  - apply light_show_loop_ending.
Qed.

Lemma Init_never_fails_assertion leds os expr :
  snd (Init leds os DeviceMonitor_new) <> AssertionFailed expr.
Proof.
  destruct (Init_throws_first_failure leds os DeviceMonitor_new) as (F1 & F2 & F3).
  destruct (udev_new os) as [ctx |] eqn:Hctx; [| now rewrite F1].
  destruct (udev_monitor_new_from_netlink os) as [mon |] eqn:Hmon;
    [| now rewrite F2].
  destruct (Z.eq_dec (udev_monitor_filter_add_match_subsystem_devtype os) 0)
    as [Hf | Hf]; [| now rewrite F3].
  assert (Hc : udev_new os <> None) by now rewrite Hctx.
  assert (Hm : udev_monitor_new_from_netlink os <> None) by now rewrite Hmon.
  destruct (Init_runs_enumDevices_ leds os DeviceMonitor_new Hc Hm Hf)
    as (out & this' & _ & _ & _ & _ & _ & _ & ->).
  now destruct (truthy (udev_monitor_enable_receiving os)).
Qed.

Lemma main_body_status v os status :
  snd (main_body v os) = Done status -> status = 0 \/ status = 1.
Proof.
  unfold main_body. intros H.
  apply program_bind_done in H. destruct H as (_ & _ & H).
  apply program_bind_done in H. destruct H as (leds & _ & H).
  destruct leds as [control |]; [| discriminate H].
  do 7 (apply program_bind_done in H; destruct H as (_ & _ & H)).
  destruct (xmas v); [injection H as <-; now left |].
  destruct (0 <? light_show v).
  - destruct (run_light_show_ending (rand os) (light_show v) (pauses os))
      as [E | [E | [E | E]]]; rewrite E in H; try discriminate H;
      injection H as <-; auto.
  - do 3 (apply program_bind_done in H; destruct H as (? & _ & H)).
    injection H as <-. now left.
Qed.

Lemma main_body_never_aborted v os expr :
  snd (main_body v os) <> Aborted expr.
Proof.
  unfold main_body. intros H.
  apply program_bind_aborted in H. destruct H as [H | (_ & _ & H)].
  { revert H. unfold init_signals.
    destruct (-1 =? sigaction_SIGINT os); [discriminate |].
    destruct (-1 =? sigaction_SIGTERM os); discriminate. }
  apply program_bind_aborted in H. destruct H as [H | (leds & _ & H)].
  { revert H. now destruct (get_led_interface _ _). }
  destruct leds as [control |]; [| discriminate H].
  apply program_bind_aborted in H. destruct H as [H | (_ & _ & H)];
    [discriminate H |].
  apply program_bind_aborted in H. destruct H as [H | (_ & _ & H)].
  { revert H. destruct (0 <=? mount_usb v); discriminate. }
  apply program_bind_aborted in H. destruct H as [H | (_ & _ & H)].
  { revert H. destruct (run_as_daemon v); [| discriminate].
    cbn. destruct (truthy (daemon os)); discriminate. }
  do 4 (apply program_bind_aborted in H; destruct H as [H | (_ & _ & H)];
        [discriminate H |]).
  destruct (xmas v); [discriminate H |].
  destruct (0 <? light_show v).
  - destruct (run_light_show_ending (rand os) (light_show v) (pauses os))
      as [E | [E | [E | E]]]; rewrite E in H; discriminate H.
  - apply program_bind_aborted in H. destruct H as [H | ([[] this] & HInit & H)].
    + revert H. unfold of_monitor.
      pose proof (Init_never_fails_assertion (Some control) (udev_calls os) expr) as N.
      destruct (Init (Some control) (udev_calls os) DeviceMonitor_new) as [o r].
      cbn [snd] in *. destruct r; try discriminate.
      intros E. injection E as ->. now apply N.
    + apply program_bind_aborted in H. destruct H as [H | (_ & _ & H)].
      * revert H HInit. unfold of_monitor. cbn [snd].
        destruct (Init (Some control) (udev_calls os) DeviceMonitor_new)
          as [o r] eqn:EInit.
        cbn [snd]. destruct r as [[] this0 | | |]; try discriminate.
        intros H E. injection E as <-.
        destruct (Init_then_Main _ _ _ _ _ EInit) as (_ & _ & _ & _ & _ & HMain).
        specialize (HMain (wakeups os)).
        destruct (Main (wakeups os) this0) as [o' r']. cbn [snd] in *.
        destruct HMain as [-> | [-> | ->]]; discriminate H.
      * apply program_bind_aborted in H. destruct H as [H | (_ & _ & H)];
          discriminate H.
Qed.

(** No exception leaves [main] and no assertion of the monitor fails under
    it: whatever the options and the system, [main] returns 0 or 1 or is
    still going on. *)
Theorem main_run_returns_0_or_1 v os :
  match snd (main_run v os) with
  | Done status => status = 0 \/ status = 1
  | Raised _ => False
  | Aborted _ => False
  | Going => True
  end.
Proof.
  unfold main_run, main_catch.
  pose proof (main_body_status v os) as H.
  pose proof (main_body_never_aborted v os) as N.
  destruct (main_body v os) as [out [status | e | expr |]]; cbn [snd] in *;
    [now apply H | now right | now apply (N expr) | exact I].
Qed.


(** When a signal handler cannot be installed, or when neither LED
    interface initialises, [main] reports the exception and returns 1
    without having dropped privileges, driven an LED or started the
    monitor. *)
Theorem main_run_start_up_failures v os :
  (sigaction_SIGINT os = -1 ->
   main_run v os
   = (Call_sigaction SIGINT
        :: reported (errno_exception {| what := "sigaction(SIGINT)" |}) (getuid os),
      Done 1)) /\
  (sigaction_SIGINT os <> -1 ->
   sigaction_SIGTERM os = -1 ->
   main_run v os
   = (Call_sigaction SIGINT :: Call_sigaction SIGTERM
        :: reported (errno_exception {| what := "sigaction(SIGTERM)" |}) (getuid os),
      Done 1)) /\
  (sigaction_SIGINT os <> -1 ->
   sigaction_SIGTERM os <> -1 ->
   LedAcerH340_Init os = false ->
   LedHpEx48X_Init os = false ->
   main_run v os
   = (Call_sigaction SIGINT :: Call_sigaction SIGTERM
        :: LedControl_Init LedAcerH340 :: LedControl_Init LedHpEx48X
        :: reported (runtime_error "Failed to find an LED control interface")
             (getuid os),
      Done 1)).
Proof.
  unfold main_run, main_body, init_signals, get_led_interface, reported.
  repeat split.
  - intros ->. reflexivity.
  - intros Hint ->. assert (E : (-1 =? sigaction_SIGINT os) = false)
      by (apply Z.eqb_neq; lia).
    rewrite E. reflexivity.
  - intros Hint Hterm -> ->.
    assert (E1 : (-1 =? sigaction_SIGINT os) = false) by (apply Z.eqb_neq; lia).
    assert (E2 : (-1 =? sigaction_SIGTERM os) = false) by (apply Z.eqb_neq; lia).
    rewrite E1, E2. reflexivity.
Qed.

(** [main] up to the bays: with the signal handlers installed, an LED
    interface found and [daemon] not failing, [main] comes to the four calls
    that set every bay, and what it has done before them touches neither a
    bay nor the monitor. *)
Lemma main_body_set_up v os probes control :
  sigaction_SIGINT os <> -1 ->
  sigaction_SIGTERM os <> -1 ->
  get_led_interface (LedAcerH340_Init os) (LedHpEx48X_Init os)
  = (probes, Some control) ->
  run_as_daemon v = false \/ daemon os = 0 ->
  exists rest,
    Forall before_bays rest /\
    main_body v os
    = (let (out, r) :=
         (if xmas v then ([], Done 0)
          else if 0 <? light_show v
          then run_light_show led_bits (rand os) (light_show v) (pauses os)
          else
            initialised <- of_monitor (Init (Some control) (udev_calls os))
                             DeviceMonitor_new ;;
            of_monitor (Main (wakeups os)) (snd initialised) ;;
            does [LedControl_SetSystemLed (led_bits LED_BLUE) LED_BLINK] ;;
            ([], Done 0))%daemon in
       ((Call_sigaction SIGINT :: Call_sigaction SIGTERM :: probes
           ++ drop_priviledges (getpwnam_nobody os)
           ++ rest ++ set_all_bays (xmas v) ++ out)%list,
        r)).
Proof.
  intros Hint Hterm Hleds Hdaemon.
  assert (E1 : (-1 =? sigaction_SIGINT os) = false) by (apply Z.eqb_neq; lia).
  assert (E2 : (-1 =? sigaction_SIGTERM os) = false) by (apply Z.eqb_neq; lia).
  exists ((if 0 <=? mount_usb v
           then (if truthy debug || (0 <? verbose)
                 then [Write_cout [Str (if truthy (mount_usb v) then "M" else "Unm");
                                   Str ("ounting USB device" ++ nl)]]
                 else [])
                ++ [LedControl_MountUsb (truthy (mount_usb v))]
           else [])
          ++ (if run_as_daemon v then [Call_daemon] else [])
          ++ [Write_cout [Str "Found: "; Str (Desc os control); Chr LF];
              LedControl_SetSystemLed (led_bits LED_RED) (by_bool false);
              LedControl_SetSystemLed (led_bits LED_BLUE) (by_bool true)]
          ++ (if 0 <=? brightness v
              then [LedControl_SetBrightness (brightness v)]
              else []))%list.
  split.
  - repeat first
      [ apply Forall_nil
      | apply Forall_cons; [exact I |]
      | apply Forall_app; split
      | match goal with
        | |- Forall _ (if ?b then _ else _) => destruct b
        end ].
  - unfold main_body, init_signals. rewrite E1, E2, Hleds.
    unfold program_bind at 1 2. cbv beta iota.
    unfold set_all_bays.
    assert (Hd : (if run_as_daemon v
                  then (does [Call_daemon] ;;
                        if truthy (daemon os)
                        then raise (errno_exception {| what := "daemon" |})
                        else does [])%daemon
                  else does [])
                 = does (if run_as_daemon v then [Call_daemon] else [])).
    { destruct (run_as_daemon v); [| reflexivity].
      destruct Hdaemon as [H | ->]; [discriminate H | reflexivity]. }
    rewrite Hd. clear Hd Hdaemon.
    destruct (xmas v); [| destruct (0 <? light_show v)]; cbv beta iota;
      try match goal with
        | |- _ = (let (out, r) := ?t in _) => destruct t as [out r]
        end;
      destruct (0 <=? mount_usb v), (run_as_daemon v), (0 <=? brightness v);
      cbn [does program_bind app]; rewrite <- ?app_assoc; cbn [app];
      rewrite ?app_nil_r; reflexivity.
Qed.


Lemma get_led_interface_probes acer hp probes leds :
  get_led_interface acer hp = (probes, leds) ->
  Forall before_bays probes /\
  Forall (fun e => exists control, e = LedControl_Init control) probes.
Proof.
  unfold get_led_interface. destruct acer; [| destruct hp]; intros H;
    injection H as <- <-; split; repeat constructor; eauto.
Qed.

Lemma drop_priviledges_before_bays pw : Forall before_bays (drop_priviledges pw).
Proof. destruct pw as [[uid gid] |]; repeat constructor. Qed.

(** Once the signal handlers are installed and an LED interface is found,
    [main] drops its privileges right after the probing of the interfaces:
    the group first, then the user, and everything else it does (every call
    that drives an LED, [daemon], the light show, the monitor) comes after. *)
Theorem main_run_drops_privileges_first v os probes control :
  sigaction_SIGINT os <> -1 ->
  sigaction_SIGTERM os <> -1 ->
  get_led_interface (LedAcerH340_Init os) (LedHpEx48X_Init os)
  = (probes, Some control) ->
  Forall (fun e => exists c, e = LedControl_Init c) probes /\
  exists rest,
    fst (main_run v os)
    = (Call_sigaction SIGINT :: Call_sigaction SIGTERM :: probes
         ++ match getpwnam_nobody os with
            | Some (pw_uid, pw_gid) => [Call_setgid pw_gid; Call_setuid pw_uid]
            | None => []
            end
         ++ rest)%list.
Proof.
  intros Hint Hterm Hleds.
  split; [apply (get_led_interface_probes _ _ _ _ Hleds) |].
  assert (E1 : (-1 =? sigaction_SIGINT os) = false) by (apply Z.eqb_neq; lia).
  assert (E2 : (-1 =? sigaction_SIGTERM os) = false) by (apply Z.eqb_neq; lia).
  unfold main_run, main_body, init_signals. rewrite E1, E2, Hleds.
  unfold program_bind at 1 2 3. cbv beta iota.
  change (does (drop_priviledges (getpwnam_nobody os)))
    with (drop_priviledges (getpwnam_nobody os), @Done unit tt).
  cbv beta iota.
  match goal with
  | |- context [let (out2, r') := ?t in ((drop_priviledges _ ++ out2)%list, r')] =>
      destruct t as [out r]
  end.
  fold (drop_priviledges (getpwnam_nobody os)).
  unfold main_catch.
  destruct r; cbn [fst]; eexists;
    try reflexivity.
  cbn [app]. rewrite <- !app_assoc. reflexivity.
Qed.

(** With [--xmas], [main] ends by setting both colours of the four bays on
    and returns 0: it starts neither a light show nor the monitor. *)
Theorem main_run_xmas v os probes control :
  sigaction_SIGINT os <> -1 ->
  sigaction_SIGTERM os <> -1 ->
  get_led_interface (LedAcerH340_Init os) (LedHpEx48X_Init os)
  = (probes, Some control) ->
  run_as_daemon v = false \/ daemon os = 0 ->
  xmas v = true ->
  exists before,
    Forall before_bays before /\
    main_run v os = ((before ++ set_all_bays true)%list, Done 0).
Proof.
  intros Hint Hterm Hleds Hdaemon Hxmas.
  destruct (main_body_set_up v os probes control Hint Hterm Hleds Hdaemon)
    as (rest & Hrest & E).
  rewrite Hxmas in E.
  exists (Call_sigaction SIGINT :: Call_sigaction SIGTERM :: probes
            ++ drop_priviledges (getpwnam_nobody os) ++ rest)%list.
  split.
  - do 2 (apply Forall_cons; [exact I |]).
    apply Forall_app. split; [apply (get_led_interface_probes _ _ _ _ Hleds) |].
    apply Forall_app. split; [apply drop_priviledges_before_bays | exact Hrest].
  - unfold main_run. rewrite E. cbn [main_catch app].
    rewrite app_nil_r, <- !app_assoc. reflexivity.
Qed.

Lemma Init_ends leds os this :
  (exists e, snd (Init leds os this) = Thrown e) \/
  (exists this', snd (Init leds os this) = Returned tt this').
Proof.
  destruct (Init_throws_first_failure leds os this) as (F1 & F2 & F3).
  destruct (udev_new os) as [ctx |] eqn:Hctx;
    [| rewrite F1; [left; eexists; reflexivity | reflexivity]].
  assert (Hc : udev_new os <> None) by now rewrite Hctx.
  destruct (udev_monitor_new_from_netlink os) as [mon |] eqn:Hmon;
    [| rewrite F2; [left; eexists; reflexivity | discriminate | reflexivity]].
  assert (Hm : udev_monitor_new_from_netlink os <> None) by now rewrite Hmon.
  destruct (Z.eq_dec (udev_monitor_filter_add_match_subsystem_devtype os) 0)
    as [Hf | Hf];
    [| rewrite F3;
       [left; eexists; reflexivity | discriminate | discriminate | exact Hf]].
  destruct (Init_runs_enumDevices_ leds os this Hc Hm Hf)
    as (out & this' & _ & _ & _ & _ & _ & _ & ->).
  destruct (truthy (udev_monitor_enable_receiving os));
    [left | right]; eexists; reflexivity.
Qed.

(** [main] as the monitor: after the set-up it clears the four bays, runs
    [Init] and then [Main]. When [Main] returns (a signal), [main] sets the
    system LED blinking again and returns 0; when [Init] or [Main] throws,
    [main] reports the exception and returns 1, and the system LED is left
    as it was; while [Main] waits, [main] goes on. *)
Theorem main_run_monitoring v os probes control :
  sigaction_SIGINT os <> -1 ->
  sigaction_SIGTERM os <> -1 ->
  get_led_interface (LedAcerH340_Init os) (LedHpEx48X_Init os)
  = (probes, Some control) ->
  run_as_daemon v = false \/ daemon os = 0 ->
  xmas v = false ->
  light_show v <= 0 ->
  exists before,
    Forall before_bays before /\
    match Init (Some control) (udev_calls os) DeviceMonitor_new with
    | (out, Returned _ this) =>
        match Main (wakeups os) this with
        | (out', Returned _ _) =>
            main_run v os
            = ((before ++ set_all_bays false ++ map Of_monitor (out ++ out')
                  ++ [LedControl_SetSystemLed (led_bits LED_BLUE) LED_BLINK])%list,
               Done 0)
        | (out', Thrown e) =>
            main_run v os
            = ((before ++ set_all_bays false ++ map Of_monitor (out ++ out')
                  ++ reported (errno_exception e) (getuid os))%list,
               Done 1)
        | (out', Blocked _) =>
            main_run v os
            = ((before ++ set_all_bays false ++ map Of_monitor (out ++ out'))%list,
               Going)
        | (_, AssertionFailed _) => False
        end
    | (out, Thrown e) =>
        main_run v os
        = ((before ++ set_all_bays false ++ map Of_monitor out
              ++ reported (errno_exception e) (getuid os))%list,
           Done 1)
    | (_, AssertionFailed _) | (_, Blocked _) => False
    end.
Proof.
  intros Hint Hterm Hleds Hdaemon Hxmas Hshow.
  destruct (main_body_set_up v os probes control Hint Hterm Hleds Hdaemon)
    as (rest & Hrest & E).
  rewrite Hxmas in E.
  destruct (Z.ltb_spec 0 (light_show v)) as [Hlt | _]; [lia |].
  exists (Call_sigaction SIGINT :: Call_sigaction SIGTERM :: probes
            ++ drop_priviledges (getpwnam_nobody os) ++ rest)%list.
  split.
  { do 2 (apply Forall_cons; [exact I |]).
    apply Forall_app. split; [apply (get_led_interface_probes _ _ _ _ Hleds) |].
    apply Forall_app. split; [apply drop_priviledges_before_bays | exact Hrest]. }
  unfold main_run. rewrite E. clear E. unfold of_monitor, reported.
  destruct (Init_ends (Some control) (udev_calls os) DeviceMonitor_new)
    as [(e & HI) | (this & HI)];
    destruct (Init (Some control) (udev_calls os) DeviceMonitor_new)
      as [out r] eqn:EInit; cbn [snd] in HI; subst r.
  - cbn [program_bind main_catch app]. rewrite <- !app_assoc. reflexivity.
  - destruct (Init_then_Main _ _ _ _ _ EInit) as (_ & _ & _ & _ & _ & HMain).
    specialize (HMain (wakeups os)). cbn [program_bind snd].
    destruct (Main (wakeups os) this) as [out' r'].
    cbn [snd] in HMain.
    destruct HMain as [-> | [-> | ->]];
      cbn [program_bind does main_catch app];
      rewrite ?map_app, ?app_nil_r, <- ?app_assoc; cbn [app];
      rewrite <- ?app_assoc; reflexivity.
Qed.

End Monitor.

(* ------------------------------------------------------------------------- *)
(** ** The theorems on the example topologies *)

Import Examples.

Lemma in_int_range z :
  (Int.min_signed <=? z) && (z <=? Int.max_signed) = true -> Int.in_range z.
Proof.
  intros H. apply andb_prop in H. destruct H as [H1 H2].
  split; [now apply Z.leb_le | now apply Z.leb_le].
Qed.

(** A disk without any SCSI host above it, and a disk on a host without a
    number, resolve to 0 (with [debug] set, so the messages are passed). *)
Lemma getLedIndexForDevice__unresolvable_witness :
  snd (getLedIndexForDevice_ 1 0 (disk None None) (monitor 0))
  = Returned 0 (monitor 0) /\
  snd (getLedIndexForDevice_ 1 0 (disk (Some scsi_host_unnumbered) None) (monitor 0))
  = Returned 0 (monitor 0).
Proof.
  split; apply getLedIndexForDevice__unresolvable.
  - left. reflexivity.
  - right. exists scsi_host_unnumbered. split; reflexivity.
Defined.

(** [host3] without a parent resolves to 0; [host3] on a port without
    subsystem resolves to 3 - 0 + 1. *)
Lemma getLedIndexForDevice__missing_parent_or_subsystem_witness :
  snd (getLedIndexForDevice_ 0 0 (disk (Some (scsi_host "3" None)) None) (monitor 0))
  = Returned 0 (monitor 0) /\
  snd (getLedIndexForDevice_ 0 0 (disk (Some (scsi_host "3" (Some ata_port))) None)
         (monitor 0))
  = Returned (atoi "3" - 0 + 1) (monitor 0) /\
  0 < atoi "3" - 0 + 1.
Proof.
  destruct (getLedIndexForDevice__missing_parent_or_subsystem 0 0
              (disk (Some (scsi_host "3" None)) None) (monitor 0)
              (scsi_host "3" None) "3" eq_refl eq_refl
              (in_int_range (atoi "3" - 0 + 1) eq_refl)) as [Hnone _].
  destruct (getLedIndexForDevice__missing_parent_or_subsystem 0 0
              (disk (Some (scsi_host "3" (Some ata_port))) None) (monitor 0)
              (scsi_host "3" (Some ata_port)) "3" eq_refl eq_refl
              (in_int_range (atoi "3" - 0 + 1) eq_refl)) as [_ Hsome].
  destruct (Hsome ata_port eq_refl eq_refl) as [Hres Hpos].
  split; [apply Hnone; reflexivity | split; [exact Hres | apply Hpos]].
  vm_compute. discriminate.
Defined.

(** C1, the claim as written fails: a device on [host0], the host having no
    parent, resolves to 0 and not to the candidate 0 - 0 + 1. *)
Lemma getLedIndexForDevice__without_parent_is_0 :
  let scsi_host := scsi_host "0" None in
  let device := disk (Some scsi_host) None in
  let this := monitor 0 in
  udev_device_get_parent_with_subsystem_devtype device "scsi" "scsi_host"
  = Some scsi_host /\
  udev_device_get_sysnum scsi_host = Some "0" /\
  udev_device_get_parent scsi_host = None /\
  atoi "0" - led_index_ofs_ this + 1 = 1 /\
  snd (getLedIndexForDevice_ 0 0 device this) = Returned 0 this /\
  snd (getLedIndexForDevice_ 0 0 device this)
  <> Returned (atoi "0" - led_index_ofs_ this + 1) this.
Proof.
  cbv zeta. do 5 (split; [reflexivity |]). vm_compute. discriminate.
Qed.



(** With offset 2 the bay disk on [host2] is bay 1 and the USB disk on
    [host5] resolves to -4: of the notifications "add" of the USB disk,
    "ADD" of the bay disk and "remove" of the bay disk, [Main] forwards the
    second as LED 0 on and the third as LED 0 off, and nothing for the
    first. *)
Lemma Main_notification_forwards_witness :
  led_calls
    (fst (Main 0 0 [Woken true (Some (usb_disk "5" (Some "add")));
                    Woken true (Some (pci_disk "2" (Some "ADD")));
                    Woken true (Some (pci_disk "2" (Some "remove")))]
            (monitor 2)))
  = [Leds_Set LED_BLUE 0 true; Leds_Set LED_BLUE 0 false] /\
  led_calls
    (fst (Main 0 0 [Woken true (Some (pci_disk "2" (Some "remove")))] (monitor 2)))
  = [Leds_Set LED_BLUE 0 false] /\
  led_calls
    (fst (Main 0 0 [Woken true (Some (usb_disk "5" (Some "add")))] (monitor 2)))
  = [].
Proof.
  assert (Hmon : dev_monitor_ (monitor 2) <> None) by discriminate.
  assert (Hleds : leds_ (monitor 2) <> None) by discriminate.
  split; [| split].
  - destruct (Main_notification_forwards 0 0 (pci_disk "2" (Some "ADD")) "ADD" true 1
                (monitor 2) Hmon Hleds eq_refl (or_introl (conj eq_refl eq_refl))
                eq_refl)
      as [_ Hat].
    destruct (Hat [Woken true (Some (usb_disk "5" (Some "add")))]
                [Woken true (Some (pci_disk "2" (Some "remove")))])
      as [Hcalls _].
    + constructor; [exact I | constructor].
    + exact Hcalls.
  - apply (Main_notification_forwards 0 0 (pci_disk "2" (Some "remove")) "remove"
             false 1 (monitor 2) Hmon Hleds eq_refl
             (or_intror (conj eq_refl eq_refl)) eq_refl).
  - apply (Main_notification_forwards 0 0 (usb_disk "5" (Some "add")) "add" true (-4)
             (monitor 2) Hmon Hleds eq_refl (or_introl (conj eq_refl eq_refl))
             eq_refl).
Defined.

(** A notification without action, in debug mode. *)
Lemma Main_notification_without_action_witness :
  Main_notification 1 2 (Some (pci_disk "2" None)) (monitor 2)
  = ([], Returned tt (monitor 2)) /\
  Main_loop 1 2 [Woken true (Some (pci_disk "2" None)); Failed EINTR] (monitor 2)
  = Main_loop 1 2 [Failed EINTR] (monitor 2).
Proof.
  apply (Main_notification_without_action 1 2 (Some (pci_disk "2" None)) (monitor 2)
           true [Failed EINTR]).
  reflexivity.
Defined.

(** After one notification, a wait interrupted by a signal ends [Main]
    normally; a wait failing with [errno] 9 makes it throw. *)
Lemma Main_ends_on_failed_wait_witness :
  snd (Main 0 0 [Woken true (Some (pci_disk "2" (Some "add"))); Failed EINTR]
         (monitor 2))
  = Returned tt (monitor 2) /\
  snd (Main 0 0 [Woken true (Some (pci_disk "2" (Some "add"))); Failed 9]
         (monitor 2))
  = Thrown {| what := "select" |}.
Proof.
  assert (Hmon : dev_monitor_ (monitor 2) <> None) by discriminate.
  assert (Hpre : Forall is_woken [Woken true (Some (pci_disk "2" (Some "add")))])
    by (constructor; [exact I | constructor]).
  destruct (Main_ends_on_failed_wait 0 0 (monitor 2) Hmon) as [Hfail _].
  split.
  - apply (Hfail [Woken true (Some (pci_disk "2" (Some "add")))] EINTR [] Hpre).
    reflexivity.
  - apply (Hfail [Woken true (Some (pci_disk "2" (Some "add")))] 9 [] Hpre).
    discriminate.
Defined.

(** The scan brings a USB disk and then a bay disk, both on a [host0]: the
    hole of the first stays at key 1. *)
Lemma enumDevices_collect_first_wins_witness :
  let first := usb_disk "0" None in
  let second := pci_disk "0" None in
  map_insert 1 (Some second) (map_insert 1 None []) = map_insert 1 None [] /\
  map_find 1 (map_insert 1 (Some second) (map_insert 1 None [])) = Some None /\
  snd (enumDevices_collect 0 0 [Some first; Some second] [] (monitor 0))
  = snd (enumDevices_collect 0 0 [Some first] [] (monitor 0)).
Proof.
  cbv zeta.
  destruct (enumDevices_collect_first_wins 0 0
              (usb_disk "0" None) (pci_disk "0" None) (-1) 1 [] [] (monitor 0)
              eq_refl eq_refl) as (Hmap & Hfind & Hsnap);
    [discriminate | discriminate | reflexivity |].
  split; [exact Hmap | split; [apply Hfind; reflexivity | exact Hsnap]].
Defined.

(** C3, the claim as written fails: the scan yields a USB disk and then a
    bay disk that both resolve to the magnitude 1; the snapshot keeps the
    hole of the first and not the device of the second. *)
Lemma enumDevices_collect_keeps_first :
  let first := usb_disk "0" None in
  let second := pci_disk "0" None in
  let this := monitor 0 in
  snd (getLedIndexForDevice_ 0 0 first this) = Returned (-1) this /\
  snd (getLedIndexForDevice_ 0 0 second this) = Returned 1 this /\
  snapshot_of 0 0 [Some first; Some second] this = [(1, None)] /\
  snapshot_of 0 0 [Some first; Some second] this <> [(1, Some second)].
Proof.
  cbv zeta. do 3 (split; [reflexivity |]). vm_compute. discriminate.
Qed.

(** The scan of a USB disk on [host0], a bay disk on [host1], a USB disk on
    [host2] and a bay disk on [host3]: the snapshot has holes at 1 and 3 and
    devices at 2 and 4. *)
Lemma enumDevices__offset_and_events_witness :
  let entries := [Some (usb_disk "0" None); Some (pci_disk "1" None);
                  Some (usb_disk "2" None); Some (pci_disk "3" None)] in
  let this := monitor 0 in
  leading_holes (snapshot_of 0 0 entries this) = [1] /\
  real_keys (snapshot_of 0 0 entries this) = [2; 4] /\
  exists out this',
    enumDevices_ 0 0 entries this = (out, Returned tt this') /\
    ascending (map fst (snapshot_of 0 0 entries this)) /\
    led_index_ofs_ this' = last (leading_holes (snapshot_of 0 0 entries this)) 0 /\
    (forall k, In k (leading_holes (snapshot_of 0 0 entries this)) ->
               k <= led_index_ofs_ this') /\
    stores out = leading_holes (snapshot_of 0 0 entries this) /\
    led_calls out
    = map (fun k => Leds_Set LED_BLUE (k - 1) true)
        (real_keys (snapshot_of 0 0 entries this)) /\
    ascending (real_keys (snapshot_of 0 0 entries this)).
Proof.
  cbv zeta. split; [reflexivity |]. split; [reflexivity |].
  apply enumDevices__offset_and_events.
  - discriminate.
  - discriminate.
  - reflexivity.
Defined.

(** C2, what the code does: the scan of two USB disks on [host0] and
    [host1] and of three bay disks on [host2] to [host4] gives the snapshot
    with holes at 1 and 2 and devices at 3, 4 and 5; the enumeration leaves
    the offset 2 and reports the devices under their keys 3, 4 and 5 (LEDs
    2, 3 and 4), not re-based to 1, 2 and 3, whereas a live "add" of the same
    disks under that offset reports them as bays 1, 2 and 3 (LEDs 0, 1, 2). *)
Theorem enumDevices__reports_keys_not_rebased :
  let this := monitor 0 in
  let snap := [(1, None); (2, None); (3, Some (pci_disk "2" None));
               (4, Some (pci_disk "3" None)); (5, Some (pci_disk "4" None))] in
  snapshot_of 0 0 two_usb_three_bays this = snap /\
  snd (enumDevices_ 0 0 two_usb_three_bays this) = Returned tt (monitor 2) /\
  stores (fst (enumDevices_ 0 0 two_usb_three_bays this)) = [1; 2] /\
  led_calls (fst (enumDevices_ 0 0 two_usb_three_bays this))
  = [Leds_Set LED_BLUE 2 true; Leds_Set LED_BLUE 3 true; Leds_Set LED_BLUE 4 true] /\
  fst (enumDevices_iterate 0 0 snap false this)
  = [Store_led_index_ofs_ 1; Store_led_index_ofs_ 2;
     Cout [Str "ADDED"; Str " ["; Num 3; Str "] '"; Str "WDC WD10EADS"; Str ("'" ++ nl)];
     Leds_Set LED_BLUE 2 true;
     Cout [Str "ADDED"; Str " ["; Num 4; Str "] '"; Str "WDC WD10EADS"; Str ("'" ++ nl)];
     Leds_Set LED_BLUE 3 true;
     Cout [Str "ADDED"; Str " ["; Num 5; Str "] '"; Str "WDC WD10EADS"; Str ("'" ++ nl)];
     Leds_Set LED_BLUE 4 true] /\
  led_calls
    (fst (Main 0 0 [Woken true (Some (pci_disk "2" (Some "add")));
                    Woken true (Some (pci_disk "3" (Some "add")));
                    Woken true (Some (pci_disk "4" (Some "add")))] (monitor 2)))
  = [Leds_Set LED_BLUE 0 true; Leds_Set LED_BLUE 1 true; Leds_Set LED_BLUE 2 true].
Proof.
  cbv zeta. repeat split; reflexivity.
Qed.

(** [Init] on the scan of two USB disks and three bay disks, then [Main]. *)
Lemma led_index_ofs__stored_by_enumeration_only_witness :
  let init := Init 0 0 (Some LedHpEx48X) (answers two_usb_three_bays) DeviceMonitor_new in
  let this := monitor 2 in
  snd init = Returned tt this /\
  stores (fst init) = [1; 2] /\
  led_index_ofs_ this = last (stores (fst init)) 0 /\
  (forall wakeups, stores (fst (Main 0 0 wakeups this)) = []) /\
  (forall pre fd_isset received,
      Forall is_woken pre ->
      snd (Main 0 0 pre this) = Blocked this /\
      fst (Main 0 0 (pre ++ [Woken fd_isset received]) this)
      = (fst (Main 0 0 pre this)
         ++ fst (when fd_isset (Main_notification 0 0 received) this))%list).
Proof.
  cbv zeta.
  destruct (led_index_ofs__stored_by_enumeration_only 0 0
              (Some LedHpEx48X) (answers two_usb_three_bays)
              (fst (Init 0 0 (Some LedHpEx48X) (answers two_usb_three_bays)
                      DeviceMonitor_new))
              (monitor 2) eq_refl)
    as (_ & _ & Hofs & Hmain & Hlive).
  split; [reflexivity |]. split; [reflexivity |].
  split; [exact Hofs |]. split; [exact Hmain | exact Hlive].
Defined.

(** C9, the claim as written fails: the enumeration of two USB disks and
    three bay disks stores the offset twice (1, then 2), and the enumeration
    of bay disks alone does not store it at all. *)
Lemma led_index_ofs__not_stored_exactly_once :
  stores (fst (Init 0 0 (Some LedHpEx48X) (answers two_usb_three_bays)
                 DeviceMonitor_new))
  = [1; 2] /\
  stores (fst (Init 0 0 (Some LedHpEx48X)
                 (answers [Some (pci_disk "0" None); Some (pci_disk "1" None)])
                 DeviceMonitor_new))
  = [] /\
  List.length [1; 2] <> 1%nat /\ List.length (@nil Z) <> 1%nat.
Proof.
  repeat split; try reflexivity; discriminate.
Qed.

(* ------------------------------------------------------------------------- *)
(** ** The light shows *)

Section LightShowProperties.

Variable led_bits : LedType -> Z.
Variable rand : nat -> Z.

Lemma show_mode_of light_show :
  2 <= light_show <= Int.max_signed ->
  size_t (Int.add (Z.rem (Int.sub light_show 2) 4) 1) = (light_show - 2) mod 4 + 1.
Proof.
  intros H. unfold Int.sub. rewrite wrap_small
    by (unfold Int.in_range, Int.min_signed, Int.max_signed in *; lia).
  rewrite Z.rem_mod_nonneg by lia.
  pose proof (Z.mod_pos_bound (light_show - 2) 4 eq_refl) as Hm.
  unfold Int.add. rewrite wrap_small
    by (unfold Int.in_range, Int.min_signed, Int.max_signed in *; lia).
  unfold size_t. apply Z.mod_small. lia.
Qed.

Lemma show_colour_of light_show :
  2 <= light_show <= Int.max_signed ->
  (let q := Z.quot (Int.sub light_show 2) 4 in
   if q =? 1 then led_bits LED_RED
   else if q =? 2 then Z.lor (led_bits LED_BLUE) (led_bits LED_RED)
   else led_bits LED_BLUE)
  = show_colour led_bits light_show.
Proof.
  intros H. cbv zeta. unfold Int.sub. rewrite wrap_small
    by (unfold Int.in_range, Int.min_signed, Int.max_signed in *; lia).
  rewrite Z.quot_div_nonneg by lia.
  pose proof (Z_div_mod_eq_full (light_show - 2) 4) as Hd.
  pose proof (Z.mod_pos_bound (light_show - 2) 4 eq_refl) as Hm.
  unfold show_colour.
  destruct (Z.eqb_spec ((light_show - 2) / 4) 1), (Z.eqb_spec ((light_show - 2) / 4) 2),
    (Z.ltb_spec light_show 6), (Z.ltb_spec light_show 10), (Z.ltb_spec light_show 14);
    try reflexivity; lia.
Qed.

Lemma show_states show_mode state :
  1 <= show_mode <= 4 ->
  0 <= state < show_period show_mode ->
  In (show_mode, state)
    [(1, 0); (1, 1); (1, 2); (1, 3); (2, 0); (2, 1); (2, 2); (2, 3);
     (3, 0); (3, 1); (3, 2); (3, 3); (3, 4); (3, 5);
     (4, 0); (4, 1); (4, 2); (4, 3); (4, 4); (4, 5); (4, 6); (4, 7);
     (4, 8); (4, 9); (4, 10); (4, 11); (4, 12); (4, 13); (4, 14); (4, 15)].
Proof.
  intros Hm Hs.
  assert (E : show_mode = 1 \/ show_mode = 2 \/ show_mode = 3 \/ show_mode = 4) by lia.
  destruct E as [-> | [-> | [-> | ->]]]; cbn in Hs;
    match goal with
    | |- In (_, state) _ =>
        assert (E : In state [0; 1; 2; 3; 4; 5; 6; 7; 8; 9; 10; 11; 12; 13; 14; 15])
          by (cbn; lia)
    end;
    cbn in E; cbn;
    repeat (destruct E as [<- | E]; [try lia; tauto |]); destruct E.
Qed.

(** One frame of the shows 1 to 4 in terms of the number of the frame. *)
Lemma light_show_frame_at show_mode light_leds state calls :
  1 <= show_mode <= 4 ->
  0 <= state < show_period show_mode ->
  light_show_frame led_bits rand show_mode light_leds state calls
  = Some (show_frame_at show_mode light_leds state,
          ((state + 1) mod show_period show_mode, light_leds, calls)).
Proof.
  intros Hm Hs. pose proof (show_states show_mode state Hm Hs) as Hin.
  cbn in Hin.
  repeat (destruct Hin as [E | Hin]; [injection E as <- <-; reflexivity |]).
  destruct Hin.
Qed.


Lemma show_period_pos show_mode : 0 < show_period show_mode.
Proof.
  unfold show_period.
  destruct (show_mode =? 3); [lia |]. destruct (show_mode =? 4); lia.
Qed.

Lemma show_frame_at_mod show_mode light_leds j :
  show_frame_at show_mode light_leds (j mod show_period show_mode)
  = show_frame_at show_mode light_leds j.
Proof.
  unfold show_frame_at. rewrite Z.mod_mod; [reflexivity |].
  pose proof (show_period_pos show_mode). lia.
Qed.

Lemma flat_map_seq_shift {A : Type} (f : nat -> list A) start len :
  flat_map f (seq (S start) len) = flat_map (fun j => f (S j)) (seq start len).
Proof.
  revert start. induction len as [| len IH]; intros start; [reflexivity |].
  cbn [seq flat_map]. now rewrite IH.
Qed.

(** The shows 1 to 4 while the pauses elapse: frame after frame, from the
    state the loop is in. *)
Lemma light_show_loop_elapsed show_mode light_leds :
  1 <= show_mode <= 4 ->
  forall n state calls,
    0 <= state < show_period show_mode ->
    light_show_loop led_bits rand show_mode light_leds state calls (repeat Elapsed n)
    = (flat_map (fun j => show_frame_at show_mode light_leds (state + Z.of_nat j))
         (seq 0 (S n)),
       Going).
Proof.
  intros Hm. induction n as [| n IH]; intros state calls Hs.
  - cbn [repeat light_show_loop]. rewrite light_show_frame_at by assumption.
    cbn [seq flat_map Z.of_nat]. now rewrite Z.add_0_r, app_nil_r.
  - cbn [repeat light_show_loop]. rewrite light_show_frame_at by assumption.
    rewrite IH by (apply Z.mod_pos_bound, show_period_pos).
    f_equal. change (seq 0 (S (S n))) with (0%nat :: seq 1 (S n)).
    cbn [flat_map Z.of_nat]. rewrite Z.add_0_r. f_equal.
    rewrite flat_map_seq_shift. apply flat_map_ext. intros j.
    rewrite <- (show_frame_at_mod show_mode light_leds
                  ((state + 1) mod show_period show_mode + Z.of_nat j)).
    rewrite <- (show_frame_at_mod show_mode light_leds (state + Z.of_nat (S j))).
    f_equal. rewrite Zplus_mod_idemp_l. f_equal. lia.
Qed.

Lemma light_show_frame_some show_mode light_leds state calls :
  0 <= show_mode <= 4 ->
  exists out next,
    light_show_frame led_bits rand show_mode light_leds state calls
    = Some (out, next).
Proof.
  intros Hm.
  assert (E : show_mode = 0 \/ show_mode = 1 \/ show_mode = 2 \/ show_mode = 3
              \/ show_mode = 4) by lia.
  unfold light_show_frame.
  destruct E as [-> | [-> | [-> | [-> | ->]]]]; cbn [Z.eqb Pos.eqb];
    [destruct (holiday_lights led_bits rand calls 0 4 light_leds) | | | |];
    eauto.
Qed.

(** A show whose mode is 0 to 4 ends only when a pause fails. *)
Lemma light_show_loop_ends show_mode :
  0 <= show_mode <= 4 ->
  forall pre light_leds state calls errno post,
    Forall (eq Elapsed) pre ->
    snd (light_show_loop led_bits rand show_mode light_leds state calls pre) = Going /\
    snd (light_show_loop led_bits rand show_mode light_leds state calls
           (pre ++ Broken errno :: post))
    = if EINTR =? errno then Done 0
      else Raised (errno_exception {| what := "select" |}).
Proof.
  intros Hm pre. induction pre as [| p pre IH];
    intros light_leds state calls errno post Hpre;
    destruct (light_show_frame_some show_mode light_leds state calls Hm)
      as (out & [[s l] c] & E);
    cbn [app light_show_loop]; rewrite E.
  - split; [reflexivity |]. now destruct (EINTR =? errno).
  - inversion Hpre as [| ? ? <- Hpre']; subst.
    destruct (IH l s c errno post Hpre') as [IH1 IH2].
    destruct (light_show_loop led_bits rand show_mode l s c pre) as [o1 r1].
    destruct (light_show_loop led_bits rand show_mode l s c
                (pre ++ Broken errno :: post)) as [o2 r2].
    cbn [snd] in *. now split.
Qed.

Lemma show_mode_range light_show :
  2 <= light_show <= Int.max_signed ->
  1 <= (light_show - 2) mod 4 + 1 <= 4.
Proof.
  intros _. pose proof (Z.mod_pos_bound (light_show - 2) 4 eq_refl). lia.
Qed.

(** Every show that [main] starts ([light_show] positive) is supported: it
    goes on while the pauses elapse, and when a pause fails it returns 0 for
    [EINTR] and throws the exception named "select" for any other [errno];
    it never returns 1. *)
Theorem run_light_show_ends_on_failed_pause light_show pre errno post :
  1 <= light_show <= Int.max_signed ->
  Forall (eq Elapsed) pre ->
  snd (run_light_show led_bits rand light_show pre) = Going /\
  snd (run_light_show led_bits rand light_show (pre ++ Broken errno :: post))
  = if EINTR =? errno then Done 0
    else Raised (errno_exception {| what := "select" |}).
Proof.
  intros Hls Hpre. unfold run_light_show.
  destruct (Z.eqb_spec 1 light_show) as [E | E].
  - destruct (light_show_loop_ends 0 ltac:(lia) pre 0 0 0%nat errno post Hpre)
      as [H1 H2].
    destruct (light_show_loop led_bits rand 0 0 0 0 pre) as [o1 r1].
    destruct (light_show_loop led_bits rand 0 0 0 0 (pre ++ Broken errno :: post))
      as [o2 r2].
    cbn [snd] in *. now split.
  - cbv zeta. rewrite show_mode_of by lia.
    apply light_show_loop_ends; [| exact Hpre].
    pose proof (show_mode_range light_show ltac:(lia)). lia.
Qed.

Lemma show_frame_at_ok show_mode light_leds state :
  1 <= show_mode <= 4 ->
  0 <= state < show_period show_mode ->
  Forall (show_event_ok light_leds) (show_frame_at show_mode light_leds state).
Proof.
  intros Hm Hs. pose proof (show_states show_mode state Hm Hs) as Hin.
  cbn in Hin.
  repeat (destruct Hin as [E | Hin];
          [injection E as <- <-; cbn; repeat constructor; lia |]).
  destruct Hin.
Qed.

Lemma light_show_loop_ok show_mode light_leds :
  1 <= show_mode <= 4 ->
  forall pauses state calls,
    0 <= state < show_period show_mode ->
    Forall (show_event_ok light_leds)
      (fst (light_show_loop led_bits rand show_mode light_leds state calls pauses)).
Proof.
  intros Hm ps. induction ps as [| p ps IH]; intros state calls Hs;
    cbn [light_show_loop]; rewrite light_show_frame_at by assumption;
    pose proof (show_frame_at_ok show_mode light_leds state Hm Hs) as Hf.
  - exact Hf.
  - destruct p as [| errno].
    + specialize (IH ((state + 1) mod show_period show_mode) calls
                    (Z.mod_pos_bound _ _ (show_period_pos show_mode))).
      destruct (light_show_loop led_bits rand show_mode light_leds
                  ((state + 1) mod show_period show_mode) calls ps) as [o r].
      cbn [fst] in *. apply Forall_app. now split.
    + destruct (EINTR =? errno); cbn [negb fst]; [| exact Hf].
      apply Forall_app. split; [exact Hf | repeat constructor].
Qed.

(** A show from 2 on keeps to its colour and to the four bays: every call
    it makes sets that colour on one of the bays 0 to 3 or sets a
    brightness from 1 to 9, whatever the pauses do. *)
Theorem run_light_show_keeps_to_colour_and_bays light_show pauses :
  2 <= light_show <= Int.max_signed ->
  Forall (show_event_ok (show_colour led_bits light_show))
    (fst (run_light_show led_bits rand light_show pauses)).
Proof.
  intros Hls. unfold run_light_show.
  destruct (Z.eqb_spec 1 light_show) as [E | _]; [lia |].
  rewrite show_colour_of by exact Hls. rewrite show_mode_of by exact Hls.
  apply light_show_loop_ok.
  - now apply show_mode_range.
  - cbn. pose proof (show_period_pos ((light_show - 2) mod 4 + 1)). lia.
Qed.

(** The animation of a show from 2 on: while the pauses elapse, the frame
    number [j] is the one of the show's mode at [j] modulo its period (a
    chaser going down or up, the light going to and fro, or all bays lit at
    a brightness going up to 9 and down), in the colour of the show. *)
Theorem run_light_show_frames light_show n :
  2 <= light_show <= Int.max_signed ->
  run_light_show led_bits rand light_show (repeat Elapsed n)
  = (flat_map (fun j =>
                 show_frame_at ((light_show - 2) mod 4 + 1)
                   (show_colour led_bits light_show) (Z.of_nat j))
       (seq 0 (S n)),
     Going).
Proof.
  intros Hls. unfold run_light_show.
  destruct (Z.eqb_spec 1 light_show) as [E | _]; [lia |].
  rewrite show_colour_of by exact Hls. rewrite show_mode_of by exact Hls.
  rewrite light_show_loop_elapsed.
  - reflexivity.
  - now apply show_mode_range.
  - pose proof (show_period_pos ((light_show - 2) mod 4 + 1)). lia.
Qed.

Lemma holiday_lights_frame calls light_leds :
  exists light_leds',
    holiday_lights led_bits rand calls 0 4 light_leds
    = (holiday_frame led_bits rand calls, light_leds').
Proof.
  eexists. unfold holiday_frame, holiday_colour. cbn [holiday_lights seq flat_map app].
  rewrite !Nat.add_0_r.
  replace (calls + 1)%nat with (S calls) by lia.
  replace (calls + 2)%nat with (S (S calls)) by lia.
  replace (calls + 3)%nat with (S (S (S calls))) by lia.
  reflexivity.
Qed.

Lemma holiday_loop_elapsed n :
  forall light_leds state calls,
    light_show_loop led_bits rand 0 light_leds state calls (repeat Elapsed n)
    = (flat_map (fun j => holiday_frame led_bits rand (calls + 4 * j)) (seq 0 (S n)),
       Going).
Proof.
  induction n as [| n IH]; intros light_leds state calls;
    cbn [repeat light_show_loop]; unfold light_show_frame; cbn [Z.eqb];
    destruct (holiday_lights_frame calls light_leds) as (l' & ->).
  - cbn [seq flat_map]. now rewrite Nat.mul_0_r, Nat.add_0_r, app_nil_r.
  - rewrite IH. f_equal.
    change (seq 0 (S (S n))) with (0%nat :: seq 1 (S n)).
    cbn [flat_map]. rewrite Nat.mul_0_r, Nat.add_0_r. f_equal.
    rewrite flat_map_seq_shift. apply flat_map_ext. intros j. f_equal. lia.
Qed.

(** The holiday lights (show 1): after seeding [rand], every frame draws
    four values in turn, one for each bay from 0 to 3, sets the colour drawn
    for the bay and clears its complement. *)
Theorem run_light_show_holiday_lights n :
  run_light_show led_bits rand 1 (repeat Elapsed n)
  = (Call_srand
       :: flat_map (fun j => holiday_frame led_bits rand (4 * j)) (seq 0 (S n)),
     Going).
Proof.
  unfold run_light_show. cbn [Z.eqb Pos.eqb]. rewrite holiday_loop_elapsed.
  reflexivity.
Qed.

End LightShowProperties.

(* ------------------------------------------------------------------------- *)
(** ** The options of [main] *)

Section OptionsProperties.

Variables argv0 DATE TIME : string.

Lemma main_option_goes_on c optarg v :
  option_goes_on (c, optarg) ->
  exists out v',
    main_option argv0 DATE TIME c optarg v = (out, inl v') /\
    g_debug v' = (if c =? char_code "d" then Int.add (g_debug v) 1 else g_debug v) /\
    g_verbose v'
    = (if c =? char_code "v" then Int.add (g_verbose v) 1 else g_verbose v) /\
    run_as_daemon v' = (run_as_daemon v || (c =? char_code "D"))%bool /\
    xmas v' = (xmas v || (c =? char_code "X"))%bool.
Proof.
  intros (_ & Hh & HV & Hq). cbn [fst] in *. unfold main_option.
  apply Z.eqb_neq in Hh, HV, Hq. rewrite Hh, HV, Hq.
  destruct (Z.eqb_spec c (char_code "b")) as [-> | _];
    [do 2 eexists; split; [reflexivity |]; cbn; now rewrite !orb_false_r |].
  destruct (Z.eqb_spec c (char_code "d")) as [-> | _];
    [do 2 eexists; split; [reflexivity |]; cbn; now rewrite !orb_false_r |].
  destruct (Z.eqb_spec c (char_code "D")) as [-> | _];
    [do 2 eexists; split; [reflexivity |]; cbn; now rewrite !orb_false_r, ?orb_true_r |].
  destruct (Z.eqb_spec c (char_code "S")) as [-> | _];
    [do 2 eexists; split; [reflexivity |]; cbn; now rewrite !orb_false_r |].
  destruct (Z.eqb_spec c (char_code "U")) as [-> | _];
    [do 2 eexists; split; [reflexivity |]; cbn; now rewrite !orb_false_r |].
  destruct (Z.eqb_spec c (char_code "v")) as [-> | _];
    [do 2 eexists; split; [reflexivity |]; cbn; now rewrite !orb_false_r |].
  destruct (Z.eqb_spec c (char_code "X")) as [-> | _];
    [do 2 eexists; split; [reflexivity |]; cbn; now rewrite !orb_false_r, ?orb_true_r |].
  do 2 eexists. split; [reflexivity |]. now rewrite !orb_false_r.
Qed.


Lemma count_option_cons c r returns :
  count_option c (r :: returns)
  = (if fst r =? char_code c then 1 else 0) + count_option c returns.
Proof.
  unfold count_option. cbn [filter]. destruct (fst r =? char_code c); cbn [List.length]; lia.
Qed.

Lemma count_option_nonneg c returns : 0 <= count_option c returns.
Proof. unfold count_option. lia. Qed.

(** The counters as the two's-complement hardware leaves them. *)
Lemma main_options_counters returns v :
  Forall option_goes_on returns ->
  Int.in_range (g_debug v) ->
  Int.in_range (g_verbose v) ->
  exists out v',
    main_options argv0 DATE TIME returns v = (out, inl v') /\
    g_debug v' = Int.wrap (g_debug v + count_option "d" returns) /\
    g_verbose v' = Int.wrap (g_verbose v + count_option "v" returns) /\
    run_as_daemon v' = (run_as_daemon v || (0 <? count_option "D" returns))%bool /\
    xmas v' = (xmas v || (0 <? count_option "X" returns))%bool.
Proof.
  intros Hall. revert v. induction Hall as [| [c optarg] returns Hc _ IH];
    intros v Hd Hv.
  - exists [], v. split; [reflexivity |]. cbn.
    rewrite !Z.add_0_r, !wrap_small, !orb_false_r by assumption. repeat split.
  - destruct (main_option_goes_on c optarg v Hc) as (o & v1 & E & Ed & Ev & ED & EX).
    destruct (IH v1) as (o' & v' & E' & Ed' & Ev' & ED' & EX').
    { rewrite Ed. destruct (c =? char_code "d"); [apply wrap_in_range | exact Hd]. }
    { rewrite Ev. destruct (c =? char_code "v"); [apply wrap_in_range | exact Hv]. }
    destruct Hc as (Hm1 & _). cbn [fst] in Hm1.
    cbn [main_options]. assert (Em : (-1 =? c) = false) by (apply Z.eqb_neq; lia).
    rewrite Em, E, E'. do 2 eexists. split; [reflexivity |].
    rewrite !count_option_cons. cbn [fst].
    rewrite Ed', Ev', ED', EX', Ed, Ev, ED, EX.
    pose proof (count_option_nonneg "D" returns) as HD.
    pose proof (count_option_nonneg "X" returns) as HX.
    split; [| split; [| split]].
    + destruct (c =? char_code "d").
      * unfold Int.add. rewrite wrap_add_wrap. f_equal. lia.
      * f_equal.
    + destruct (c =? char_code "v").
      * unfold Int.add. rewrite wrap_add_wrap. f_equal. lia.
      * f_equal.
    + destruct (c =? char_code "D"), (run_as_daemon v); cbn [orb]; try reflexivity;
        destruct (Z.ltb_spec 0 (1 + count_option "D" returns));
        destruct (Z.ltb_spec 0 (0 + count_option "D" returns));
        destruct (Z.ltb_spec 0 (count_option "D" returns)); try reflexivity; lia.
    + destruct (c =? char_code "X"), (xmas v); cbn [orb]; try reflexivity;
        destruct (Z.ltb_spec 0 (1 + count_option "X" returns));
        destruct (Z.ltb_spec 0 (0 + count_option "X" returns));
        destruct (Z.ltb_spec 0 (count_option "X" returns)); try reflexivity; lia.
Qed.

(** The counters and flags after a command line that does not stop the
    loop and does not overflow the counters: [debug] and [verbose] have gone
    up by the number of their options, and [--daemon] and [--xmas] are set
    if given at least once and stay as they were otherwise. *)
Theorem main_options_counts_and_flags returns v :
  Forall option_goes_on returns ->
  Int.in_range (g_debug v) ->
  Int.in_range (g_verbose v) ->
  g_debug v + count_option "d" returns <= Int.max_signed ->
  g_verbose v + count_option "v" returns <= Int.max_signed ->
  exists out v',
    main_options argv0 DATE TIME returns v = (out, inl v') /\
    g_debug v' = g_debug v + count_option "d" returns /\
    g_verbose v' = g_verbose v + count_option "v" returns /\
    run_as_daemon v' = (run_as_daemon v || (0 <? count_option "D" returns))%bool /\
    xmas v' = (xmas v || (0 <? count_option "X" returns))%bool.
Proof.
  intros Hall Hd Hv Hd' Hv'.
  destruct (main_options_counters returns v Hall Hd Hv)
    as (out & v' & E & Ed & Ev & ED & EX).
  pose proof (count_option_nonneg "d" returns) as Nd.
  pose proof (count_option_nonneg "v" returns) as Nv.
  exists out, v'. split; [exact E |].
  split; [rewrite Ed; apply wrap_small; unfold Int.in_range in *; lia |].
  split; [rewrite Ev; apply wrap_small; unfold Int.in_range in *; lia |].
  split; [exact ED | exact EX].
Qed.

Lemma main_options_app pre rest v :
  Forall option_goes_on pre ->
  exists out v',
    main_options argv0 DATE TIME pre v = (out, inl v') /\
    main_options argv0 DATE TIME (pre ++ rest) v
    = ((out ++ fst (main_options argv0 DATE TIME rest v'))%list,
       snd (main_options argv0 DATE TIME rest v')).
Proof.
  intros Hall. revert v. induction Hall as [| [c optarg] pre Hc _ IH]; intros v.
  - exists [], v. split; [reflexivity |]. cbn [app].
    now destruct (main_options argv0 DATE TIME rest v).
  - destruct (main_option_goes_on c optarg v Hc) as (o & v1 & E & _).
    destruct (IH v1) as (o' & v' & E' & Eapp).
    destruct Hc as (Hm1 & _). cbn [fst] in Hm1.
    assert (Em : (-1 =? c) = false) by (apply Z.eqb_neq; lia).
    exists (o ++ o')%list, v'. cbn [app main_options].
    rewrite Em, E, E', Eapp. split; [reflexivity |].
    cbn [fst snd]. now rewrite app_assoc.
Qed.

(** [--help], [--version] and an option that [getopt_long] does not know
    end [main] on the spot, with the status 0, 0 and 1, after the usage, the
    version or the hint has been written: the rest of the command line is
    not looked at. *)
Theorem main_options_stop pre c optarg post v :
  Forall option_goes_on pre ->
  c = char_code "h" \/ c = char_code "V" \/ c = char_code "?" ->
  main_options argv0 DATE TIME (pre ++ (c, optarg) :: post) v
  = main_options argv0 DATE TIME (pre ++ [(c, optarg)]) v /\
  snd (main_options argv0 DATE TIME (pre ++ (c, optarg) :: post) v)
  = inr (if c =? char_code "?" then 1 else 0) /\
  exists out v',
    main_options argv0 DATE TIME pre v = (out, inl v') /\
    fst (main_options argv0 DATE TIME (pre ++ (c, optarg) :: post) v)
    = (out
       ++ (if c =? char_code "h" then fst show_help
           else if c =? char_code "V" then fst (show_version DATE TIME)
           else [Write_cout [Str "Try `"; Str argv0;
                             Str (" --help' for more information." ++ nl)]]))%list.
Proof.
  intros Hpre Hc.
  destruct (main_options_app pre ((c, optarg) :: post) v Hpre)
    as (out & v' & E & E1).
  destruct (main_options_app pre [(c, optarg)] v Hpre) as (out2 & v2 & E' & E2).
  rewrite E in E'. injection E' as <- <-.
  rewrite E1, E2.
  destruct Hc as [-> | [-> | ->]]; cbn [main_options]; cbn;
    (split; [reflexivity |]); (split; [reflexivity |]);
    exists out, v'; (split; [exact E | reflexivity]).
Qed.

End OptionsProperties.

(* ------------------------------------------------------------------------- *)
(** ** The further theorems on the examples *)

Import ProgramExamples.

(** [Init] where [udev_new], the creation of the monitor or the filter
    fails. *)
Lemma Init_throws_first_failure_witness :
  Init 0 1 (Some LedHpEx48X)
    (udev_answers_of None None 0 0 two_usb_three_bays) DeviceMonitor_new
  = ([], Thrown {| what := "udev_new" |}) /\
  Init 0 1 (Some LedHpEx48X)
    (udev_answers_of (Some Udev) None 0 0 two_usb_three_bays) DeviceMonitor_new
  = ([], Thrown {| what := "udev_monitor_new_from_netlink" |}) /\
  Init 0 1 (Some LedHpEx48X)
    (udev_answers_of (Some Udev) (Some UdevMonitor) (-1) 0 two_usb_three_bays)
    DeviceMonitor_new
  = ([], Thrown {| what := "udev_monitor_filter_add_match_subsystem_devtype" |}).
Proof.
  destruct (Init_throws_first_failure 0 1 (Some LedHpEx48X)
              (udev_answers_of None None 0 0 two_usb_three_bays) DeviceMonitor_new)
    as (F1 & _ & _).
  destruct (Init_throws_first_failure 0 1 (Some LedHpEx48X)
              (udev_answers_of (Some Udev) None 0 0 two_usb_three_bays)
              DeviceMonitor_new)
    as (_ & F2 & _).
  destruct (Init_throws_first_failure 0 1 (Some LedHpEx48X)
              (udev_answers_of (Some Udev) (Some UdevMonitor) (-1) 0
                 two_usb_three_bays)
              DeviceMonitor_new)
    as (_ & _ & F3).
  split; [apply F1; reflexivity |].
  split; [apply F2; [discriminate | reflexivity] |].
  apply F3; discriminate.
Defined.

(** [Init] where only [udev_monitor_enable_receiving] fails: the three bay
    disks have been reported all the same. *)
Lemma Init_enable_receiving_fails_after_enumeration_witness :
  snd (Init 0 0 (Some LedHpEx48X)
         (udev_answers_of (Some Udev) (Some UdevMonitor) 0 (-1) two_usb_three_bays)
         DeviceMonitor_new)
  = Thrown {| what := "udev_monitor_enable_receiving" |} /\
  fst (Init 0 0 (Some LedHpEx48X)
         (udev_answers_of (Some Udev) (Some UdevMonitor) 0 (-1) two_usb_three_bays)
         DeviceMonitor_new)
  = fst (Init 0 0 (Some LedHpEx48X) (answers two_usb_three_bays) DeviceMonitor_new).
Proof.
  destruct (Init_enable_receiving_fails_after_enumeration 0 0 (Some LedHpEx48X)
              (udev_answers_of (Some Udev) (Some UdevMonitor) 0 (-1)
                 two_usb_three_bays)
              DeviceMonitor_new)
    as (H1 & H2 & _); try discriminate; [reflexivity |].
  split; [exact H1 | exact H2].
Defined.

(** [Init] on the scan of two USB disks and three bay disks, then [Main]. *)
Lemma Init_then_Main_witness :
  dev_context_ (monitor 2) <> None /\
  dev_monitor_ (monitor 2) <> None /\
  leds_ (monitor 2) = Some LedHpEx48X /\
  forall wakeups,
    snd (Main 0 0 wakeups (monitor 2)) = Blocked (monitor 2) \/
    snd (Main 0 0 wakeups (monitor 2)) = Returned tt (monitor 2) \/
    snd (Main 0 0 wakeups (monitor 2)) = Thrown {| what := "select" |}.
Proof.
  destruct (Init_then_Main 0 0 (Some LedHpEx48X) (answers two_usb_three_bays)
              DeviceMonitor_new
              (fst (Init 0 0 (Some LedHpEx48X) (answers two_usb_three_bays)
                      DeviceMonitor_new))
              (monitor 2) eq_refl)
    as (_ & Hc & _ & Hm & Hl & HMain).
  split; [exact Hc |]. split; [exact Hm |]. split; [exact Hl | exact HMain].
Defined.

(** [Main] and [enumDevices_] on the monitor as the constructor leaves it. *)
Lemma Main_and_enumDevices__need_Init_witness :
  Main 0 0 [Failed EINTR] DeviceMonitor_new = ([], AssertionFailed "dev_monitor_") /\
  enumDevices_ 0 0 two_usb_three_bays DeviceMonitor_new
  = ([], AssertionFailed "dev_context_").
Proof.
  destruct (Main_and_enumDevices__need_Init 0 0 DeviceMonitor_new) as [HMain Henum].
  split; [apply HMain | apply Henum]; reflexivity.
Defined.

(** The action "change" on a bay disk. *)
Lemma Main_notification_other_action_witness :
  snd (Main_notification 0 2 (Some (pci_disk "2" (Some "change"))) (monitor 2))
  = Returned tt (monitor 2) /\
  led_calls (fst (Main_notification 0 2 (Some (pci_disk "2" (Some "change")))
                    (monitor 2)))
  = [] /\
  fst (Main_notification 0 2 (Some (pci_disk "2" (Some "change"))) (monitor 2)) = [].
Proof.
  destruct (Main_notification_other_action 0 2 (pci_disk "2" (Some "change"))
              "change" (monitor 2) eq_refl)
    as (H1 & H2 & _ & H3); [discriminate | discriminate |].
  split; [exact H1 |]. split; [exact H2 | apply H3; reflexivity].
Defined.

(** An "add", a signal, and an "add" that comes too late. *)
Lemma Main_handles_in_order_witness :
  Main 0 0 [Woken true (Some (pci_disk "2" (Some "add"))); Failed EINTR;
            Woken true (Some (pci_disk "3" (Some "add")))] (monitor 2)
  = Main 0 0 [Woken true (Some (pci_disk "2" (Some "add"))); Failed EINTR]
      (monitor 2) /\
  led_calls
    (fst (Main 0 0 [Woken true (Some (pci_disk "2" (Some "add"))); Failed EINTR;
                    Woken true (Some (pci_disk "3" (Some "add")))] (monitor 2)))
  = [Leds_Set LED_BLUE 0 true].
Proof.
  destruct (Main_handles_in_order 0 0
              [Woken true (Some (pci_disk "2" (Some "add")))] EINTR
              [Woken true (Some (pci_disk "3" (Some "add")))] (monitor 2))
    as (H1 & _ & H3).
  - discriminate.
  - constructor; [exact I | constructor].
  - split; [exact H1 |]. cbn [app] in H3. rewrite H3. reflexivity.
Defined.

(** The bay disk on [host2] is added and removed under offset 2. *)
Lemma add_and_remove_meet_on_one_led_witness :
  led_calls (fst (Main_notification 0 0 (Some (pci_disk "2" (Some "REMOVE")))
                    (monitor 2)))
  = map (with_state false)
      (led_calls (fst (Main_notification 0 0 (Some (pci_disk "2" (Some "add")))
                         (monitor 2)))) /\
  led_calls (fst (Main_notification 0 0 (Some (pci_disk "2" (Some "add")))
                    (monitor 2)))
  = [Leds_Set LED_BLUE 0 true].
Proof.
  destruct (add_and_remove_meet_on_one_led 0 0
              (pci_disk "2" (Some "add")) (pci_disk "2" (Some "REMOVE"))
              "add" "REMOVE" (monitor 2) eq_refl eq_refl eq_refl eq_refl eq_refl)
    as (H1 & _ & _).
  split; [exact H1 | reflexivity].
Defined.

(** Under offset 2 the USB disk on [host0] resolves to 1 and lights LED 0. *)
Lemma non_pci_device_below_offset_lights_a_led_witness :
  snd (getLedIndexForDevice_ 0 0 (usb_disk "0" (Some "add")) (monitor 2))
  = Returned (2 - atoi "0" - 1) (monitor 2) /\
  led_calls (fst (Main_notification 0 0 (Some (usb_disk "0" (Some "add")))
                    (monitor 2)))
  = [Leds_Set LED_BLUE (2 - atoi "0" - 2) true].
Proof.
  apply (non_pci_device_below_offset_lights_a_led 0 0
           (usb_disk "0" (Some "add")) "add" (monitor 2)
           (scsi_host "0" (Some usb_interface)) "0" usb_interface "usb");
    try reflexivity; try discriminate.
  - apply in_int_range. reflexivity.
Defined.

(** A USB disk on [host0] and a bay disk on [host1], in either order. *)
Lemma enumDevices_collect_order_of_distinct_keys_witness :
  snd (enumDevices_collect 0 0
         [Some (usb_disk "0" None); Some (pci_disk "1" None)] [] (monitor 0))
  = snd (enumDevices_collect 0 0
           [Some (pci_disk "1" None); Some (usb_disk "0" None)] [] (monitor 0)).
Proof.
  apply (enumDevices_collect_order_of_distinct_keys 0 0
           (usb_disk "0" None) (pci_disk "1" None) (-1) 2 [] [] (monitor 0));
    try reflexivity; discriminate.
Defined.

(** The entry at key 3 of the snapshot of two USB disks and three bay
    disks. *)
Lemma snapshot_entries_come_from_the_scan_witness :
  exists dev n,
    In (Some dev) two_usb_three_bays /\
    snd (getLedIndexForDevice_ 0 0 dev (monitor 0)) = Returned n (monitor 0) /\
    n <> 0 /\
    3 = Int.abs n /\
    Some (pci_disk "2" None) = (if n <? 0 then None else Some dev).
Proof.
  apply (snapshot_entries_come_from_the_scan 0 0 two_usb_three_bays (monitor 0)
           3 (Some (pci_disk "2" None))).
  right. right. left. reflexivity.
Defined.

(** A scan of an entry that could not be opened and of a disk without SCSI
    host. *)
Lemma enumDevices__nothing_to_report_witness :
  snapshot_of 1 0 [None; Some (disk None None)] (monitor 0) = [] /\
  snd (enumDevices_ 1 0 [None; Some (disk None None)] (monitor 0))
  = Returned tt (monitor 0) /\
  stores (fst (enumDevices_ 1 0 [None; Some (disk None None)] (monitor 0))) = [] /\
  led_calls (fst (enumDevices_ 1 0 [None; Some (disk None None)] (monitor 0))) = [].
Proof.
  apply (enumDevices__nothing_to_report 1 0 [None; Some (disk None None)] (monitor 0)).
  - discriminate.
  - constructor; [exact I |]. constructor; [reflexivity | constructor].
Defined.

Lemma small_show z :
  (1 <=? z) && (z <=? Int.max_signed) = true -> 1 <= z <= Int.max_signed.
Proof.
  intros H. apply andb_prop in H. destruct H as [H1 H2].
  split; [now apply Z.leb_le | now apply Z.leb_le].
Qed.

(** Show 4 (the light going to and fro, in blue): two pauses elapse, the
    third is interrupted by a signal. *)
Lemma run_light_show_ends_on_failed_pause_witness :
  snd (run_light_show bits counting 4 [Elapsed; Elapsed]) = Going /\
  snd (run_light_show bits counting 4 [Elapsed; Elapsed; Broken EINTR; Elapsed])
  = Done 0.
Proof.
  apply (run_light_show_ends_on_failed_pause bits counting 4 [Elapsed; Elapsed]
           EINTR [Elapsed]).
  - apply small_show. reflexivity.
  - repeat constructor.
Defined.

(** Show 9 (the pulse, in red). *)
Lemma run_light_show_keeps_to_colour_and_bays_witness :
  Forall (show_event_ok (show_colour bits 9))
    (fst (run_light_show bits counting 9 [Elapsed; Broken EINTR])).
Proof.
  apply (run_light_show_keeps_to_colour_and_bays bits counting 9 [Elapsed; Broken EINTR]).
  split; [lia |]. apply (small_show 9). reflexivity.
Defined.

(** Seven frames of show 4: the light is on the bays 0, 1, 2, 3, 2, 1, 0. *)
Lemma run_light_show_frames_witness :
  run_light_show bits counting 4 (repeat Elapsed 6)
  = (flat_map (fun j => show_frame_at ((4 - 2) mod 4 + 1) (show_colour bits 4)
                          (Z.of_nat j))
       (seq 0 7),
     Going) /\
  map (fun j => show_frame_at 3 1 (Z.of_nat j)) (seq 0 7)
  = map (set_only 1) [0; 1; 2; 3; 2; 1; 0].
Proof.
  split; [| reflexivity].
  apply (run_light_show_frames bits counting 4 6).
  split; [lia |]. apply (small_show 4). reflexivity.
Defined.

(** [main] where [sigaction] fails, and where no LED interface is found. *)
Lemma main_run_start_up_failures_witness :
  main_run 0 0 bits main_vars_init
    (system (-1) 0 true true (answers two_usb_three_bays) [])
  = ([Call_sigaction SIGINT;
      Write_cerr_what (errno_exception {| what := "sigaction(SIGINT)" |})],
     Done 1) /\
  main_run 0 0 bits main_vars_init
    (system 0 (-1) true true (answers two_usb_three_bays) [])
  = ([Call_sigaction SIGINT; Call_sigaction SIGTERM;
      Write_cerr_what (errno_exception {| what := "sigaction(SIGTERM)" |})],
     Done 1) /\
  main_run 0 0 bits main_vars_init
    (system 0 0 false false (answers two_usb_three_bays) [])
  = ([Call_sigaction SIGINT; Call_sigaction SIGTERM;
      LedControl_Init LedAcerH340; LedControl_Init LedHpEx48X;
      Write_cerr_what (runtime_error "Failed to find an LED control interface")],
     Done 1).
Proof.
  destruct (main_run_start_up_failures 0 0 bits main_vars_init
              (system (-1) 0 true true (answers two_usb_three_bays) []))
    as (F1 & _ & _).
  destruct (main_run_start_up_failures 0 0 bits main_vars_init
              (system 0 (-1) true true (answers two_usb_three_bays) []))
    as (_ & F2 & _).
  destruct (main_run_start_up_failures 0 0 bits main_vars_init
              (system 0 0 false false (answers two_usb_three_bays) []))
    as (_ & _ & F3).
  split; [apply F1; reflexivity |].
  split; [apply F2; [discriminate | reflexivity] |].
  apply F3; try discriminate; reflexivity.
Defined.

(** [main] on a machine with the HP interface. *)
Lemma main_run_drops_privileges_first_witness :
  exists rest,
    fst (main_run 0 0 bits main_vars_init
           (system 0 0 false true (answers two_usb_three_bays) [Failed EINTR]))
    = (Call_sigaction SIGINT :: Call_sigaction SIGTERM
         :: [LedControl_Init LedAcerH340; LedControl_Init LedHpEx48X]
         ++ [Call_setgid 65533; Call_setuid 65534] ++ rest)%list.
Proof.
  apply (main_run_drops_privileges_first 0 0 bits main_vars_init
           (system 0 0 false true (answers two_usb_three_bays) [Failed EINTR])
           [LedControl_Init LedAcerH340; LedControl_Init LedHpEx48X] LedHpEx48X);
    try discriminate; reflexivity.
Defined.

(** [main --xmas --brightness=5] on a machine with the Acer interface. *)
Lemma main_run_xmas_witness :
  exists before,
    Forall before_bays before /\
    main_run 0 0 bits with_xmas
      (system 0 0 true false (answers two_usb_three_bays) [])
    = ((before ++ set_all_bays bits true)%list, Done 0).
Proof.
  apply (main_run_xmas 0 0 bits with_xmas
           (system 0 0 true false (answers two_usb_three_bays) [])
           [LedControl_Init LedAcerH340] LedAcerH340);
    try discriminate; try reflexivity.
  left. reflexivity.
Defined.

(** [main] as the monitor of two USB disks and three bay disks, ended by a
    signal: the system LED blinks again and the status is 0. *)
Lemma main_run_monitoring_witness :
  exists before,
    Forall before_bays before /\
    main_run 0 0 bits main_vars_init
      (system 0 0 false true (answers two_usb_three_bays) [Failed EINTR])
    = ((before ++ set_all_bays bits false
          ++ map Of_monitor
               (fst (Init 0 0 (Some LedHpEx48X) (answers two_usb_three_bays)
                       DeviceMonitor_new)
                ++ [Cout [Str ("Exiting on signal" ++ nl)]])
          ++ [LedControl_SetSystemLed (bits LED_BLUE) LED_BLINK])%list,
       Done 0).
Proof.
  destruct (main_run_monitoring 0 0 bits main_vars_init
              (system 0 0 false true (answers two_usb_three_bays) [Failed EINTR])
              [LedControl_Init LedAcerH340; LedControl_Init LedHpEx48X] LedHpEx48X)
    as (before & Hbefore & H);
    try discriminate; try reflexivity.
  - left. reflexivity.
  - exists before. split; [exact Hbefore | exact H].
Defined.

(** The command line [--debug -v -v -D]. *)
Lemma main_options_counts_and_flags_witness :
  exists out v',
    main_options "mediasmartserverd" "Jan  1 2010" "00:00:00"
      [(char_code "d", None); (char_code "v", None); (char_code "v", None);
       (char_code "D", None)]
      main_vars_init
    = (out, inl v') /\
    g_debug v' = 1 /\ g_verbose v' = 2 /\ run_as_daemon v' = true /\ xmas v' = false.
Proof.
  destruct (main_options_counts_and_flags "mediasmartserverd" "Jan  1 2010" "00:00:00"
              [(char_code "d", None); (char_code "v", None); (char_code "v", None);
               (char_code "D", None)]
              main_vars_init)
    as (out & v' & E & Hd & Hv & HD & HX).
  - repeat constructor; discriminate.
  - apply in_int_range. reflexivity.
  - apply in_int_range. reflexivity.
  - discriminate.
  - discriminate.
  - exists out, v'. split; [exact E |].
    split; [exact Hd |]. split; [exact Hv |]. split; [exact HD | exact HX].
Defined.

(** The command line [-v --help --xmas]. *)
Lemma main_options_stop_witness :
  snd (main_options "mediasmartserverd" "Jan  1 2010" "00:00:00"
         [(char_code "v", None); (char_code "h", None); (char_code "X", None)]
         main_vars_init)
  = inr 0.
Proof.
  apply (main_options_stop "mediasmartserverd" "Jan  1 2010" "00:00:00"
           [(char_code "v", None)] (char_code "h") None [(char_code "X", None)]
           main_vars_init).
  - repeat constructor; discriminate.
  - left. reflexivity.
Defined.
